(** * Bootstrap workflow of the Rubrik CDM SDK (rubrik_cdm/rubrik_cdm.py)

    A shallow embedding of [Bootstrap.__init__], [Bootstrap.setup_cluster],
    [Bootstrap.status] and the part of [Connect.__init__] that [status]
    runs, followed by the properties of the bootstrap-and-poll workflow.

    Python values are a small inductive type, dictionaries are association
    lists in insertion order, and the effects of the code (HTTP calls,
    [time.sleep], exceptions) are threaded through a trace-and-error monad. *)

From Stdlib Require Import String Ascii List ZArith Bool Lia ZifyNat.
From Stdlib Require Import DecimalString DecimalPos.
Import ListNotations.
Open Scope string_scope.
Open Scope Z_scope.

Set Warnings "-register-all".

(* ------------------------------------------------------------------ *)
(** ** Python values *)

(** The JSON-shaped values the workflow handles.  Strings are sequences of
    code points below 256; JSON numbers with a fraction are outside the
    model.  A dictionary keeps its keys in insertion order. *)
Inductive pyval : Type :=
| PNone
| PBool (b : bool)
| PInt (z : Z)
| PStr (s : string)
| PList (l : list pyval)
| PDict (d : list (string * pyval)).

Definition dict := list (string * pyval).

Fixpoint dict_get (k : string) (d : dict) : option pyval :=
  match d with
  | [] => None
  | (k', v) :: r => if String.eqb k' k then Some v else dict_get k r
  end.

(** [d[k] = v]: an existing key keeps its position, a new key goes last. *)
Fixpoint dict_set (k : string) (v : pyval) (d : dict) : dict :=
  match d with
  | [] => [(k, v)]
  | (k', v') :: r =>
      if String.eqb k' k then (k', v) :: r else (k', v') :: dict_set k v r
  end.

Definition dict_mem (k : string) (d : dict) : bool :=
  match dict_get k d with Some _ => true | None => false end.

(** [needle in hay] on strings. *)
Definition str_in (needle hay : string) : bool :=
  match index 0 needle hay with Some _ => true | None => false end.

(** [s[:n]] *)
Definition str_take (n : nat) (s : string) : string := substring 0 n s.

Definition isinstance_dict (v : pyval) : bool :=
  match v with PDict _ => true | _ => false end.

Definition isinstance_list (v : pyval) : bool :=
  match v with PList _ => true | _ => false end.

Definition is_none (v : pyval) : bool :=
  match v with PNone => true | _ => false end.

(** Truth value of an object in a condition. *)
Definition py_truthy (v : pyval) : bool :=
  match v with
  | PNone => false
  | PBool b => b
  | PInt z => negb (z =? 0)
  | PStr s => negb (String.eqb s "")
  | PList l => match l with [] => false | _ => true end
  | PDict d => match d with [] => false | _ => true end
  end.

(** [v == "s"] and [v == n] (a bool compares as the integer 0 or 1). *)
Definition py_eq_str (v : pyval) (s : string) : bool :=
  match v with PStr s' => String.eqb s' s | _ => false end.

Definition py_eq_int (v : pyval) (n : Z) : bool :=
  match v with
  | PInt z => z =? n
  | PBool b => (if b then 1 else 0) =? n
  | _ => false
  end.

(* ------------------------------------------------------------------ *)
(** ** [str], [repr] and ["{}".format] *)

Definition str_of_Z (z : Z) : string := NilZero.string_of_int (Z.to_int z).

Definition hex_digit (n : nat) : ascii :=
  ascii_of_nat (if (n <? 10)%nat then 48 + n else 87 + n).

Definition hex_escape (c : ascii) : string :=
  let n := nat_of_ascii c in
  String "\" (String "x" (String (hex_digit (n / 16)) (String (hex_digit (n mod 16)) ""))).

Definition printable (c : ascii) : bool :=
  let n := nat_of_ascii c in
  ((32 <=? n) && (n <? 127) || (161 <=? n) && negb (n =? 173))%nat.

Fixpoint has_char (c : ascii) (s : string) : bool :=
  match s with
  | EmptyString => false
  | String c' r => Ascii.eqb c c' || has_char c r
  end.

Definition squote : ascii := ascii_of_nat 39.
Definition dquote : ascii := ascii_of_nat 34.
Definition bslash : ascii := ascii_of_nat 92.

Fixpoint repr_chars (q : ascii) (s : string) : string :=
  match s with
  | EmptyString => EmptyString
  | String c r =>
      let n := nat_of_ascii c in
      (if Ascii.eqb c q || Ascii.eqb c bslash then String bslash (String c "")
       else if (n =? 9)%nat then String bslash "t"
       else if (n =? 10)%nat then String bslash "n"
       else if (n =? 13)%nat then String bslash "r"
       else if printable c then String c ""
       else hex_escape c) ++ repr_chars q r
  end.

(** [repr] of a string: single quotes unless the text has a single quote
    and no double quote. *)
Definition repr_str (s : string) : string :=
  let q := if has_char squote s && negb (has_char dquote s) then dquote else squote in
  String q (repr_chars q s ++ String q "").

Fixpoint py_repr (v : pyval) : string :=
  match v with
  | PNone => "None"
  | PBool b => if b then "True" else "False"
  | PInt z => str_of_Z z
  | PStr s => repr_str s
  | PList l =>
      "[" ++ (fix items (l : list pyval) : string :=
                match l with
                | [] => ""
                | x :: r =>
                    match r with
                    | [] => py_repr x
                    | _ :: _ => py_repr x ++ ", " ++ items r
                    end
                end) l ++ "]"
  | PDict d =>
      "{" ++ (fix items (d : list (string * pyval)) : string :=
                match d with
                | [] => ""
                | (k, x) :: r =>
                    match r with
                    | [] => repr_str k ++ ": " ++ py_repr x
                    | _ :: _ => repr_str k ++ ": " ++ py_repr x ++ ", " ++ items r
                    end
                end) d ++ "}"
  end.

(** [str(v)], which is also what a bare [{}] field of [str.format] shows. *)
Definition py_str (v : pyval) : string :=
  match v with
  | PStr s => s
  | _ => py_repr v
  end.

(* ------------------------------------------------------------------ *)
(** ** [float] of a string *)

(** The value [float] reads from a text: the exact decimal it denotes,
    an infinity or a NaN. *)
Inductive fval : Type :=
| FNan
| FInf (negative : bool)
| FDec (m : Z) (e : Z).   (* m * 10^e *)

Definition is_space (c : ascii) : bool :=
  let n := nat_of_ascii c in
  ((9 <=? n) && (n <=? 13) || (28 <=? n) && (n <=? 32) || (n =? 133) || (n =? 160))%nat.

Definition is_digit (c : ascii) : bool :=
  let n := nat_of_ascii c in ((48 <=? n) && (n <=? 57))%nat.

Definition digit_val (c : ascii) : Z := Z.of_nat (nat_of_ascii c) - 48.

Definition lower (c : ascii) : ascii :=
  let n := nat_of_ascii c in
  if ((65 <=? n) && (n <=? 90))%nat then ascii_of_nat (n + 32) else c.

Fixpoint drop_spaces (l : list ascii) : list ascii :=
  match l with
  | c :: r => if is_space c then drop_spaces r else l
  | [] => []
  end.

Definition strip (l : list ascii) : list ascii :=
  rev (drop_spaces (rev (drop_spaces l))).

(** Underscores may only stand between two digits; they are removed. *)
Fixpoint strip_underscores (prev : ascii) (l : list ascii) : option (list ascii) :=
  match l with
  | [] => if Ascii.eqb prev "_" then None else Some []
  | c :: r =>
      if Ascii.eqb c "_" then
        if is_digit prev then strip_underscores c r else None
      else if Ascii.eqb prev "_" && negb (is_digit c) then None
      else option_map (cons c) (strip_underscores c r)
  end.

(** Leading digits of [l]: the number read so far, how many, the rest. *)
Fixpoint take_digits (l : list ascii) (acc : Z) (n : Z) : Z * Z * list ascii :=
  match l with
  | c :: r => if is_digit c then take_digits r (10 * acc + digit_val c) (n + 1)
              else (acc, n, l)
  | [] => (acc, n, [])
  end.

Definition take_sign (l : list ascii) : bool * list ascii :=
  match l with
  | c :: r => if Ascii.eqb c "-" then (true, r)
              else if Ascii.eqb c "+" then (false, r) else (false, l)
  | [] => (false, [])
  end.

Definition parse_exponent (l : list ascii) : option Z :=
  match l with
  | [] => Some 0
  | c :: r =>
      if Ascii.eqb (lower c) "e" then
        let '(neg, r1) := take_sign r in
        let '(x, n, r2) := take_digits r1 0 0 in
        match r2 with
        | [] => if n =? 0 then None else Some (if neg then - x else x)
        | _ :: _ => None
        end
      else None
  end.

Definition parse_number (l : list ascii) : option (Z * Z) :=
  let '(ip, ni, r1) := take_digits l 0 0 in
  let '(m, nf, r2) :=
    match r1 with
    | c :: r => if Ascii.eqb c "." then take_digits r ip 0 else (ip, 0, r1)
    | [] => (ip, 0, r1)
    end in
  if ni + nf =? 0 then None
  else match parse_exponent r2 with
       | Some x => Some (m, x - nf)
       | None => None
       end.

(** [float(s)]; [None] stands for the [ValueError] of a text that is not a
    number. *)
Definition py_float (s : string) : option fval :=
  match strip_underscores "000" (strip (list_ascii_of_string s)) with
  | None => None
  | Some l =>
      let '(neg, r) := take_sign l in
      let word := string_of_list_ascii (map lower r) in
      if String.eqb word "inf" || String.eqb word "infinity" then Some (FInf neg)
      else if String.eqb word "nan" then Some FNan
      else match parse_number r with
           | Some (m, e) => Some (FDec (if neg then - m else m) e)
           | None => None
           end
  end.

(** [x < float(5.0)].  The double nearest to a decimal of at most three
    characters lies on the same side of 5.0 as the decimal itself, so the
    test on the exact value is the test the code makes on [version[:3]]. *)
Definition float_lt_5 (x : fval) : bool :=
  match x with
  | FNan => false
  | FInf negative => negative
  | FDec m e => if 0 <=? e then m * 10 ^ e <? 5 else m <? 5 * 10 ^ (- e)
  end.

(* ------------------------------------------------------------------ *)
(** ** Exceptions, events and the monad of the workflow *)

(** Modelled from the spec: rubrik_cdm/exceptions.py is not part of the
    sources at hand; the exception classes the code names are the kinds of
    the error taxonomy of section 7, kept distinct, so that an [except]
    clause catches the named class only.  The other kinds are [sys.exit]
    and the errors of the builtins the code applies to documents. *)
Inductive exn_kind : Type :=
| InvalidParameterException | RubrikException | APICallException
| InvalidTypeException | SystemExit | OSError
| IndexError | KeyError | TypeError | ValueError.

Definition exn_kind_eqb (a b : exn_kind) : bool :=
  match a, b with
  | InvalidParameterException, InvalidParameterException
  | RubrikException, RubrikException
  | APICallException, APICallException
  | InvalidTypeException, InvalidTypeException
  | SystemExit, SystemExit
  | OSError, OSError
  | IndexError, IndexError
  | KeyError, KeyError
  | TypeError, TypeError
  | ValueError, ValueError => true
  | _, _ => false
  end.

(** An exception with [str(e)].  The text of an error raised by a builtin
    is not modelled and left empty. *)
Record exn : Type := mkExn { kind : exn_kind; text : string }.

(** What the transport answers: the decoded JSON or an exception. *)
Inductive reply : Type :=
| Reply (doc : pyval)
| Fails (e : exn).

(** [self.get] goes to the address resolved at construction; the [get] of
    the [Connect] object built in [status] goes to that object's node. *)
Inductive client : Type :=
| Primary
| Fallback (node_ip : pyval).

Inductive event : Type :=
| EGet (c : client) (api_version endpoint : string) (timeout : pyval) (r : reply)
| EPost (api_version endpoint : string) (config : pyval) (timeout : pyval) (r : reply)
| ESleep (seconds : Z).

Definition trace := list event.

Definition is_primary_get (e : event) : bool :=
  match e with EGet Primary _ _ _ _ => true | _ => false end.

Definition is_fallback_get (e : event) : bool :=
  match e with EGet (Fallback _) _ _ _ _ => true | _ => false end.

Definition is_get (e : event) : bool :=
  match e with EGet _ _ _ _ _ => true | _ => false end.

Definition is_post (e : event) : bool :=
  match e with EPost _ _ _ _ _ => true | _ => false end.

Definition is_sleep (e : event) : bool :=
  match e with ESleep _ => true | _ => false end.

Definition is_network (e : event) : bool := is_get e || is_post e.

Definition count (p : event -> bool) (t : trace) : nat := length (filter p t).

(** Modelled from the spec: the transport collaborator of section 6
    ([Api.get] and [Api.post] of rubrik_cdm/api.py are not part of the
    sources at hand), "request(method, apiVersion, path, body?, timeout,
    useAuthentication) -> JSON | TransportError".  The cluster is a script:
    the answer to the n-th call of each sort. *)
Record transport : Type := {
  get_reply : nat -> reply;
  post_reply : nat -> reply;
  fallback_reply : nat -> reply
}.

(** [os.environ.get] of the four variables [Connect] reads. *)
Record os_environ : Type := {
  rubrik_cdm_node_ip : option string;
  rubrik_cdm_username : option string;
  rubrik_cdm_password : option string;
  rubrik_cdm_token : option string
}.

Record world : Type := { net : transport; environ : os_environ }.

Inductive outcome (A : Type) : Type :=
| Ok (a : A)
| Raise (e : exn)
| OutOfFuel.
Arguments Ok {A} a.
Arguments Raise {A} e.
Arguments OutOfFuel {A}.

(** A computation reads the world, extends the trace of what it did and
    ends with a value, an exception or an exhausted loop budget. *)
Definition M (A : Type) : Type := world -> trace -> outcome A * trace.

Definition ret {A} (a : A) : M A := fun _ t => (Ok a, t).

Definition raise {A} (k : exn_kind) (msg : string) : M A :=
  fun _ t => (Raise (mkExn k msg), t).

Definition reraise {A} (e : exn) : M A := fun _ t => (Raise e, t).

Definition out_of_fuel {A} : M A := fun _ t => (OutOfFuel, t).

Definition bind {A B} (m : M A) (k : A -> M B) : M B :=
  fun w t =>
    match m w t with
    | (Ok a, t') => k a w t'
    | (Raise e, t') => (Raise e, t')
    | (OutOfFuel, t') => (OutOfFuel, t')
    end.

Declare Scope py_scope.
Delimit Scope py_scope with py.
Notation "x <- m ;; k" := (bind m (fun x => k))
  (at level 61, m at next level, right associativity) : py_scope.
Notation "m ;; k" := (bind m (fun _ => k))
  (at level 61, right associativity) : py_scope.
Open Scope py_scope.

(** A pure step that may raise. *)
Definition lift {A} (o : outcome A) : M A := fun _ t => (o, t).

(** [try: m except Exception as e: ...]: the exception becomes a value. *)
Definition try_ {A} (m : M A) : M (A + exn) :=
  fun w t =>
    match m w t with
    | (Ok a, t') => (Ok (inl a), t')
    | (Raise e, t') => (Ok (inr e), t')
    | (OutOfFuel, t') => (OutOfFuel, t')
    end.

Definition answer (r : reply) : outcome pyval :=
  match r with Reply d => Ok d | Fails e => Raise e end.

(** [client.get(api_version, endpoint, timeout, authentication=False)] *)
Definition api_get (c : client) (api_version endpoint : string) (timeout : pyval)
  : M pyval :=
  fun w t =>
    let r := match c with
             | Primary => get_reply (net w) (count is_primary_get t)
             | Fallback _ => fallback_reply (net w) (count is_fallback_get t)
             end in
    (answer r, (t ++ [EGet c api_version endpoint timeout r])%list).

(** [self.post(api_version, endpoint, config, timeout, authentication=False)] *)
Definition api_post (api_version endpoint : string) (config timeout : pyval)
  : M pyval :=
  fun w t =>
    let r := post_reply (net w) (count is_post t) in
    (answer r, (t ++ [EPost api_version endpoint config timeout r])%list).

(** [time.sleep(seconds)] *)
Definition sleep (seconds : Z) : M unit :=
  fun _ t => (Ok tt, (t ++ [ESleep seconds])%list).

(** [v[key]] for a string key. *)
Definition py_getitem (v : pyval) (key : string) : outcome pyval :=
  match v with
  | PDict d => match dict_get key d with
               | Some x => Ok x
               | None => Raise (mkExn KeyError "")
               end
  | _ => Raise (mkExn TypeError "")
  end.

(* ------------------------------------------------------------------ *)
(** ** [Connect.__init__], as far as [status] depends on it *)

Record connect : Type := {
  conn_node_ip : pyval;
  conn_api_token : pyval
}.

Definition environ_get (o : option string) : pyval :=
  match o with Some s => PStr s | None => PNone end.

Definition mem (s : string) (l : list string) : bool := existsb (String.eqb s) l.

(** One credential: the argument if it is truthy, else the environment
    variable; the name is noted in the list of the source it came from. *)
Definition credential (name : string) (arg : pyval) (var : option string)
  : pyval * list string * list string :=
  if py_truthy arg then (arg, [name], [])
  else (environ_get var, [], match var with Some _ => [name] | None => [] end).

Definition Connect_init (env : os_environ)
    (node_ip username password api_token : pyval) (logging_level : string)
  : outcome connect :=
  if negb (mem logging_level ["debug"; "critical"; "error"; "warning"; "info"]) then
    Raise (mkExn InvalidParameterException
      ("'" ++ logging_level ++ "' is not a valid logging_level. Valid choices are 'debug', 'critical', 'error', 'warning', or 'info'."))
  else
  let node_ip := if is_none node_ip then environ_get (rubrik_cdm_node_ip env) else node_ip in
  if is_none node_ip then
    Raise (mkExn InvalidParameterException "The Rubrik CDM Node IP has not been provided.")
  else
  let '(username, m1, e1) := credential "username" username (rubrik_cdm_username env) in
  let '(password, m2, e2) := credential "password" password (rubrik_cdm_password env) in
  let '(api_token, m3, e3) := credential "api_token" api_token (rubrik_cdm_token env) in
  let credentials_manually_provided := (m1 ++ m2 ++ m3)%list in
  let credentials_env_var_provided := (e1 ++ e2 ++ e3)%list in
  let all_credentials_provided :=
    (credentials_manually_provided ++ credentials_env_var_provided)%list in
  if (length credentials_manually_provided =? 3)%nat then
    Raise (mkExn InvalidParameterException
      "You have provided both an API token and a username and password for authentication. You may only use one or the other.")
  else if mem "username" all_credentials_provided
          && negb (mem "password" all_credentials_provided) then
    Raise (mkExn InvalidParameterException
      "When providing the username argument, either manually or through the environment variables, you must also provide a password. Alternatively, starting with CDM 5.0, you may also use API Token instead of username and password.")
  else if mem "password" all_credentials_provided
          && negb (mem "username" all_credentials_provided) then
    Raise (mkExn InvalidParameterException
      "When providing the password argument, either manually or through the environment variables, you must also provide a username. Alternatively, starting with CDM 5.0, you may also use API Token instead of username and password.")
  else
  (* the pair is: self.api_token, credentials_needed_for_authentication *)
  let s1 := if mem "username" credentials_manually_provided
               && mem "password" credentials_manually_provided
            then (PNone, true) else (PNone, false) in
  let s2 := if mem "api_token" credentials_manually_provided
            then (api_token, true) else s1 in
  if negb (snd s2) && (length credentials_env_var_provided =? 3)%nat then
    Raise (mkExn InvalidParameterException
      "You have provided both an API token and a username and password, in your environment variables, for authentication. You may only use one or the other.")
  else
  let s3 := if negb (snd s2) && mem "username" all_credentials_provided
               && mem "password" all_credentials_provided
            then (PNone, true) else s2 in
  let s4 := if negb (snd s2) && mem "api_token" credentials_env_var_provided
               && negb (snd s3)
            then (api_token, true) else s3 in
  if negb (snd s4) then
    Raise (mkExn InvalidParameterException
      "You must provide either a username and password or API Token for authentication.")
  else Ok {| conn_node_ip := node_ip; conn_api_token := fst s4 |}.

(* ------------------------------------------------------------------ *)
(** ** [Bootstrap.status] *)

Definition status (request_id timeout ipv4_addr : pyval) : M pyval :=
  let bootstrap_status_api_endpoint :=
    "/cluster/me/bootstrap?request_id=" ++ py_str request_id in
  r <- try_ (api_get Primary "internal" bootstrap_status_api_endpoint timeout) ;;
  match r with
  | inl api_request => ret api_request
  | inr e =>
      if exn_kind_eqb (kind e) APICallException then
        (* if connection failed, then try to reconnect on the IPv4 address
           of one of the nodes *)
        ipv4_conn <- (fun w t =>
          (Connect_init (environ w) ipv4_addr PNone PNone (PStr "abcd") "debug", t)) ;;
        api_get (Fallback (conn_node_ip ipv4_conn)) "internal"
                bootstrap_status_api_endpoint timeout
      else reraise e
  end.

(* ------------------------------------------------------------------ *)
(** ** [Bootstrap.setup_cluster] *)

Record setup_args : Type := {
  cluster_name : pyval;
  admin_email : pyval;
  admin_password : pyval;
  management_gateway : pyval;
  management_subnet_mask : pyval;
  node_config : pyval;
  enable_encryption : pyval;
  dns_search_domains : pyval;
  dns_nameservers : pyval;
  ntp_servers : pyval;
  wait_for_completion : pyval;
  management_vlan : pyval;
  ipmi_gateway : pyval;
  ipmi_subnet_mask : pyval;
  ipmi_vlan : pyval;
  node_ipmi_ips : pyval;
  data_gateway : pyval;
  data_subnet_mask : pyval;
  data_vlan : pyval;
  node_data_ips : pyval;
  timeout : pyval
}.

(** The call with every keyword argument left at its default. *)
Definition default_args (cluster_name admin_email admin_password
    management_gateway management_subnet_mask node_config : pyval) : setup_args :=
  {| cluster_name := cluster_name; admin_email := admin_email;
     admin_password := admin_password;
     management_gateway := management_gateway;
     management_subnet_mask := management_subnet_mask;
     node_config := node_config;
     enable_encryption := PBool true; dns_search_domains := PNone;
     dns_nameservers := PNone; ntp_servers := PNone;
     wait_for_completion := PBool true; management_vlan := PNone;
     ipmi_gateway := PNone; ipmi_subnet_mask := PNone; ipmi_vlan := PNone;
     node_ipmi_ips := PNone; data_gateway := PNone; data_subnet_mask := PNone;
     data_vlan := PNone; node_data_ips := PNone; timeout := PInt 30 |}.

(** An optional list argument: its default when [None], an error when it
    is not a list. *)
Definition list_argument (name : string) (default : list pyval) (v : pyval)
  : outcome (list pyval) :=
  match v with
  | PNone => Ok default
  | PList l => Ok l
  | _ => Raise (mkExn InvalidParameterException
           ("You must provide a valid list for " ++ String dquote name ++ String dquote "."))
  end.

(** The [{netmask, gateway, address[, vlan]}] record of one address. *)
Definition ip_config (netmask gateway address vlan : pyval) : pyval :=
  let c := dict_set "netmask" netmask [] in
  let c := dict_set "gateway" gateway c in
  let c := dict_set "address" address c in
  PDict (if is_none vlan then c else dict_set "vlan" vlan c).

(** [float(response['version'][:3]) < float(5.0)] *)
Definition version_below_5 (response : pyval) : outcome bool :=
  match py_getitem response "version" with
  | Ok (PStr v) =>
      match py_float (str_take 3 v) with
      | Some x => Ok (float_lt_5 x)
      | None => Raise (mkExn ValueError "")
      end
  | Ok _ => Raise (mkExn TypeError "")   (* not a string: no slice, or no float of it *)
  | Raise e => Raise e
  | OutOfFuel => OutOfFuel
  end.

(** The NTP entry of the document: [ntpServers] before CDM 5.0,
    [ntpServerConfigs] from 5.0 on. *)
Definition ntp_entry (below_5 : bool) (ntp_servers : list pyval) (config : dict) : dict :=
  if below_5 then dict_set "ntpServers" (PList ntp_servers) config
  else dict_set "ntpServerConfigs"
         (PList (map (fun server => PDict [("server", server)]) ntp_servers)) config.

(** [for node_name, node_ip in node_config.items()] *)
Fixpoint management_loop (netmask gateway vlan : pyval) (items : dict) (nodes : dict)
  : dict :=
  match items with
  | [] => nodes
  | (node_name, node_ip) :: rest =>
      management_loop netmask gateway vlan rest
        (dict_set node_name
           (PDict (dict_set "managementIpConfig"
                     (ip_config netmask gateway node_ip vlan) []))
           nodes)
  end.

(** The loops over [node_ipmi_ips] and [node_data_ips] are the same code
    up to the key written and the text of the error. *)
Fixpoint address_loop (key error : string) (netmask gateway vlan : pyval)
    (items : dict) (nodes : dict) : outcome dict :=
  match items with
  | [] => Ok nodes
  | (node_name, ip) :: rest =>
      match dict_get node_name nodes with
      | None => Raise (mkExn InvalidParameterException error)
      | Some (PDict node) =>
          address_loop key error netmask gateway vlan rest
            (dict_set node_name
               (PDict (dict_set key (ip_config netmask gateway ip vlan) node))
               nodes)
      | Some _ => Raise (mkExn TypeError "")
      end
  end.

Definition ipmi_loop := address_loop "ipmiIpConfig"
  "Non-existent node name specified in IPMI addresses.".

Definition data_loop := address_loop "dataIpConfig"
  "Non-existent node name specified in DATA addresses.".

Definition items_of (v : pyval) : dict :=
  match v with PDict d => d | _ => [] end.

Definition using_ipmi_config (a : setup_args) : bool :=
  negb (is_none (ipmi_gateway a)) && negb (is_none (ipmi_subnet_mask a))
  && isinstance_dict (node_ipmi_ips a).

Definition using_data_config (a : setup_args) : bool :=
  negb (is_none (data_gateway a)) && negb (is_none (data_subnet_mask a))
  && isinstance_dict (node_data_ips a).

(** The [nodeConfigs] part of the document (lines 495-528). *)
Definition node_configs (a : setup_args) : outcome dict :=
  let nodes := management_loop (management_subnet_mask a) (management_gateway a)
                 (management_vlan a) (items_of (node_config a)) [] in
  match (if using_ipmi_config a
         then ipmi_loop (ipmi_subnet_mask a) (ipmi_gateway a) (ipmi_vlan a)
                (items_of (node_ipmi_ips a)) nodes
         else Ok nodes) with
  | Ok nodes =>
      if using_data_config a
      then data_loop (data_subnet_mask a) (data_gateway a) (data_vlan a)
             (items_of (node_data_ips a)) nodes
      else Ok nodes
  | other => other
  end.

(** The document as it stands when the version has been read (lines
    477-528): [below_5] is the outcome of the version test. *)
Definition bootstrap_config (a : setup_args)
    (dns_search_domains dns_nameservers ntp_servers : list pyval) (below_5 : bool)
  : outcome pyval :=
  let c := dict_set "enableSoftwareEncryptionAtRest" (enable_encryption a) [] in
  let c := dict_set "name" (cluster_name a) c in
  let c := dict_set "dnsNameservers" (PList dns_nameservers) c in
  let c := dict_set "dnsSearchDomains" (PList dns_search_domains) c in
  let c := ntp_entry below_5 ntp_servers c in
  let admin := dict_set "password" (admin_password a) [] in
  let admin := dict_set "emailAddress" (admin_email a) admin in
  let admin := dict_set "id" (PStr "admin") admin in
  let c := dict_set "adminUserInfo" (PDict admin) c in
  match node_configs a with
  | Ok nodes => Ok (PDict (dict_set "nodeConfigs" (PDict nodes) c))
  | Raise e => Raise e
  | OutOfFuel => OutOfFuel
  end.

Definition node_config_text : string :=
  "You must provide a valid dictionary for " ++ String dquote "node_config"
    ++ String dquote " holding node names and management IPs.".

Definition refused_text : string :=
  "Failed to establish a new connection: [Errno 111] Connection refused".

Definition already_text : string :=
  "Cannot bootstrap from an already bootstrapped node".

Definition no_change_text : string :=
  "No change required. The Rubrik cluster is already bootstrapped.".

Definition unable_text : string :=
  "Unable to establish a connection to the Rubrik cluster.".

(** The submission loop (lines 535-561).  [inl] is the answer of the POST
    after [break], [inr] the value of a [return] inside the loop. *)
Fixpoint post_loop (fuel : nat) (config timeout : pyval) (number_of_attempts : Z)
  : M (pyval + pyval) :=
  match fuel with
  | O => out_of_fuel
  | S fuel' =>
      r <- try_ (api_post "internal" "/cluster/me/bootstrap" config timeout) ;;
      match r with
      | inl api_request => ret (inl api_request)
      | inr bootstrap_error =>
          if exn_kind_eqb (kind bootstrap_error) APICallException then
            if str_in refused_text (text bootstrap_error) then
              let number_of_attempts := number_of_attempts + 1 in
              sleep 30 ;;
              if number_of_attempts =? 12
              then raise APICallException unable_text
              else post_loop fuel' config timeout number_of_attempts
            else if str_in already_text (text bootstrap_error) then
              ret (inr (PStr no_change_text))
            else raise RubrikException (text bootstrap_error)
          else reraise bootstrap_error
      end
  end.

(** The polling loop (lines 567-578). *)
Fixpoint poll_loop (fuel : nat) (request_id ipv4_addr : pyval) : M pyval :=
  match fuel with
  | O => out_of_fuel
  | S fuel' =>
      st <- status request_id (PInt 15) ipv4_addr ;;
      state <- lift (py_getitem st "status") ;;
      if py_eq_str state "IN_PROGRESS" then
        sleep 30 ;; poll_loop fuel' request_id ipv4_addr
      else if py_eq_str state "FAILURE" || py_eq_str state "FAILED" then
        message <- lift (py_getitem st "message") ;;
        raise RubrikException (py_str message)
      else ret st
  end.

(** [list(node_config.values())[0]] *)
Definition first_value (d : dict) : outcome pyval :=
  match d with
  | (_, v) :: _ => Ok v
  | [] => Raise (mkExn IndexError "")
  end.

(** Lines 445-561: validation, the version query, the document and the
    submission loop.  [inl] carries the answer of the POST and
    [self.ipv4_addr]; [inr] is the value returned from inside the loop.
    [fuel] bounds the iterations of the [while True] loop. *)
Definition submit (fuel : nat) (a : setup_args) : M (pyval * pyval + pyval) :=
  if is_none (node_config a) || negb (isinstance_dict (node_config a)) then
    raise InvalidParameterException node_config_text
  else
  dns_search_domains <- lift (list_argument "dns_search_domains" [] (dns_search_domains a)) ;;
  dns_nameservers <- lift (list_argument "dns_nameservers" [PStr "8.8.8.8"] (dns_nameservers a)) ;;
  ntp_servers <- lift (list_argument "ntp_servers" [PStr "pool.ntp.org"] (ntp_servers a)) ;;
  response <- api_get Primary "v1" "/cluster/me/version" (timeout a) ;;
  below_5 <- lift (version_below_5 response) ;;
  config <- lift (bootstrap_config a dns_search_domains dns_nameservers ntp_servers below_5) ;;
  (* Get the first node IP address so we can use it to check bootstrap
     status if IPv6 is disabled. *)
  ipv4_addr <- lift (first_value (items_of (node_config a))) ;;
  r <- post_loop fuel config (timeout a) 1 ;;
  match r with
  | inl api_request => ret (inl (api_request, ipv4_addr))
  | inr value => ret (inr value)
  end.

(** The whole method: [submit], then lines 563-580. *)
Definition setup_cluster (fuel : nat) (a : setup_args) : M pyval :=
  r <- submit fuel a ;;
  match r with
  | inr value => ret value
  | inl (api_request, ipv4_addr) =>
      request_id <- lift (py_getitem api_request "id") ;;
      if py_truthy (wait_for_completion a)
      then poll_loop fuel request_id ipv4_addr
      else ret api_request
  end.

Definition run {A} (m : M A) (w : world) : outcome A * trace := m w [].

(* ------------------------------------------------------------------ *)
(** ** [Bootstrap.__init__]: address resolution *)

Inductive family : Type := AF_INET6 | AF_INET.

(** What the [socket] module answers on this host.  [None] stands for the
    [OSError] of [if_nametoindex] and for the [gaierror] of [getaddrinfo];
    of an IPv6 answer only [ip_info[0][4][0]] and [ip_info[0][4][3]], the
    address and the scope of the first entry, are read. *)
Record sockets : Type := {
  if_nametoindex : string -> option Z;
  getaddrinfo6 : string -> option (string * Z);
  getaddrinfo4 : string -> bool;
  if_nameindex : list (Z * string)
}.

(** The attributes of the object after construction; [ipv6_scope] is only
    set on the IPv6 path. *)
Record bootstrap : Type := {
  node_ip : string;
  ipv6_addr : string;
  ipv6_scope : option pyval
}.

(** [for sock_interface, name in interfaces: if 'lo' not in name: ... break] *)
Fixpoint scan_interfaces (interfaces : list (Z * string)) (scope : pyval) : pyval :=
  match interfaces with
  | [] => scope
  | (sock_interface, name) :: rest =>
      if negb (str_in "lo" name) then PInt sock_interface
      else scan_interfaces rest scope
  end.

(** The scope of a genuine IPv6 address (lines 359-380). *)
Definition resolve_scope (sk : sockets) (interface : option string) (scope : Z)
  : outcome pyval :=
  match interface with
  | Some i =>
      match if_nametoindex sk i with
      | Some n => Ok (PInt n)
      | None => Raise (mkExn OSError "")
      end
  | None =>
      let ipv6_scope := PStr (str_of_Z scope) in
      if py_eq_str ipv6_scope "0" then
        let ipv6_scope := scan_interfaces (if_nameindex sk) ipv6_scope in
        if py_eq_int ipv6_scope 0 then
          Raise (mkExn SystemExit "Error: Unable to find a usable IPv6 link local scope")
        else Ok ipv6_scope
      else Ok ipv6_scope
  end.

(** The IPv4 check made when the IPv6 attempt left [node_resolution] false
    (lines 390-400). *)
Definition resolve_ipv4 (sk : sockets) (node_ip : string) : outcome bootstrap :=
  if getaddrinfo4 sk node_ip then
    Ok {| node_ip := node_ip; ipv6_addr := ""; ipv6_scope := None |}
  else
    Raise (mkExn RubrikException
      "Error: Could not resolve address for cluster, or invalid IP/address supplied").

(** The constructor, with the list of the [getaddrinfo] calls it made. *)
Definition Bootstrap_init (sk : sockets) (node_ip : string) (interface : option string)
  : outcome bootstrap * list family :=
  let bad_interface :=
    match interface with
    | Some i => match if_nametoindex sk i with Some _ => false | None => true end
    | None => false
    end in
  if bad_interface then
    (Raise (mkExn SystemExit "Error: Invalid interface supplied"), [])
  else
    match getaddrinfo6 sk node_ip with
    | Some (addr, scope) =>
        if str_in "::ffff" addr then
          (Ok {| node_ip := node_ip; ipv6_addr := ""; ipv6_scope := None |},
           [AF_INET6])
        else
          match resolve_scope sk interface scope with
          | Ok ipv6_scope =>
              (Ok {| node_ip := "[" ++ addr ++ "%" ++ py_str ipv6_scope ++ "]";
                     ipv6_addr := addr;
                     ipv6_scope := Some ipv6_scope |},
               [AF_INET6])
          | Raise e => (Raise e, [AF_INET6])
          | OutOfFuel => (OutOfFuel, [AF_INET6])
          end
    | None => (resolve_ipv4 sk node_ip, [AF_INET6; AF_INET])
    end.

(* ------------------------------------------------------------------ *)
(** ** Scripted worlds for the examples *)

Definition script (l : list reply) (otherwise : reply) : nat -> reply :=
  fun n => nth n l otherwise.

Definition api_error (msg : string) : reply := Fails (mkExn APICallException msg).

(** The error of a cluster that does not listen yet. *)
Definition refused : reply :=
  api_error ("HTTPSConnectionPool(host='10.0.0.11', port=443): Max retries exceeded with url: /api/internal/cluster/me/bootstrap (Caused by NewConnectionError('" ++ refused_text ++ "'))").

Definition already_bootstrapped : reply :=
  api_error ("{'errorType': 'user_error', 'message': '" ++ already_text ++ "'}").

Definition unreachable : reply := api_error "Connection timed out".

Definition version_doc (v : string) : reply := Reply (PDict [("version", PStr v)]).

Definition status_doc (state : string) : pyval :=
  PDict [("status", PStr state); ("message", PStr "")].

Definition empty_environ : os_environ :=
  {| rubrik_cdm_node_ip := None; rubrik_cdm_username := None;
     rubrik_cdm_password := None; rubrik_cdm_token := None |}.

Definition scripted (gets posts fallbacks : list reply) : world :=
  {| net := {| get_reply := script gets unreachable;
               post_reply := script posts unreachable;
               fallback_reply := script fallbacks unreachable |};
     environ := empty_environ |}.

Definition one_node : pyval := PDict [("RVM157S018901", PStr "10.0.0.11")].

Definition edge_args : setup_args :=
  default_args (PStr "edge") (PStr "admin@example.com") (PStr "secret")
               (PStr "10.0.0.1") (PStr "255.255.255.0") one_node.

(* ------------------------------------------------------------------ *)
(** ** Vocabulary of the statements and the worlds of the examples *)

Definition status_endpoint (request_id : pyval) : string :=
  "/cluster/me/bootstrap?request_id=" ++ py_str request_id.

Definition is_some {A} (o : option A) : bool :=
  match o with Some _ => true | None => false end.

(** A cluster that does not answer at the resolved address and would
    answer at the fallback address. *)
Definition only_fallback_answers : world :=
  scripted [] [] [Reply (status_doc "SUCCESS")].

(** [n] polls in a row that report IN_PROGRESS, each followed by the
    delay of 30 seconds: the trace after them, if that is how the cluster
    answers from trace [t] on. *)
Fixpoint waiting (n : nat) (request_id ipv4_addr : pyval) (w : world) (t : trace)
  : option trace :=
  match n with
  | O => Some t
  | S n' =>
      match status request_id (PInt 15) ipv4_addr w t with
      | (Ok st, t') =>
          match py_getitem st "status" with
          | Ok state =>
              if py_eq_str state "IN_PROGRESS"
              then waiting n' request_id ipv4_addr w (t' ++ [ESleep 30])%list
              else None
          | _ => None
          end
      | _ => None
      end
  end.

Definition accepted_doc : pyval := PDict [("id", PInt 1)].

(** A cluster that accepts the first submission and reports IN_PROGRESS,
    IN_PROGRESS, SUCCESS. *)
Definition completing : world :=
  scripted [version_doc "5.0.2"; Reply (status_doc "IN_PROGRESS");
            Reply (status_doc "IN_PROGRESS"); Reply (status_doc "SUCCESS")]
           [Reply accepted_doc] [].

Definition completing_submitted : trace :=
  Eval vm_compute in snd (submit 3 edge_args completing []).


Definition completing_done : trace :=
  Eval vm_compute in snd (run (setup_cluster 3 edge_args) completing).

(** A POST answered with the error of an already bootstrapped cluster:
    an [APICallException] whose text has [already_text] and is not taken
    for a refused connection, which the loop tests first. *)
Definition already_post (e : event) : bool :=
  match e with
  | EPost _ _ _ _ (Fails x) =>
      exn_kind_eqb (kind x) APICallException
      && negb (str_in refused_text (text x))
      && str_in already_text (text x)
  | _ => false
  end.

Definition submission_event (config tm : pyval) (e : event) : Prop :=
  e = ESleep 30 \/ exists r, e = EPost "internal" "/cluster/me/bootstrap" config tm r.

Definition bootstrapped_cluster : world :=
  scripted [version_doc "5.0.2"] [refused; refused; already_bootstrapped] [].

(** A cluster that refuses eleven submissions and would accept the
    twelfth. *)
Definition late_cluster : world :=
  scripted [version_doc "5.0.2"] (repeat refused 11 ++ [Reply accepted_doc]) [].

Definition no_nodes : setup_args :=
  default_args (PStr "edge") (PStr "admin@example.com") (PStr "secret")
               (PStr "10.0.0.1") (PStr "255.255.255.0") (PDict []).




Definition edge_config_5 : pyval :=
  Eval vm_compute in
    match bootstrap_config edge_args [] [PStr "8.8.8.8"] [PStr "pool.ntp.org"] false with
    | Ok config => config
    | _ => PNone
    end.

(** The value of a node entry is a record with the property [P], which
    the loops over the address maps maintain. *)
Definition entry_with (P : dict -> Prop) (kv : string * pyval) : Prop :=
  exists d, snd kv = PDict d /\ P d.

(** Some name of the address map [ips] is not a node of [node_config]. *)
Definition stray (ips : pyval) (a : setup_args) : bool :=
  existsb (fun kv => negb (dict_mem (fst kv) (items_of (node_config a)))) (items_of ips).

Definition any_record (d : dict) : Prop := True.

(** The checks made before the version is queried: [node_config] is a
    dictionary and each optional list is [None] or a list. *)
Definition list_or_none (v : pyval) : bool := is_none v || isinstance_list v.

Definition arguments_valid (a : setup_args) : bool :=
  isinstance_dict (node_config a) && list_or_none (dns_search_domains a)
  && list_or_none (dns_nameservers a) && list_or_none (ntp_servers a).

(** The call with an IPMI network. *)
Definition with_ipmi (gateway netmask ips : pyval) (a : setup_args) : setup_args :=
  {| cluster_name := cluster_name a; admin_email := admin_email a;
     admin_password := admin_password a;
     management_gateway := management_gateway a;
     management_subnet_mask := management_subnet_mask a;
     node_config := node_config a;
     enable_encryption := enable_encryption a;
     dns_search_domains := dns_search_domains a;
     dns_nameservers := dns_nameservers a; ntp_servers := ntp_servers a;
     wait_for_completion := wait_for_completion a;
     management_vlan := management_vlan a;
     ipmi_gateway := gateway; ipmi_subnet_mask := netmask; ipmi_vlan := ipmi_vlan a;
     node_ipmi_ips := ips;
     data_gateway := data_gateway a; data_subnet_mask := data_subnet_mask a;
     data_vlan := data_vlan a; node_data_ips := node_data_ips a;
     timeout := timeout a |}.

(** The call with a data network. *)
Definition with_data (gateway netmask ips : pyval) (a : setup_args) : setup_args :=
  {| cluster_name := cluster_name a; admin_email := admin_email a;
     admin_password := admin_password a;
     management_gateway := management_gateway a;
     management_subnet_mask := management_subnet_mask a;
     node_config := node_config a;
     enable_encryption := enable_encryption a;
     dns_search_domains := dns_search_domains a;
     dns_nameservers := dns_nameservers a; ntp_servers := ntp_servers a;
     wait_for_completion := wait_for_completion a;
     management_vlan := management_vlan a;
     ipmi_gateway := ipmi_gateway a; ipmi_subnet_mask := ipmi_subnet_mask a;
     ipmi_vlan := ipmi_vlan a; node_ipmi_ips := node_ipmi_ips a;
     data_gateway := gateway; data_subnet_mask := netmask;
     data_vlan := data_vlan a; node_data_ips := ips;
     timeout := timeout a |}.

(** One node, and an IPMI address for a node that is not configured. *)
Definition stray_ipmi_args : setup_args :=
  with_ipmi (PStr "10.0.1.1") (PStr "255.255.255.0")
            (PDict [("RVM157S099999", PStr "10.0.1.11")]) edge_args.

Definition answering_cluster : world :=
  scripted [version_doc "5.0.2"] [Reply accepted_doc] [].

(** No node entry of the document has the key [k]. *)
Definition document_lacks (k : string) (config : pyval) : Prop :=
  exists d nodes,
    config = PDict d
    /\ dict_get "nodeConfigs" d = Some (PDict nodes)
    /\ Forall (entry_with (fun node => dict_get k node = None)) nodes.

(** An IPMI address for an unknown node, and no IPMI gateway. *)
Definition dropped_ipmi_args : setup_args :=
  with_ipmi PNone (PStr "255.255.255.0")
            (PDict [("RVM157S099999", PStr "10.0.1.11")]) edge_args.

(** The interface argument is absent or names a live interface. *)
Definition interface_ok (sk : sockets) (interface : option string) : bool :=
  match interface with
  | Some i => is_some (if_nametoindex sk i)
  | None => true
  end.

(** A host on which the name resolves, over IPv6 only, to an IPv4-mapped
    address. *)
Definition mapped_only : sockets :=
  {| if_nametoindex := fun _ => None;
     getaddrinfo6 := fun _ => Some ("::ffff:10.0.0.11", 0);
     getaddrinfo4 := fun _ => false;
     if_nameindex := [(1, "lo"); (2, "eth0")] |}.

(** A host whose only interface is the loopback, and a link-local
    address that resolves with scope 0. *)
Definition loopback_only : sockets :=
  {| if_nametoindex := fun _ => None;
     getaddrinfo6 := fun _ => Some ("fe80::1", 0);
     getaddrinfo4 := fun _ => false;
     if_nameindex := [(1, "lo")] |}.

Definition lo_and_eth0 : sockets :=
  {| if_nametoindex := fun _ => None;
     getaddrinfo6 := fun _ => Some ("fe80::1", 0);
     getaddrinfo4 := fun _ => false;
     if_nameindex := [(1, "lo"); (2, "eth0")] |}.

(* ------------------------------------------------------------------ *)
(** ** [_api_validation] *)

(** [s[i]] for [i >= 0] and [s[-i]] for [i >= 1]; [None] is the
    [IndexError] of an index out of range. *)
Definition str_at (s : string) (i : nat) : option ascii := String.get i s.

Definition str_at_end (s : string) (i : nat) : option ascii :=
  if (i <=? String.length s)%nat then String.get (String.length s - i) s else None.

(** The static method of [Connect] (lines 275-300) and of [Bootstrap]
    (lines 655-679) is one text but for the list of the valid versions.
    [slash_text] is the message of the last error. *)
Definition api_validation (valid_api_versions : list string) (slash_text : string)
    (api_version api_endpoint : pyval) : outcome unit :=
  if negb (existsb (py_eq_str api_version) valid_api_versions) then
    Raise (mkExn InvalidParameterException
             ("Enter a valid API version "
                ++ py_repr (PList (map PStr valid_api_versions)) ++ "."))
  else
    match api_endpoint with
    | PStr endpoint =>
        match str_at endpoint 0 with
        | None => Raise (mkExn IndexError "")
        | Some first =>
            if negb (Ascii.eqb first "/") then
              Raise (mkExn InvalidParameterException
                       "The API Endpoint should begin with '/'. (ex: /cluster/me)")
            else
              match str_at_end endpoint 1 with
              | None => Raise (mkExn IndexError "")
              | Some last =>
                  if Ascii.eqb last "/" then
                    match str_at_end endpoint 2 with
                    | None => Raise (mkExn IndexError "")
                    | Some before =>
                        if negb (Ascii.eqb before "=")
                        then Raise (mkExn InvalidParameterException slash_text)
                        else Ok tt
                    end
                  else Ok tt
              end
        end
    | _ => Raise (mkExn InvalidTypeException "The API Endpoint must be a string.")
    end.

Definition slash_text_of_Connect : string :=
  "Error: The API Endpoint should not end with '/' unless proceeded by '='. (ex. /cluster/me or /fileset/snapshot/<id>/browse?path=/)".

(** [Connect._api_validation] *)
Definition Connect_api_validation : pyval -> pyval -> outcome unit :=
  api_validation ["v1"; "v2"; "internal"; "v3"] slash_text_of_Connect.

(** [Bootstrap._api_validation]; the sources at hand end inside its last
    [raise InvalidParameterException(], whose message is the parameter
    [slash_text]. *)
Definition Bootstrap_api_validation (slash_text : string)
  : pyval -> pyval -> outcome unit :=
  api_validation ["v1"; "internal"] slash_text.

(* ------------------------------------------------------------------ *)
(** ** [base64.b64encode] of the UTF-8 bytes of a text *)

(** [s.encode()]: a code point below 128 is one byte, one from 128 to 255
    is two. *)
Fixpoint utf8 (s : string) : list ascii :=
  match s with
  | EmptyString => []
  | String c r =>
      let n := nat_of_ascii c in
      if (n <? 128)%nat then c :: utf8 r
      else ascii_of_nat (192 + n / 64) :: ascii_of_nat (128 + n mod 64) :: utf8 r
  end.

Definition b64_alphabet : string :=
  "ABCDEFGHIJKLMNOPQRSTUVWXYZabcdefghijklmnopqrstuvwxyz0123456789+/".

Definition b64_char (n : nat) : ascii :=
  match String.get n b64_alphabet with Some c => c | None => "="%char end.

(** Three bytes give four characters; one or two bytes at the end are
    padded with [=]. *)
Fixpoint b64encode (l : list ascii) : string :=
  match l with
  | [] => ""
  | a :: l1 =>
      let x := nat_of_ascii a in
      match l1 with
      | [] => String (b64_char (x / 4)) (String (b64_char (x mod 4 * 16)) "==")
      | b :: l2 =>
          let y := nat_of_ascii b in
          match l2 with
          | [] =>
              String (b64_char (x / 4))
                (String (b64_char (x mod 4 * 16 + y / 16))
                   (String (b64_char (y mod 16 * 4)) "="))
          | c :: r =>
              let z := nat_of_ascii c in
              String (b64_char (x / 4))
                (String (b64_char (x mod 4 * 16 + y / 16))
                   (String (b64_char (y mod 16 * 4 + z / 64))
                      (String (b64_char (z mod 64)) (b64encode r))))
          end
      end
  end.

Fixpoint b64_find (c : ascii) (alphabet : string) (i : nat) : option nat :=
  match alphabet with
  | EmptyString => None
  | String a r => if Ascii.eqb a c then Some i else b64_find c r (S i)
  end.

Definition b64_index (c : ascii) : option nat := b64_find c b64_alphabet 0.

(** The inverse reading, [base64.b64decode], of a padded text. *)
Fixpoint b64decode (s : string) : option (list ascii) :=
  match s with
  | EmptyString => Some []
  | String c1 (String c2 (String c3 (String c4 r))) =>
      match b64_index c1, b64_index c2 with
      | Some n1, Some n2 =>
          let a := ascii_of_nat (n1 * 4 + n2 / 16) in
          if Ascii.eqb c4 "=" then
            match r with
            | EmptyString =>
                if Ascii.eqb c3 "=" then Some [a]
                else match b64_index c3 with
                     | Some n3 => Some [a; ascii_of_nat (n2 mod 16 * 16 + n3 / 4)]
                     | None => None
                     end
            | String _ _ => None
            end
          else
            match b64_index c3, b64_index c4, b64decode r with
            | Some n3, Some n4, Some l =>
                Some (a :: ascii_of_nat (n2 mod 16 * 16 + n3 / 4)
                        :: ascii_of_nat (n3 mod 4 * 64 + n4) :: l)
            | _, _, _ => None
            end
      | _, _ => None
      end
  | _ => None
  end.

(* ------------------------------------------------------------------ *)
(** ** The [Connect] object and its headers *)

Module Connect.

(** The attributes of a [Connect] object.  [username], [password] and
    [api_token] are assigned on some paths of the constructor only:
    [None] is an attribute that was never assigned. *)
Record t : Type := {
  node_ip : pyval;
  logging_level : string;
  username : option pyval;
  password : option pyval;
  api_token : option pyval;
  sdk_version : string;
  python_version : string;
  function_name : string;
  platform : string
}.

(** [Connect.__init__] (lines 55-192).  [version] is
    [sys.version.split("(")[0].strip()]. *)
Definition init (env : os_environ) (version : string)
    (node_ip username password api_token : pyval) (logging_level : string)
  : outcome t :=
  if negb (mem logging_level ["debug"; "critical"; "error"; "warning"; "info"]) then
    Raise (mkExn InvalidParameterException
      ("'" ++ logging_level ++ "' is not a valid logging_level. Valid choices are 'debug', 'critical', 'error', 'warning', or 'info'."))
  else
  let node_ip := if is_none node_ip then environ_get (rubrik_cdm_node_ip env) else node_ip in
  if is_none node_ip then
    Raise (mkExn InvalidParameterException "The Rubrik CDM Node IP has not been provided.")
  else
  let '(username, m1, e1) := credential "username" username (rubrik_cdm_username env) in
  let '(password, m2, e2) := credential "password" password (rubrik_cdm_password env) in
  let '(api_token, m3, e3) := credential "api_token" api_token (rubrik_cdm_token env) in
  let credentials_manually_provided := (m1 ++ m2 ++ m3)%list in
  let credentials_env_var_provided := (e1 ++ e2 ++ e3)%list in
  let all_credentials_provided :=
    (credentials_manually_provided ++ credentials_env_var_provided)%list in
  if (List.length credentials_manually_provided =? 3)%nat then
    Raise (mkExn InvalidParameterException
      "You have provided both an API token and a username and password for authentication. You may only use one or the other.")
  else if mem "username" all_credentials_provided
          && negb (mem "password" all_credentials_provided) then
    Raise (mkExn InvalidParameterException
      "When providing the username argument, either manually or through the environment variables, you must also provide a password. Alternatively, starting with CDM 5.0, you may also use API Token instead of username and password.")
  else if mem "password" all_credentials_provided
          && negb (mem "username" all_credentials_provided) then
    Raise (mkExn InvalidParameterException
      "When providing the password argument, either manually or through the environment variables, you must also provide a username. Alternatively, starting with CDM 5.0, you may also use API Token instead of username and password.")
  else
  (* the attributes self.username, self.password, self.api_token and the
     flag credentials_needed_for_authentication *)
  let basic := (Some username, Some password, Some PNone, true) in
  let s0 : option pyval * option pyval * option pyval * bool :=
    (None, None, None, false) in
  let s1 := if mem "username" credentials_manually_provided
               && mem "password" credentials_manually_provided
            then basic else s0 in
  let s2 := if mem "api_token" credentials_manually_provided
            then (fst (fst (fst s1)), snd (fst (fst s1)), Some api_token, true)
            else s1 in
  if negb (snd s2) && (List.length credentials_env_var_provided =? 3)%nat then
    Raise (mkExn InvalidParameterException
      "You have provided both an API token and a username and password, in your environment variables, for authentication. You may only use one or the other.")
  else
  let s3 := if negb (snd s2) && mem "username" all_credentials_provided
               && mem "password" all_credentials_provided
            then basic else s2 in
  let s4 := if negb (snd s2) && mem "api_token" credentials_env_var_provided
               && negb (snd s3)
            then (fst (fst (fst s3)), snd (fst (fst s3)), Some api_token, true)
            else s3 in
  if negb (snd s4) then
    Raise (mkExn InvalidParameterException
      "You must provide either a username and password or API Token for authentication.")
  else
    Ok {| node_ip := node_ip; logging_level := logging_level;
          username := fst (fst (fst s4)); password := snd (fst (fst s4));
          api_token := snd (fst s4);
          sdk_version := "2.0.10"; python_version := version;
          function_name := ""; platform := "" |}.

(** The user agent both headers carry. *)
Definition user_agent (self : t) : string :=
  let user_agent :=
    "RubrikPythonSDK--" ++ sdk_version self ++ "--" ++ python_version self in
  if negb (String.eqb (platform self) "")
  then user_agent ++ "--" ++ platform self
  else user_agent.

(** [Connect._header] (lines 252-273) *)
Definition _header (self : t) : dict :=
  [("Content-Type", PStr "application/json");
   ("Accept", PStr "application/json");
   ("User-Agent", PStr (user_agent self));
   ("rk-integration", PStr (function_name self))].

(** [Connect._authorization_header] (lines 213-250); [None] is the
    [AttributeError] of an attribute that was never assigned. *)
Definition _authorization_header (self : t) : option dict :=
  let authorization_header := _header self in
  match api_token self with
  | None => None
  | Some PNone =>
      match username self, password self with
      | Some u, Some p =>
          let credentials := py_str u ++ ":" ++ py_str p in
          let authorization := b64encode (utf8 credentials) in
          Some (dict_set "Authorization" (PStr ("Basic " ++ authorization))
                  authorization_header)
      | _, _ => None
      end
  | Some token =>
      Some (dict_set "Authorization" (PStr ("Bearer " ++ py_str token))
              authorization_header)
  end.

(** [Connect._platform_user_agent] (lines 302-320) *)
Definition _platform_user_agent (platform_name platform_version : pyval) (self : t) : t :=
  let platform_user_agent :=
    if negb (py_eq_str platform_name "")
    then "platform_name--" ++ py_str platform_name else "" in
  let platform_user_agent :=
    if negb (py_eq_str platform_version "")
    then platform_user_agent ++ "--platform_version--" ++ py_str platform_version
    else platform_user_agent in
  {| node_ip := node_ip self; logging_level := logging_level self;
     username := username self; password := password self;
     api_token := api_token self; sdk_version := sdk_version self;
     python_version := python_version self; function_name := function_name self;
     platform := platform_user_agent |}.

End Connect.

(** [Bootstrap._header] (lines 622-653).  The constructor leaves
    [sdk_version] at "2.0.10"; [version] is the Python version text,
    [platform] and [function_name] the attributes of those names. *)
Definition Bootstrap_header (self : bootstrap) (version platform function_name : string)
  : dict :=
  let user_agent := "RubrikPythonSDK--" ++ "2.0.10" ++ "--" ++ version in
  let user_agent :=
    if negb (String.eqb platform "") then user_agent ++ "--" ++ platform
    else user_agent in
  if negb (String.eqb (ipv6_addr self) "") then
    [("Content-Type", PStr "application/json");
     ("Accept", PStr "application/json");
     ("User-Agent", PStr user_agent);
     ("Host", PStr ("[" ++ ipv6_addr self ++ "]"));
     ("rk-integration", PStr function_name)]
  else
    [("Content-Type", PStr "application/json");
     ("Accept", PStr "application/json");
     ("User-Agent", PStr user_agent);
     ("rk-integration", PStr function_name)].

(* ------------------------------------------------------------------ *)
(** ** Vocabulary of the further properties *)

(** The answer the submission loop takes for a refused connection. *)
Definition refusal (r : reply) : bool :=
  match r with
  | Fails e => exn_kind_eqb (kind e) APICallException && str_in refused_text (text e)
  | Reply _ => false
  end.

Definition refused_post (e : event) : bool :=
  match e with EPost _ _ _ _ r => refusal r | _ => false end.

(** [k] refused submissions from the [first]-th POST of the world on, each
    followed by its delay. *)
Definition retries (config tm : pyval) (w : world) (first k : nat) : trace :=
  flat_map (fun i => [EPost "internal" "/cluster/me/bootstrap" config tm
                            (post_reply (net w) i); ESleep 30])
           (seq first k).

(** The first [k] answers of the world to a POST are refusals. *)
Definition refuses_first (w : world) (k : nat) : bool :=
  forallb (fun i => refusal (post_reply (net w) i)) (seq 0 k).

(** A call whose list of name servers is a text. *)
Definition bad_dns_args : setup_args :=
  {| cluster_name := PStr "edge"; admin_email := PStr "admin@example.com";
     admin_password := PStr "secret";
     management_gateway := PStr "10.0.0.1";
     management_subnet_mask := PStr "255.255.255.0";
     node_config := one_node;
     enable_encryption := PBool true; dns_search_domains := PNone;
     dns_nameservers := PStr "8.8.8.8"; ntp_servers := PNone;
     wait_for_completion := PBool true; management_vlan := PNone;
     ipmi_gateway := PNone; ipmi_subnet_mask := PNone; ipmi_vlan := PNone;
     node_ipmi_ips := PNone; data_gateway := PNone; data_subnet_mask := PNone;
     data_vlan := PNone; node_data_ips := PNone; timeout := PInt 30 |}.

(** The call that does not wait for completion. *)
Definition no_wait_args : setup_args :=
  {| cluster_name := PStr "edge"; admin_email := PStr "admin@example.com";
     admin_password := PStr "secret";
     management_gateway := PStr "10.0.0.1";
     management_subnet_mask := PStr "255.255.255.0";
     node_config := one_node;
     enable_encryption := PBool true; dns_search_domains := PNone;
     dns_nameservers := PNone; ntp_servers := PNone;
     wait_for_completion := PBool false; management_vlan := PNone;
     ipmi_gateway := PNone; ipmi_subnet_mask := PNone; ipmi_vlan := PNone;
     node_ipmi_ips := PNone; data_gateway := PNone; data_subnet_mask := PNone;
     data_vlan := PNone; node_data_ips := PNone; timeout := PInt 30 |}.

(** A cluster that refuses three submissions and accepts the fourth. *)
Definition slow_cluster : world :=
  scripted [version_doc "5.0.2"; Reply (status_doc "SUCCESS")]
           [refused; refused; refused; Reply accepted_doc] [].

(** A cluster that refuses two submissions and times out on the third. *)
Definition failing_cluster : world :=
  scripted [version_doc "5.0.2"] [refused; refused; unreachable] [].

(** A cluster that refuses every submission. *)
Definition deaf_cluster : world :=
  scripted [version_doc "5.0.2"] (repeat refused 12) [].

(** A cluster that accepts the submission, reports IN_PROGRESS once and
    then answers neither at the resolved nor at the fallback address. *)
Definition vanishing_cluster : world :=
  scripted [version_doc "5.0.2"; Reply (status_doc "IN_PROGRESS")]
           [Reply accepted_doc] [].

Definition vanishing_submitted : trace :=
  Eval vm_compute in snd (submit 3 edge_args vanishing_cluster []).

Definition vanishing_waited : trace :=
  Eval vm_compute in
    match waiting 1 (PInt 1) (PStr "10.0.0.11") vanishing_cluster vanishing_submitted with
    | Some t => t
    | None => []
    end.

Definition vanishing_done : trace :=
  Eval vm_compute in snd (run (setup_cluster 3 edge_args) vanishing_cluster).

(** A cluster whose answer to the submission has no [id]. *)
Definition anonymous_cluster : world :=
  scripted [version_doc "5.0.2"] [Reply (PDict [("status", PStr "IN_PROGRESS")])] [].

(** A credential is provided when its argument is truthy or its
    environment variable is set. *)
Definition provided (arg : pyval) (var : option string) : bool :=
  py_truthy arg || is_some var.

(** The node a [Connect] object is bound to: the argument, or the
    environment variable when the argument is [None]. *)
Definition node_of (env : os_environ) (node_ip : pyval) : pyval :=
  if is_none node_ip then environ_get (rubrik_cdm_node_ip env) else node_ip.

Definition valid_level (logging_level : string) : bool :=
  mem logging_level ["debug"; "critical"; "error"; "warning"; "info"].

(** An environment with a user name, a password and a token. *)
Definition full_environ : os_environ :=
  {| rubrik_cdm_node_ip := Some "10.0.0.12"; rubrik_cdm_username := Some "envuser";
     rubrik_cdm_password := Some "envpass"; rubrik_cdm_token := Some "envtoken" |}.

(** An environment with a user name and no password. *)
Definition unpaired_environ : os_environ :=
  {| rubrik_cdm_node_ip := None; rubrik_cdm_username := Some "envuser";
     rubrik_cdm_password := None; rubrik_cdm_token := None |}.

(** A client that authenticates with a user name and a password. *)
Definition admin_client : Connect.t :=
  {| Connect.node_ip := PStr "10.0.0.11"; Connect.logging_level := "debug";
     Connect.username := Some (PStr "admin");
     Connect.password := Some (PStr "secret");
     Connect.api_token := Some PNone;
     Connect.sdk_version := "2.0.10"; Connect.python_version := "3.8.0";
     Connect.function_name := ""; Connect.platform := "" |}.

(** A host with two interfaces on which the name resolves to a
    link-local address with the zone 3. *)
Definition zoned_host : sockets :=
  {| if_nametoindex := fun i => if String.eqb i "eth0" then Some 2 else None;
     getaddrinfo6 := fun _ => Some ("fe80::1", 3);
     getaddrinfo4 := fun _ => false;
     if_nameindex := [(1, "lo"); (2, "eth0")] |}.

(** An environment that names the node and nothing else. *)
Definition node_environ : os_environ :=
  {| rubrik_cdm_node_ip := Some "10.0.0.12"; rubrik_cdm_username := None;
     rubrik_cdm_password := None; rubrik_cdm_token := None |}.

Definition node_environ_world : world :=
  {| net := {| get_reply := script [] unreachable;
               post_reply := script [] unreachable;
               fallback_reply := script [Reply (status_doc "SUCCESS")] unreachable |};
     environ := node_environ |}.

(** The entry an address map adds to the record of one node, when the map
    is in use and names the node. *)
Definition address_entry (key : string) (in_use : bool) (netmask gateway vlan ips : pyval)
    (node_name : string) (node : dict) : dict :=
  if in_use then
    match dict_get node_name (items_of ips) with
    | Some ip => dict_set key (ip_config netmask gateway ip vlan) node
    | None => node
    end
  else node.

(** What a loop over an address map does to one node entry. *)
Definition address_update (key : string) (netmask gateway vlan : pyval) (items : dict)
    (kv : string * pyval) : string * pyval :=
  match dict_get (fst kv) items with
  | Some ip => (fst kv, PDict (dict_set key (ip_config netmask gateway ip vlan)
                                 (items_of (snd kv))))
  | None => kv
  end.

(** The record of one node of [node_config], as the three loops of lines
    497-528 leave it. *)
Definition node_record (a : setup_args) (node_name : string) (node_ip : pyval) : dict :=
  address_entry "dataIpConfig" (using_data_config a) (data_subnet_mask a)
    (data_gateway a) (data_vlan a) (node_data_ips a) node_name
    (address_entry "ipmiIpConfig" (using_ipmi_config a) (ipmi_subnet_mask a)
       (ipmi_gateway a) (ipmi_vlan a) (node_ipmi_ips a) node_name
       (dict_set "managementIpConfig"
          (ip_config (management_subnet_mask a) (management_gateway a) node_ip
             (management_vlan a)) [])).

(** Two nodes, one of them with an IPMI address, both with a data
    address. *)
Definition two_nodes_args : setup_args :=
  with_data (PStr "10.0.2.1") (PStr "255.255.255.0")
    (PDict [("RVM157S018902", PStr "10.0.2.12"); ("RVM157S018901", PStr "10.0.2.11")])
    (with_ipmi (PStr "10.0.1.1") (PStr "255.255.255.0")
       (PDict [("RVM157S018902", PStr "10.0.1.12")])
       (default_args (PStr "edge") (PStr "admin@example.com") (PStr "secret")
          (PStr "10.0.0.1") (PStr "255.255.255.0")
          (PDict [("RVM157S018901", PStr "10.0.0.11");
                  ("RVM157S018902", PStr "10.0.0.12")]))).

(** A cluster whose version document has no [version]. *)
Definition versionless_cluster : world :=
  scripted [Reply (PDict [("apiVersion", PStr "1")])] [Reply accepted_doc] [].

(* ------------------------------------------------------------------ *)
(** * Properties *)

(** ** Values *)

Example py_float_49 : py_float "4.9" = Some (FDec 49 (-1)).
Proof. reflexivity. Qed.

Example py_float_10dot : py_float "10." = Some (FDec 10 0).
Proof. reflexivity. Qed.

Example py_float_v5 : py_float "v5." = None.
Proof. reflexivity. Qed.

Example repr_nested :
  py_repr (PDict [("a", PList [PInt 1; PStr "x"]); ("b", PNone)])
  = "{'a': [1, 'x'], 'b': None}".
Proof. reflexivity. Qed.

(** ** Traces *)

Lemma count_app (p : event -> bool) (t u : trace) :
  count p (t ++ u)%list = (count p t + count p u)%nat.
Proof. unfold count. rewrite filter_app, length_app. reflexivity. Qed.

Lemma count_nil (p : event -> bool) : count p [] = 0%nat.
Proof. reflexivity. Qed.

Lemma count_one (p : event -> bool) (e : event) :
  count p [e] = if p e then 1%nat else 0%nat.
Proof. unfold count. simpl. destruct (p e); reflexivity. Qed.

Lemma count_zero_Forall (p : event -> bool) (t : trace) :
  Forall (fun e => p e = false) t -> count p t = 0%nat.
Proof.
  induction 1 as [|e t He _ IH]; [reflexivity|].
  unfold count in *. simpl. rewrite He. exact IH.
Qed.

(** One turn of the submission loop. *)
Lemma post_loop_step (fuel : nat) (config tm : pyval) (n : Z) (w : world) (t : trace) :
  post_loop (S fuel) config tm n w t =
  let r := post_reply (net w) (count is_post t) in
  let t1 := (t ++ [EPost "internal" "/cluster/me/bootstrap" config tm r])%list in
  match r with
  | Reply api_request => (Ok (inl api_request), t1)
  | Fails e =>
      if exn_kind_eqb (kind e) APICallException then
        if str_in refused_text (text e) then
          if n + 1 =? 12
          then (Raise (mkExn APICallException unable_text), (t1 ++ [ESleep 30])%list)
          else post_loop fuel config tm (n + 1) w (t1 ++ [ESleep 30])%list
        else if str_in already_text (text e) then (Ok (inr (PStr no_change_text)), t1)
        else (Raise (mkExn RubrikException (text e)), t1)
      else (Raise e, t1)
  end.
Proof.
  cbn [post_loop]. unfold bind at 1. unfold try_, api_post.
  destruct (post_reply (net w) (count is_post t)) as [d|e]; cbn [answer]; [reflexivity|].
  cbv zeta.
  destruct (exn_kind_eqb (kind e) APICallException); [|reflexivity].
  destruct (str_in refused_text (text e)).
  - unfold bind, sleep. destruct (n + 1 =? 12); reflexivity.
  - destruct (str_in already_text (text e)); reflexivity.
Qed.

(** The loop gives up when the counter reaches 12, and the counter starts
    at 1: from a counter [n] it submits at most [12 - n] times. *)
Lemma post_loop_attempts (fuel : nat) (config tm : pyval) (w : world) :
  forall (n : Z) (t : trace),
    1 <= n <= 11 ->
    (count is_post (snd (post_loop fuel config tm n w t))
     <= count is_post t + Z.to_nat (12 - n))%nat.
Proof.
  induction fuel as [|fuel IH]; intros n t Hn.
  - cbn [post_loop]. unfold out_of_fuel. cbn [snd]. lia.
  - rewrite post_loop_step. cbv zeta.
    set (r := post_reply (net w) (count is_post t)).
    assert (H1 : count is_post (t ++ [EPost "internal" "/cluster/me/bootstrap" config tm r])%list
                 = S (count is_post t)).
    { rewrite count_app, count_one. cbn [is_post]. lia. }
    destruct r as [d|e]; cbn [snd].
    + rewrite H1. lia.
    + destruct (exn_kind_eqb (kind e) APICallException); cbn [snd]; [|rewrite H1; lia].
      destruct (str_in refused_text (text e)).
      * destruct (Z.eqb_spec (n + 1) 12) as [E|E]; cbn [snd].
        -- rewrite count_app, count_one, H1. cbn [is_post]. lia.
        -- specialize (IH (n + 1)
             ((t ++ [EPost "internal" "/cluster/me/bootstrap" config tm
                       (Fails e)]) ++ [ESleep 30])%list).
           rewrite count_app, count_one, H1 in IH. cbn [is_post] in IH.
           specialize (IH ltac:(lia)). lia.
      * destruct (str_in already_text (text e)); cbn [snd]; rewrite H1; lia.
Qed.

(** ** [status] *)

Lemma status_cases (request_id tm ipv4_addr : pyval) (w : world) (t : trace) :
  status request_id tm ipv4_addr w t =
  let g := get_reply (net w) (count is_primary_get t) in
  let t1 := (t ++ [EGet Primary "internal" (status_endpoint request_id) tm g])%list in
  match g with
  | Reply d => (Ok d, t1)
  | Fails e =>
      if exn_kind_eqb (kind e) APICallException then
        match Connect_init (environ w) ipv4_addr PNone PNone (PStr "abcd") "debug" with
        | Ok conn =>
            let f := fallback_reply (net w) (count is_fallback_get t) in
            (answer f,
             (t1 ++ [EGet (Fallback (conn_node_ip conn)) "internal"
                          (status_endpoint request_id) tm f])%list)
        | Raise e' => (Raise e', t1)
        | OutOfFuel => (OutOfFuel, t1)
        end
      else (Raise e, t1)
  end.
Proof.
  unfold status, status_endpoint, bind at 1, try_, api_get at 1.
  destruct (get_reply (net w) (count is_primary_get t)) as [d|e]; cbn [answer];
    [reflexivity|].
  cbv zeta.
  destruct (exn_kind_eqb (kind e) APICallException); [|reflexivity].
  unfold bind.
  destruct (Connect_init (environ w) ipv4_addr PNone PNone (PStr "abcd") "debug");
    try reflexivity.
  unfold api_get. rewrite count_app, count_one. cbn [is_fallback_get].
  rewrite Nat.add_0_r. reflexivity.
Qed.

(** [status] only adds GET events to the trace. *)
Lemma status_trace (request_id tm ipv4_addr : pyval) (w : world) (t : trace) :
  exists new, snd (status request_id tm ipv4_addr w t) = (t ++ new)%list
              /\ Forall (fun e => is_get e = true) new.
Proof.
  rewrite status_cases. cbv zeta.
  destruct (get_reply (net w) (count is_primary_get t)) as [d|e].
  - eexists; split; [reflexivity|]. repeat constructor.
  - destruct (exn_kind_eqb (kind e) APICallException).
    + destruct (Connect_init (environ w) ipv4_addr PNone PNone (PStr "abcd") "debug").
      * eexists; split; [cbn [snd]; rewrite <- app_assoc; reflexivity|].
        repeat constructor.
      * eexists; split; [reflexivity|]. repeat constructor.
      * eexists; split; [reflexivity|]. repeat constructor.
    + eexists; split; [reflexivity|]. repeat constructor.
Qed.

(** The secondary client of [status] is built when a fallback address is
    given and the environment holds both or neither of the user name and
    the password. *)
Lemma Connect_init_fallback (env : os_environ) (ipv4_addr : pyval) :
  is_none ipv4_addr = false ->
  is_some (rubrik_cdm_username env) = is_some (rubrik_cdm_password env) ->
  Connect_init env ipv4_addr PNone PNone (PStr "abcd") "debug"
  = Ok {| conn_node_ip := ipv4_addr; conn_api_token := PStr "abcd" |}.
Proof.
  intros Hip Hcred. unfold Connect_init.
  cbn [mem existsb negb String.eqb Ascii.eqb Bool.eqb orb].
  rewrite Hip. cbv zeta. rewrite Hip.
  destruct (rubrik_cdm_username env), (rubrik_cdm_password env),
    (rubrik_cdm_token env); cbn in Hcred; try discriminate; reflexivity.
Qed.

(** C8, as stated, fails: [status] called without a fallback address
    (the default [ipv4_addr=None]) on a host without [rubrik_cdm_node_ip]
    makes no second GET when the first one fails; the construction of the
    secondary client raises a parameter error instead. *)
Lemma C8_counterexample :
  get_reply (net only_fallback_answers) 0 = unreachable
  /\ fst (run (status (PStr "1") (PInt 15) PNone) only_fallback_answers)
     = Raise (mkExn InvalidParameterException
                "The Rubrik CDM Node IP has not been provided.")
  /\ ~ (count is_fallback_get
          (snd (run (status (PStr "1") (PInt 15) PNone) only_fallback_answers)) = 1%nat
        /\ fst (run (status (PStr "1") (PInt 15) PNone) only_fallback_answers)
           = answer (fallback_reply (net only_fallback_answers) 0)).
Proof.
  split; [reflexivity|]. split; [reflexivity|].
  intros [Hcount _]. vm_compute in Hcount. discriminate.
Qed.

(** C8, amended: when the secondary client can be built (a fallback
    address is given and the environment holds both or neither of
    [rubrik_cdm_username] and [rubrik_cdm_password]), a GET answered at the
    resolved address returns its document unchanged after that one call; a
    GET failing there with [APICallException] is followed by exactly one
    GET of the same endpoint and timeout through the client bound to the
    fallback address, whose document or failure is the result as it is;
    any other exception of the first GET propagates without a retry. *)
Theorem C8_status_retries_once_through_fallback
    (w : world) (t : trace) (request_id tm ipv4_addr : pyval) :
  is_none ipv4_addr = false ->
  is_some (rubrik_cdm_username (environ w)) = is_some (rubrik_cdm_password (environ w)) ->
  let g := get_reply (net w) (count is_primary_get t) in
  let f := fallback_reply (net w) (count is_fallback_get t) in
  let first := EGet Primary "internal" (status_endpoint request_id) tm g in
  let retry := EGet (Fallback ipv4_addr) "internal" (status_endpoint request_id) tm f in
  status request_id tm ipv4_addr w t =
  match g with
  | Reply d => (Ok d, (t ++ [first])%list)
  | Fails e =>
      if exn_kind_eqb (kind e) APICallException
      then (answer f, (t ++ [first; retry])%list)
      else (Raise e, (t ++ [first])%list)
  end.
Proof.
  intros Hip Hcred. cbv zeta. rewrite status_cases. cbv zeta.
  rewrite (Connect_init_fallback _ _ Hip Hcred). cbn [conn_node_ip].
  destruct (get_reply (net w) (count is_primary_get t)) as [d|e]; [reflexivity|].
  destruct (exn_kind_eqb (kind e) APICallException); [|reflexivity].
  rewrite <- app_assoc. reflexivity.
Qed.

Lemma C8_witness :
  status (PStr "1") (PInt 15) (PStr "10.0.0.11") only_fallback_answers []
  = (Ok (status_doc "SUCCESS"),
     [EGet Primary "internal" "/cluster/me/bootstrap?request_id=1" (PInt 15) unreachable;
      EGet (Fallback (PStr "10.0.0.11")) "internal" "/cluster/me/bootstrap?request_id=1"
           (PInt 15) (Reply (status_doc "SUCCESS"))]).
Proof.
  exact (C8_status_retries_once_through_fallback only_fallback_answers []
           (PStr "1") (PInt 15) (PStr "10.0.0.11") eq_refl eq_refl).
Defined.

(** ** The polling loop *)

(** One turn of the polling loop. *)
Lemma poll_loop_step (fuel : nat) (request_id ipv4_addr : pyval) (w : world) (t : trace) :
  poll_loop (S fuel) request_id ipv4_addr w t =
  match status request_id (PInt 15) ipv4_addr w t with
  | (Ok st, t') =>
      match py_getitem st "status" with
      | Ok state =>
          if py_eq_str state "IN_PROGRESS" then
            poll_loop fuel request_id ipv4_addr w (t' ++ [ESleep 30])%list
          else if py_eq_str state "FAILURE" || py_eq_str state "FAILED" then
            match py_getitem st "message" with
            | Ok message => (Raise (mkExn RubrikException (py_str message)), t')
            | Raise e => (Raise e, t')
            | OutOfFuel => (OutOfFuel, t')
            end
          else (Ok st, t')
      | Raise e => (Raise e, t')
      | OutOfFuel => (OutOfFuel, t')
      end
  | (Raise e, t') => (Raise e, t')
  | (OutOfFuel, t') => (OutOfFuel, t')
  end.
Proof.
  cbn [poll_loop]. unfold bind at 1.
  destruct (status request_id (PInt 15) ipv4_addr w t) as [[st|e|] t']; try reflexivity.
  unfold bind at 1, lift at 1.
  destruct (py_getitem st "status") as [state|e|]; try reflexivity.
  destruct (py_eq_str state "IN_PROGRESS"); [reflexivity|].
  destruct (py_eq_str state "FAILURE" || py_eq_str state "FAILED"); [|reflexivity].
  unfold bind, lift, raise.
  destruct (py_getitem st "message"); reflexivity.
Qed.

Lemma poll_loop_waiting (request_id ipv4_addr : pyval) (w : world) :
  forall (n fuel : nat) (t0 t1 : trace),
    waiting n request_id ipv4_addr w t0 = Some t1 ->
    poll_loop (n + fuel) request_id ipv4_addr w t0
    = poll_loop fuel request_id ipv4_addr w t1.
Proof.
  induction n as [|n IH]; intros fuel t0 t1 H.
  - cbn in H. injection H as <-. reflexivity.
  - cbn [waiting] in H. cbn [Nat.add]. rewrite poll_loop_step.
    destruct (status request_id (PInt 15) ipv4_addr w t0) as [[st|e|] t']; try discriminate.
    destruct (py_getitem st "status") as [state|e|]; try discriminate.
    destruct (py_eq_str state "IN_PROGRESS"); [|discriminate].
    apply IH. exact H.
Qed.

Lemma waiting_sleeps (request_id ipv4_addr : pyval) (w : world) :
  forall (n : nat) (t0 t1 : trace),
    waiting n request_id ipv4_addr w t0 = Some t1 ->
    count is_sleep t1 = (count is_sleep t0 + n)%nat.
Proof.
  induction n as [|n IH]; intros t0 t1 H.
  - cbn in H. injection H as <-. lia.
  - cbn [waiting] in H.
    destruct (status_trace request_id (PInt 15) ipv4_addr w t0) as [new [Hnew Hget]].
    destruct (status request_id (PInt 15) ipv4_addr w t0) as [[st|e|] t']; try discriminate.
    destruct (py_getitem st "status") as [state|e|]; try discriminate.
    destruct (py_eq_str state "IN_PROGRESS"); [|discriminate].
    cbn [snd] in Hnew. subst t'.
    rewrite (IH _ _ H), !count_app, count_one. cbn [is_sleep].
    rewrite (count_zero_Forall is_sleep new).
    + lia.
    + eapply Forall_impl; [|exact Hget]. intros [] He; cbn in *; congruence.
Qed.

Lemma status_sleeps (request_id tm ipv4_addr : pyval) (w : world) (t t' : trace)
    (o : outcome pyval) :
  status request_id tm ipv4_addr w t = (o, t') ->
  count is_sleep t' = count is_sleep t.
Proof.
  intros H.
  destruct (status_trace request_id tm ipv4_addr w t) as [new [Hnew Hget]].
  rewrite H in Hnew. cbn [snd] in Hnew. subst t'.
  rewrite count_app, (count_zero_Forall is_sleep new); [lia|].
  eapply Forall_impl; [|exact Hget]. intros [] He; cbn in *; congruence.
Qed.



Example completing_delays :
  count is_sleep completing_submitted = 0%nat /\ count is_sleep completing_done = 2%nat.
Proof. split; reflexivity. Qed.

(** ** The submission loop *)

Lemma existsb_snoc {A} (p : A -> bool) (l : list A) (x : A) :
  existsb p (l ++ [x]) = existsb p l || p x.
Proof. rewrite existsb_app. cbn. rewrite orb_false_r. reflexivity. Qed.

Ltac all_events :=
  repeat (apply Forall_cons; [assumption|]); apply Forall_nil.

(** What the submission loop adds to the trace: POSTs of the one document
    and delays; and if one of the POSTs was answered "already
    bootstrapped", the loop returned the benign text. *)
Lemma post_loop_trace (config tm : pyval) (w : world) :
  forall (fuel : nat) (n : Z) (t : trace),
  exists new,
    snd (post_loop fuel config tm n w t) = (t ++ new)%list
    /\ Forall (submission_event config tm) new
    /\ (existsb already_post new = true ->
        fst (post_loop fuel config tm n w t) = Ok (inr (PStr no_change_text))).
Proof.
  induction fuel as [|fuel IH]; intros n t.
  - exists []. cbn [post_loop]. unfold out_of_fuel. cbn [snd fst existsb].
    rewrite app_nil_r. repeat split; [all_events | discriminate].
  - rewrite post_loop_step. cbv zeta.
    set (r := post_reply (net w) (count is_post t)).
    set (p := EPost "internal" "/cluster/me/bootstrap" config tm r).
    assert (Hp : submission_event config tm p) by (right; exists r; reflexivity).
    assert (Hs : submission_event config tm (ESleep 30)) by (left; reflexivity).
    destruct r as [d|e] eqn:Er.
    + exists [p]. cbn [snd fst]. repeat split; [all_events|].
      cbn. discriminate.
    + destruct (exn_kind_eqb (kind e) APICallException) eqn:Ek.
      * destruct (str_in refused_text (text e)) eqn:Eref.
        -- assert (Hnot : already_post p = false).
           { subst p. cbn [already_post]. rewrite Ek, Eref. reflexivity. }
           destruct (n + 1 =? 12).
           ++ exists [p; ESleep 30]. cbn [snd fst].
              rewrite <- app_assoc. repeat split; [all_events|].
              cbn [existsb]. rewrite Hnot. cbn. discriminate.
           ++ destruct (IH (n + 1) ((t ++ [p]) ++ [ESleep 30])%list)
                as [new [Hnew [Hall Hal]]].
              exists (p :: ESleep 30 :: new). split; [|split].
              ** rewrite Hnew. repeat rewrite <- app_assoc. reflexivity.
              ** repeat (apply Forall_cons; [assumption|]). exact Hall.
              ** cbn [existsb]. rewrite Hnot. cbn [orb already_post]. exact Hal.
        -- destruct (str_in already_text (text e)) eqn:Eal.
           ++ exists [p]. cbn [snd fst]. repeat split. all_events.
           ++ exists [p]. cbn [snd fst]. repeat split; [all_events|].
              subst p. cbn [existsb already_post]. rewrite Ek, Eref, Eal. discriminate.
      * exists [p]. cbn [snd fst]. repeat split; [all_events|].
        subst p. cbn [existsb already_post]. rewrite Ek. discriminate.
Qed.

(** The polling loop adds GETs and delays only. *)
Lemma poll_loop_trace (request_id ipv4_addr : pyval) (w : world) :
  forall (fuel : nat) (t : trace),
  exists new,
    snd (poll_loop fuel request_id ipv4_addr w t) = (t ++ new)%list
    /\ Forall (fun e => is_post e = false) new.
Proof.
  induction fuel as [|fuel IH]; intros t.
  - exists []. cbn [poll_loop]. unfold out_of_fuel. cbn [snd].
    rewrite app_nil_r. split; constructor.
  - rewrite poll_loop_step.
    destruct (status_trace request_id (PInt 15) ipv4_addr w t) as [new [Hnew Hget]].
    assert (Hnp : Forall (fun e => is_post e = false) new).
    { eapply Forall_impl; [|exact Hget]. intros [] He; cbn in *; congruence. }
    destruct (status request_id (PInt 15) ipv4_addr w t) as [[st|e|] t'];
      cbn [snd] in Hnew; subst t'; try (exists new; split; [reflexivity|exact Hnp]).
    destruct (py_getitem st "status") as [state|e|];
      try (exists new; split; [reflexivity|exact Hnp]).
    destruct (py_eq_str state "IN_PROGRESS").
    + destruct (IH ((t ++ new) ++ [ESleep 30])%list) as [more [Hmore Hmp]].
      exists (new ++ ESleep 30 :: more)%list. split.
      * rewrite Hmore. repeat rewrite <- app_assoc. reflexivity.
      * apply Forall_app. split; [exact Hnp|]. constructor; [reflexivity|exact Hmp].
    + destruct (py_eq_str state "FAILURE" || py_eq_str state "FAILED");
        [destruct (py_getitem st "message")|];
        exists new; (split; [reflexivity|exact Hnp]).
Qed.

Lemma no_post_not_already (t : trace) :
  Forall (fun e => is_post e = false) t -> existsb already_post t = false.
Proof.
  induction 1 as [|e t He _ IH]; [reflexivity|].
  cbn [existsb]. rewrite IH, orb_false_r.
  destruct e; cbn in He; try discriminate; reflexivity.
Qed.

Lemma submission_events_no_get (config tm : pyval) (t : trace) :
  Forall (submission_event config tm) t -> filter is_get t = [].
Proof.
  induction 1 as [|e t He _ IH]; [reflexivity|].
  cbn [filter]. rewrite IH. destruct He as [->|[r ->]]; reflexivity.
Qed.

(** ** [submit], step by step *)

Lemma submit_unfold (fuel : nat) (a : setup_args) (w : world) (t : trace) :
  submit fuel a w t =
  if is_none (node_config a) || negb (isinstance_dict (node_config a)) then
    (Raise (mkExn InvalidParameterException node_config_text), t)
  else
  match list_argument "dns_search_domains" [] (dns_search_domains a) with
  | Raise e => (Raise e, t)
  | OutOfFuel => (OutOfFuel, t)
  | Ok search_domains =>
  match list_argument "dns_nameservers" [PStr "8.8.8.8"] (dns_nameservers a) with
  | Raise e => (Raise e, t)
  | OutOfFuel => (OutOfFuel, t)
  | Ok nameservers =>
  match list_argument "ntp_servers" [PStr "pool.ntp.org"] (ntp_servers a) with
  | Raise e => (Raise e, t)
  | OutOfFuel => (OutOfFuel, t)
  | Ok ntp =>
  let g := get_reply (net w) (count is_primary_get t) in
  let t1 := (t ++ [EGet Primary "v1" "/cluster/me/version" (timeout a) g])%list in
  match g with
  | Fails e => (Raise e, t1)
  | Reply response =>
  match version_below_5 response with
  | Raise e => (Raise e, t1)
  | OutOfFuel => (OutOfFuel, t1)
  | Ok below_5 =>
  match bootstrap_config a search_domains nameservers ntp below_5 with
  | Raise e => (Raise e, t1)
  | OutOfFuel => (OutOfFuel, t1)
  | Ok config =>
  match first_value (items_of (node_config a)) with
  | Raise e => (Raise e, t1)
  | OutOfFuel => (OutOfFuel, t1)
  | Ok ipv4_addr =>
  match post_loop fuel config (timeout a) 1 w t1 with
  | (Ok (inl api_request), t2) => (Ok (inl (api_request, ipv4_addr)), t2)
  | (Ok (inr value), t2) => (Ok (inr value), t2)
  | (Raise e, t2) => (Raise e, t2)
  | (OutOfFuel, t2) => (OutOfFuel, t2)
  end end end end end end end end.
Proof.
  unfold submit.
  destruct (is_none (node_config a) || negb (isinstance_dict (node_config a)));
    [reflexivity|].
  unfold bind at 1, lift at 1.
  destruct (list_argument "dns_search_domains" [] (dns_search_domains a))
    as [search_domains|e|]; try reflexivity.
  unfold bind at 1, lift at 1.
  destruct (list_argument "dns_nameservers" [PStr "8.8.8.8"] (dns_nameservers a))
    as [nameservers|e|]; try reflexivity.
  unfold bind at 1, lift at 1.
  destruct (list_argument "ntp_servers" [PStr "pool.ntp.org"] (ntp_servers a))
    as [ntp|e|]; try reflexivity.
  unfold bind at 1, api_get at 1. cbv zeta.
  destruct (get_reply (net w) (count is_primary_get t)) as [response|e];
    cbn [answer]; [|reflexivity].
  unfold bind at 1, lift at 1.
  destruct (version_below_5 response) as [below_5|e|]; try reflexivity.
  unfold bind at 1, lift at 1.
  destruct (bootstrap_config a search_domains nameservers ntp below_5)
    as [config|e|]; try reflexivity.
  unfold bind at 1, lift at 1.
  destruct (first_value (items_of (node_config a))) as [ipv4_addr|e|]; try reflexivity.
  unfold bind at 1.
  destruct (post_loop fuel config (timeout a) 1 w _) as [[[api_request|value]|e|] t2];
    reflexivity.
Qed.

Lemma setup_cluster_unfold (fuel : nat) (a : setup_args) (w : world) (t : trace) :
  setup_cluster fuel a w t =
  match submit fuel a w t with
  | (Ok (inr value), t') => (Ok value, t')
  | (Ok (inl (api_request, ipv4_addr)), t') =>
      match py_getitem api_request "id" with
      | Ok request_id =>
          if py_truthy (wait_for_completion a)
          then poll_loop fuel request_id ipv4_addr w t'
          else (Ok api_request, t')
      | Raise e => (Raise e, t')
      | OutOfFuel => (OutOfFuel, t')
      end
  | (Raise e, t') => (Raise e, t')
  | (OutOfFuel, t') => (OutOfFuel, t')
  end.
Proof.
  unfold setup_cluster, bind at 1.
  destruct (submit fuel a w t) as [[[[api_request ipv4_addr]|value]|e|] t'];
    try reflexivity.
  unfold bind, lift.
  destruct (py_getitem api_request "id"); try reflexivity.
  destruct (py_truthy (wait_for_completion a)); reflexivity.
Qed.

(** What happens after a successful submission adds no POST. *)
Lemma after_submission_trace (fuel : nat) (a : setup_args) (w : world)
    (api_request ipv4_addr : pyval) (t : trace) :
  exists more,
    snd (match py_getitem api_request "id" with
         | Ok request_id =>
             if py_truthy (wait_for_completion a)
             then poll_loop fuel request_id ipv4_addr w t
             else (Ok api_request, t)
         | Raise e => (Raise e, t)
         | OutOfFuel => (OutOfFuel, t)
         end) = (t ++ more)%list
    /\ Forall (fun e => is_post e = false) more.
Proof.
  destruct (py_getitem api_request "id") as [request_id|e|];
    try (exists []; rewrite app_nil_r; split; [reflexivity|constructor]).
  destruct (py_truthy (wait_for_completion a)).
  - apply poll_loop_trace.
  - exists []. rewrite app_nil_r. split; [reflexivity|constructor].
Qed.

(** C7: in every run in which a bootstrap POST is answered with the
    "already bootstrapped" error, [setup_cluster] returns the text "No
    change required. The Rubrik cluster is already bootstrapped." as its
    value, not an exception, and the only GET of the run is the version
    query: the status is never polled, whatever [wait_for_completion] is. *)
Theorem C7_already_bootstrapped_is_benign (fuel : nat) (a : setup_args) (w : world) :
  existsb already_post (snd (run (setup_cluster fuel a) w)) = true ->
  fst (run (setup_cluster fuel a) w) = Ok (PStr no_change_text)
  /\ filter is_get (snd (run (setup_cluster fuel a) w))
     = [EGet Primary "v1" "/cluster/me/version" (timeout a) (get_reply (net w) 0)].
Proof.
  unfold run. rewrite setup_cluster_unfold, submit_unfold. cbv zeta.
  change (count is_primary_get []) with 0%nat. cbn [app].
  destruct (is_none (node_config a) || negb (isinstance_dict (node_config a)));
    [cbn; discriminate|].
  destruct (list_argument "dns_search_domains" [] (dns_search_domains a))
    as [search_domains|e|]; try (cbn; discriminate).
  destruct (list_argument "dns_nameservers" [PStr "8.8.8.8"] (dns_nameservers a))
    as [nameservers|e|]; try (cbn; discriminate).
  destruct (list_argument "ntp_servers" [PStr "pool.ntp.org"] (ntp_servers a))
    as [ntp|e|]; try (cbn; discriminate).
  set (v := EGet Primary "v1" "/cluster/me/version" (timeout a) (get_reply (net w) 0)).
  change [v] with [v].
  assert (Hv : existsb already_post [v] = false) by reflexivity.
  destruct (get_reply (net w) 0) as [response|e] eqn:Eg;
    [|cbn [snd]; rewrite Hv; discriminate].
  destruct (version_below_5 response) as [below_5|e|];
    try (cbn [snd]; rewrite Hv; discriminate).
  destruct (bootstrap_config a search_domains nameservers ntp below_5) as [config|e|];
    try (cbn [snd]; rewrite Hv; discriminate).
  destruct (first_value (items_of (node_config a))) as [ipv4_addr|e|];
    try (cbn [snd]; rewrite Hv; discriminate).
  destruct (post_loop_trace config (timeout a) w fuel 1 [v])
    as [new [Hnew [Hall Hal]]].
  destruct (post_loop fuel config (timeout a) 1 w [v])
    as [[[api_request|value]|e|] t2]; cbn [snd fst] in Hnew, Hal; subst t2.
  - destruct (after_submission_trace fuel a w api_request ipv4_addr ([v] ++ new)%list)
      as [more [Hmore Hnp]].
    rewrite Hmore, !existsb_app, Hv, (no_post_not_already _ Hnp), orb_false_r.
    cbn [orb]. intros H. specialize (Hal H). discriminate.
  - cbn [snd fst]. rewrite existsb_app, Hv. cbn [orb]. intros H.
    specialize (Hal H). injection Hal as ->. split; [reflexivity|].
    rewrite filter_app, (submission_events_no_get _ _ _ Hall). reflexivity.
  - cbn [snd fst]. rewrite existsb_app, Hv. cbn [orb]. intros H.
    specialize (Hal H). discriminate.
  - cbn [snd fst]. rewrite existsb_app, Hv. cbn [orb]. intros H.
    specialize (Hal H). discriminate.
Qed.

Lemma C7_witness :
  fst (run (setup_cluster 11 edge_args) bootstrapped_cluster) = Ok (PStr no_change_text)
  /\ filter is_get (snd (run (setup_cluster 11 edge_args) bootstrapped_cluster))
     = [EGet Primary "v1" "/cluster/me/version" (PInt 30) (version_doc "5.0.2")].
Proof.
  apply (C7_already_bootstrapped_is_benign 11 edge_args bootstrapped_cluster).
  vm_compute. reflexivity.
Defined.

(** Eleven turns are enough: from the counter 1 the submission loop ends
    by itself, with an answer, a returned value or an exception. *)
Lemma post_loop_terminates (config tm : pyval) (w : world) :
  forall (fuel : nat) (n : Z) (t : trace),
    1 <= n <= 11 -> (Z.to_nat (12 - n) <= fuel)%nat ->
    fst (post_loop fuel config tm n w t) <> OutOfFuel.
Proof.
  induction fuel as [|fuel IH]; intros n t Hn Hf; [lia|].
  rewrite post_loop_step. cbv zeta.
  destruct (post_reply (net w) (count is_post t)) as [d|e]; [discriminate|].
  destruct (exn_kind_eqb (kind e) APICallException); [|discriminate].
  destruct (str_in refused_text (text e)).
  - destruct (Z.eqb_spec (n + 1) 12); [discriminate|]. apply IH; lia.
  - destruct (str_in already_text (text e)); discriminate.
Qed.

(** Whatever the cluster answers, a run submits at most 11 times. *)
Lemma setup_cluster_attempts (fuel : nat) (a : setup_args) (w : world) :
  (count is_post (snd (run (setup_cluster fuel a) w)) <= 11)%nat.
Proof.
  unfold run. rewrite setup_cluster_unfold, submit_unfold. cbv zeta.
  destruct (is_none (node_config a) || negb (isinstance_dict (node_config a)));
    [cbn; lia|].
  destruct (list_argument "dns_search_domains" [] (dns_search_domains a))
    as [search_domains|e|]; try (cbn; lia).
  destruct (list_argument "dns_nameservers" [PStr "8.8.8.8"] (dns_nameservers a))
    as [nameservers|e|]; try (cbn; lia).
  destruct (list_argument "ntp_servers" [PStr "pool.ntp.org"] (ntp_servers a))
    as [ntp|e|]; try (cbn; lia).
  destruct (get_reply (net w) (count is_primary_get [])) as [response|e];
    [|cbn; lia].
  destruct (version_below_5 response) as [below_5|e|]; try (cbn; lia).
  destruct (bootstrap_config a search_domains nameservers ntp below_5) as [config|e|];
    try (cbn; lia).
  destruct (first_value (items_of (node_config a))) as [ipv4_addr|e|]; try (cbn; lia).
  match goal with
  | |- context [post_loop fuel config (timeout a) 1 w ?t1] =>
      pose proof (post_loop_attempts fuel config (timeout a) w 1 t1 ltac:(lia)) as Hp;
      change (count is_post t1) with 0%nat in Hp;
      destruct (post_loop fuel config (timeout a) 1 w t1) as [[[api_request|value]|e|] t2]
  end; cbn [snd] in Hp |- *; try (cbn in Hp; lia).
  destruct (after_submission_trace fuel a w api_request ipv4_addr t2)
    as [more [Hmore Hnp]].
  rewrite Hmore, count_app, (count_zero_Forall is_post more Hnp). cbn in Hp. lia.
Qed.

(** C1, on the code: when the first eleven POSTs are refused and the
    twelfth would succeed, the loop sleeps 30 seconds after the eleventh
    refusal and then raises "Unable to establish a connection to the
    Rubrik cluster." without submitting again: eleven POSTs and eleven
    delays, whatever the loop budget beyond eleven turns. *)
Theorem C1_twelfth_attempt_is_never_made (extra : nat) :
  post_reply (net late_cluster) 11 = Reply accepted_doc
  /\ fst (run (setup_cluster (11 + extra) edge_args) late_cluster)
     = Raise (mkExn APICallException unable_text)
  /\ count is_post (snd (run (setup_cluster (11 + extra) edge_args) late_cluster)) = 11%nat
  /\ count is_sleep (snd (run (setup_cluster (11 + extra) edge_args) late_cluster)) = 11%nat.
Proof. vm_compute. repeat split. Qed.

(** Ten refusals are survived: the eleventh POST is the last one made. *)
Example ten_refusals_then_accepted :
  fst (run (setup_cluster 11 edge_args)
         (scripted [version_doc "5.0.2"; Reply (status_doc "SUCCESS")]
                   (repeat refused 10 ++ [Reply accepted_doc]) []))
  = Ok (status_doc "SUCCESS").
Proof. vm_compute. reflexivity. Qed.

(** A value that is not a dictionary is rejected before any call. *)
Lemma node_config_not_a_mapping (fuel : nat) (a : setup_args) (w : world) :
  isinstance_dict (node_config a) = false ->
  run (setup_cluster fuel a) w
  = (Raise (mkExn InvalidParameterException node_config_text), []).
Proof.
  intros H. unfold run. rewrite setup_cluster_unfold, submit_unfold, H.
  rewrite orb_true_r. reflexivity.
Qed.

(** C2, on the code: an empty [node_config] passes the check of line 447;
    the version is queried over the network, and the call then fails
    with the [IndexError] of [list(node_config.values())[0]], not with a
    parameter error. *)
Theorem C2_empty_node_config_is_not_rejected (fuel : nat) :
  run (setup_cluster fuel no_nodes) (scripted [version_doc "5.0.2"] [] [])
  = (Raise (mkExn IndexError ""),
     [EGet Primary "v1" "/cluster/me/version" (PInt 30) (version_doc "5.0.2")]).
Proof. vm_compute. reflexivity. Qed.

(** ** Dictionaries *)

Lemma dict_get_set_same (k : string) (v : pyval) (d : dict) :
  dict_get k (dict_set k v d) = Some v.
Proof.
  induction d as [|[k' v'] d IH]; cbn [dict_set dict_get].
  - rewrite String.eqb_refl. reflexivity.
  - destruct (String.eqb k' k) eqn:E; cbn [dict_get]; rewrite E; [reflexivity|exact IH].
Qed.

Lemma dict_get_set_other (k k' : string) (v : pyval) (d : dict) :
  k <> k' -> dict_get k (dict_set k' v d) = dict_get k d.
Proof.
  intros Hne. induction d as [|[k0 v0] d IH]; cbn [dict_set dict_get].
  - destruct (String.eqb_spec k' k); [congruence|reflexivity].
  - destruct (String.eqb_spec k0 k') as [->|Hk0]; cbn [dict_get].
    + destruct (String.eqb_spec k' k); [congruence|reflexivity].
    + destruct (String.eqb k0 k); [reflexivity|exact IH].
Qed.

Lemma dict_mem_set (k k' : string) (v : pyval) (d : dict) :
  dict_mem k (dict_set k' v d) = String.eqb k' k || dict_mem k d.
Proof.
  unfold dict_mem. destruct (String.eqb_spec k' k) as [->|Hne].
  - rewrite dict_get_set_same. reflexivity.
  - rewrite dict_get_set_other by congruence. reflexivity.
Qed.

(** ** The NTP entry of the document *)





Example ntp_before_5 :
  forall config, bootstrap_config edge_args [] [PStr "8.8.8.8"] [PStr "pool.ntp.org"] true
                 = Ok (PDict config) ->
  dict_get "ntpServers" config = Some (PList [PStr "pool.ntp.org"]).
Proof. intros config H. vm_compute in H. injection H as <-. reflexivity. Qed.

(** ** The node entries of the document *)

Section NodeEntries.

Variable P : dict -> Prop.

Lemma dict_set_entries (k : string) (v : pyval) (nodes : dict) :
  Forall (entry_with P) nodes -> entry_with P (k, v) ->
  Forall (entry_with P) (dict_set k v nodes).
Proof.
  intros Hall Hv. induction Hall as [|[k' v'] nodes Hkv Hrest IH]; cbn [dict_set].
  - constructor; [exact Hv|constructor].
  - destruct (String.eqb k' k).
    + constructor; [exact Hv|assumption].
    + constructor; assumption.
Qed.

Lemma dict_get_entry (k : string) (v : pyval) (nodes : dict) :
  Forall (entry_with P) nodes -> dict_get k nodes = Some v ->
  exists d, v = PDict d /\ P d.
Proof.
  induction 1 as [|[k' v'] nodes Hkv _ IH]; cbn [dict_get]; [discriminate|].
  destruct (String.eqb k' k); [|exact IH].
  intros H. injection H as <-. exact Hkv.
Qed.

Lemma management_loop_entries (netmask gateway vlan : pyval) :
  (forall c, P (dict_set "managementIpConfig" c [])) ->
  forall items nodes,
    Forall (entry_with P) nodes ->
    Forall (entry_with P) (management_loop netmask gateway vlan items nodes).
Proof.
  intros HP. induction items as [|[name ip] items IH]; intros nodes Hall; [exact Hall|].
  cbn [management_loop]. apply IH, dict_set_entries; [exact Hall|].
  eexists; split; [reflexivity|apply HP].
Qed.

Variables (key error : string) (netmask gateway vlan : pyval).
Hypothesis P_kept : forall d c, P d -> P (dict_set key c d).

(** A loop over an address map that ends normally met known node names
    only, kept the node names and kept [P] of every record. *)
Lemma address_loop_ok :
  forall items nodes nodes',
    Forall (entry_with P) nodes ->
    address_loop key error netmask gateway vlan items nodes = Ok nodes' ->
    (forall k, dict_mem k nodes' = dict_mem k nodes)
    /\ Forall (entry_with P) nodes'
    /\ Forall (fun kv => dict_mem (fst kv) nodes = true) items.
Proof.
  induction items as [|[name ip] items IH]; intros nodes nodes' Hall H.
  - cbn in H. injection H as <-. repeat split; [exact Hall|constructor].
  - cbn [address_loop] in H.
    destruct (dict_get name nodes) as [v|] eqn:Eg; [|discriminate].
    destruct (dict_get_entry _ _ _ Hall Eg) as [node [-> Hnode]].
    assert (Hmem : forall k,
               dict_mem k (dict_set name
                             (PDict (dict_set key (ip_config netmask gateway ip vlan) node))
                             nodes) = dict_mem k nodes).
    { intros k. rewrite dict_mem_set.
      destruct (String.eqb_spec name k) as [<-|_]; [|reflexivity].
      unfold dict_mem. rewrite Eg. reflexivity. }
    apply IH in H.
    + destruct H as [Hk [He Hi]]. repeat split.
      * intros k. rewrite Hk. apply Hmem.
      * exact He.
      * constructor.
        -- cbn [fst]. unfold dict_mem. rewrite Eg. reflexivity.
        -- eapply Forall_impl; [|exact Hi]. intros kv Hkv. rewrite <- Hmem. exact Hkv.
    + apply dict_set_entries; [exact Hall|].
      eexists; split; [reflexivity|apply P_kept, Hnode].
Qed.

(** The only way such a loop fails is the parameter error. *)
Lemma address_loop_raise :
  forall items nodes e,
    Forall (entry_with P) nodes ->
    address_loop key error netmask gateway vlan items nodes = Raise e ->
    e = mkExn InvalidParameterException error.
Proof.
  induction items as [|[name ip] items IH]; intros nodes e Hall H.
  - discriminate.
  - cbn [address_loop] in H.
    destruct (dict_get name nodes) as [v|] eqn:Eg; [|congruence].
    destruct (dict_get_entry _ _ _ Hall Eg) as [node [-> Hnode]].
    apply IH in H; [exact H|].
    apply dict_set_entries; [exact Hall|].
    eexists; split; [reflexivity|apply P_kept, Hnode].
Qed.

Lemma address_loop_total :
  forall items nodes,
    address_loop key error netmask gateway vlan items nodes <> OutOfFuel.
Proof.
  induction items as [|[name ip] items IH]; intros nodes; cbn [address_loop];
    [discriminate|].
  destruct (dict_get name nodes) as [[]|]; try discriminate. apply IH.
Qed.

End NodeEntries.

Lemma management_loop_keys (netmask gateway vlan : pyval) :
  forall items nodes k,
    dict_mem k (management_loop netmask gateway vlan items nodes)
    = dict_mem k items || dict_mem k nodes.
Proof.
  induction items as [|[name ip] items IH]; intros nodes k; [reflexivity|].
  cbn [management_loop]. rewrite IH, dict_mem_set.
  unfold dict_mem at 3. cbn [dict_get].
  destruct (String.eqb name k); [|reflexivity].
  rewrite orb_true_r. reflexivity.
Qed.

Lemma known_not_stray (items nodes nodes0 : dict) :
  (forall k, dict_mem k nodes = dict_mem k nodes0) ->
  Forall (fun kv => dict_mem (fst kv) nodes = true) items ->
  existsb (fun kv => negb (dict_mem (fst kv) nodes0)) items = false.
Proof.
  intros Hk. induction 1 as [|kv items Hkv _ IH]; [reflexivity|].
  cbn [existsb]. rewrite IH, <- Hk, Hkv. reflexivity.
Qed.

Lemma management_nodes (a : setup_args) :
  let nodes := management_loop (management_subnet_mask a) (management_gateway a)
                 (management_vlan a) (items_of (node_config a)) [] in
  (forall k, dict_mem k nodes = dict_mem k (items_of (node_config a)))
  /\ forall k, k <> "managementIpConfig" ->
       Forall (entry_with (fun d => dict_get k d = None)) nodes.
Proof.
  cbv zeta. split.
  - intros k. rewrite management_loop_keys. apply orb_false_r.
  - intros k Hk. apply management_loop_entries; [|constructor].
    intros c. cbn [dict_set dict_get].
    destruct (String.eqb_spec "managementIpConfig" k); [congruence|reflexivity].
Qed.

Lemma entry_with_weaken (P Q : dict -> Prop) (nodes : dict) :
  (forall d, P d -> Q d) -> Forall (entry_with P) nodes -> Forall (entry_with Q) nodes.
Proof.
  intros HPQ. apply Forall_impl. intros kv [d [Hd HP]]. exists d. auto.
Qed.

(** A stray node name in an address map that is in use makes the assembly
    of the node entries fail with the parameter error. *)
Lemma node_configs_stray (a : setup_args) :
  using_ipmi_config a = true /\ stray (node_ipmi_ips a) a = true
  \/ using_data_config a = true /\ stray (node_data_ips a) a = true ->
  exists msg, node_configs a = Raise (mkExn InvalidParameterException msg).
Proof.
  intros H. unfold node_configs.
  destruct (management_nodes a) as [Hk He]. cbv zeta in Hk, He.
  set (nodes := management_loop _ _ _ _ _) in *.
  assert (Hany : Forall (entry_with any_record) nodes).
  { apply (entry_with_weaken (fun d => dict_get "" d = None)); [exact (fun _ _ => I)|].
    apply He. discriminate. }
  assert (Hkept : forall key d c, any_record d -> any_record (dict_set key c d))
    by (intros; exact I).
  unfold ipmi_loop, data_loop.
  destruct (using_ipmi_config a) eqn:Ui.
  - destruct (address_loop "ipmiIpConfig" _ _ _ _ (items_of (node_ipmi_ips a)) nodes)
      as [nodes1|e|] eqn:E1.
    + destruct (address_loop_ok any_record _ _ _ _ _ (Hkept _) _ _ _ Hany E1)
        as [Hk1 [He1 Hi1]].
      destruct H as [[_ Hs]|[Ud Hs]].
      * unfold stray in Hs.
        rewrite (known_not_stray _ nodes _ Hk Hi1) in Hs. discriminate.
      * rewrite Ud.
        destruct (address_loop "dataIpConfig" _ _ _ _ (items_of (node_data_ips a)) nodes1)
          as [nodes2|e|] eqn:E2.
        -- destruct (address_loop_ok any_record _ _ _ _ _ (Hkept _) _ _ _ He1 E2)
             as [_ [_ Hi2]].
           unfold stray in Hs. rewrite (known_not_stray _ nodes1 _) in Hs;
             [discriminate| |exact Hi2].
           intros k. rewrite Hk1. apply Hk.
        -- apply (address_loop_raise any_record _ _ _ _ _ (Hkept _) _ _ _ He1) in E2.
           subst e. eexists. reflexivity.
        -- exfalso. exact (address_loop_total _ _ _ _ _ _ _ E2).
    + apply (address_loop_raise any_record _ _ _ _ _ (Hkept _) _ _ _ Hany) in E1.
      subst e. eexists. reflexivity.
    + exfalso. exact (address_loop_total _ _ _ _ _ _ _ E1).
  - destruct H as [[Hu _]|[Ud Hs]]; [discriminate|]. rewrite Ud.
    destruct (address_loop "dataIpConfig" _ _ _ _ (items_of (node_data_ips a)) nodes)
      as [nodes2|e|] eqn:E2.
    + destruct (address_loop_ok any_record _ _ _ _ _ (Hkept _) _ _ _ Hany E2)
        as [_ [_ Hi2]].
      unfold stray in Hs. rewrite (known_not_stray _ nodes _ Hk Hi2) in Hs. discriminate.
    + apply (address_loop_raise any_record _ _ _ _ _ (Hkept _) _ _ _ Hany) in E2.
      subst e. eexists. reflexivity.
    + exfalso. exact (address_loop_total _ _ _ _ _ _ _ E2).
Qed.

Lemma list_argument_cases (name : string) (default : list pyval) (v : pyval) :
  if list_or_none v
  then exists l, list_argument name default v = Ok l
  else exists msg, list_argument name default v
                   = Raise (mkExn InvalidParameterException msg).
Proof. destruct v; cbn; eexists; reflexivity. Qed.

Lemma version_below_5_total (response : pyval) : version_below_5 response <> OutOfFuel.
Proof.
  unfold version_below_5, py_getitem.
  destruct response; try discriminate.
  destruct (dict_get "version" d) as [[]|]; try discriminate.
  destruct (py_float (str_take 3 s)); discriminate.
Qed.

(** C3, as stated, fails: the stray node name is only met while the
    document is assembled, after the version has been queried over the
    network. *)
Lemma C3_counterexample :
  using_ipmi_config stray_ipmi_args = true
  /\ stray (node_ipmi_ips stray_ipmi_args) stray_ipmi_args = true
  /\ run (setup_cluster 11 stray_ipmi_args) answering_cluster
     = (Raise (mkExn InvalidParameterException
                 "Non-existent node name specified in IPMI addresses."),
        [EGet Primary "v1" "/cluster/me/version" (PInt 30) (version_doc "5.0.2")])
  /\ ~ (count is_network (snd (run (setup_cluster 11 stray_ipmi_args) answering_cluster))
        = 0%nat).
Proof.
  split; [reflexivity|]. split; [reflexivity|]. split; [vm_compute; reflexivity|].
  vm_compute. discriminate.
Qed.

(** C3, amended: when [node_ipmi_ips] or [node_data_ips], with its
    gateway and subnet mask supplied, names a node that is not a key of
    [node_config], the call fails and never submits the document.  If the
    checks of [node_config] and of the optional lists pass, the version
    query is the one network call of the run, and when it yields a version
    that can be read the failure is the parameter error, raised after that
    query and before any POST; if one of those checks fails, its parameter
    error is raised before any network call. *)
Theorem C3_stray_node_name_rejected_before_submission
    (fuel : nat) (a : setup_args) (w : world) :
  using_ipmi_config a = true /\ stray (node_ipmi_ips a) a = true
  \/ using_data_config a = true /\ stray (node_data_ips a) a = true ->
  count is_post (snd (run (setup_cluster fuel a) w)) = 0%nat
  /\ (exists e, fst (run (setup_cluster fuel a) w) = Raise e)
  /\ (if arguments_valid a
      then snd (run (setup_cluster fuel a) w)
           = [EGet Primary "v1" "/cluster/me/version" (timeout a) (get_reply (net w) 0)]
           /\ (forall response below_5,
                 get_reply (net w) 0 = Reply response ->
                 version_below_5 response = Ok below_5 ->
                 exists msg, fst (run (setup_cluster fuel a) w)
                             = Raise (mkExn InvalidParameterException msg))
      else snd (run (setup_cluster fuel a) w) = []
           /\ exists msg, fst (run (setup_cluster fuel a) w)
                          = Raise (mkExn InvalidParameterException msg)).
Proof.
  intros Hstray. destruct (node_configs_stray a Hstray) as [msg Hmsg].
  unfold run. rewrite setup_cluster_unfold, submit_unfold. cbv zeta.
  change (count is_primary_get []) with 0%nat. cbn [app].
  unfold arguments_valid, bootstrap_config. rewrite Hmsg.
  assert (Hnc : is_none (node_config a) || negb (isinstance_dict (node_config a))
                = negb (isinstance_dict (node_config a)))
    by (destruct (node_config a); reflexivity).
  rewrite Hnc.
  destruct (isinstance_dict (node_config a)); cbn [negb andb fst snd];
    [|repeat split; eexists; reflexivity].
  pose proof (list_argument_cases "dns_search_domains" [] (dns_search_domains a)) as H1.
  destruct (list_or_none (dns_search_domains a)); destruct H1 as [x1 ->];
    cbn [negb andb fst snd]; [|repeat split; eexists; reflexivity].
  pose proof (list_argument_cases "dns_nameservers" [PStr "8.8.8.8"] (dns_nameservers a))
    as H2.
  destruct (list_or_none (dns_nameservers a)); destruct H2 as [x2 ->];
    cbn [negb andb fst snd]; [|repeat split; eexists; reflexivity].
  pose proof (list_argument_cases "ntp_servers" [PStr "pool.ntp.org"] (ntp_servers a))
    as H3.
  destruct (list_or_none (ntp_servers a)); destruct H3 as [x3 ->];
    cbn [negb andb fst snd]; [|repeat split; eexists; reflexivity].
  destruct (get_reply (net w) 0) as [response|e]; cbn [fst snd].
  - pose proof (version_below_5_total response) as Htot.
    destruct (version_below_5 response) as [below_5|e|] eqn:Ev; cbn [fst snd];
      [| |congruence].
    + split; [reflexivity|]. split; [eexists; reflexivity|]. split; [reflexivity|].
      intros; eexists; reflexivity.
    + split; [reflexivity|]. split; [eexists; reflexivity|]. split; [reflexivity|].
      intros response' below_5 Hr Hb. injection Hr as <-. congruence.
  - split; [reflexivity|]. split; [eexists; reflexivity|]. split; [reflexivity|].
    intros; discriminate.
Qed.

Lemma C3_witness :
  count is_post (snd (run (setup_cluster 11 stray_ipmi_args) answering_cluster)) = 0%nat
  /\ (exists e, fst (run (setup_cluster 11 stray_ipmi_args) answering_cluster) = Raise e)
  /\ snd (run (setup_cluster 11 stray_ipmi_args) answering_cluster)
     = [EGet Primary "v1" "/cluster/me/version" (PInt 30) (version_doc "5.0.2")]
     /\ (forall response below_5,
           version_doc "5.0.2" = Reply response ->
           version_below_5 response = Ok below_5 ->
           exists msg, fst (run (setup_cluster 11 stray_ipmi_args) answering_cluster)
                       = Raise (mkExn InvalidParameterException msg)).
Proof.
  exact (C3_stray_node_name_rejected_before_submission 11 stray_ipmi_args
           answering_cluster (or_introl (conj eq_refl eq_refl))).
Defined.

(** ** Address maps without gateway or subnet mask *)

Lemma bootstrap_config_nodes (a : setup_args) (ds dn ntp : list pyval) (below_5 : bool)
    (config : pyval) :
  bootstrap_config a ds dn ntp below_5 = Ok config ->
  exists d nodes,
    config = PDict d /\ dict_get "nodeConfigs" d = Some (PDict nodes)
    /\ node_configs a = Ok nodes.
Proof.
  unfold bootstrap_config. destruct (node_configs a) as [nodes|e|]; try discriminate.
  intros H. injection H as <-. eexists. exists nodes.
  split; [reflexivity|]. split; [apply dict_get_set_same|reflexivity].
Qed.

Lemma node_configs_without_ipmi (a : setup_args) (nodes : dict) :
  using_ipmi_config a = false -> node_configs a = Ok nodes ->
  Forall (entry_with (fun node => dict_get "ipmiIpConfig" node = None)) nodes.
Proof.
  intros Hu. unfold node_configs. rewrite Hu.
  destruct (management_nodes a) as [_ He]. cbv zeta in He.
  specialize (He "ipmiIpConfig" ltac:(discriminate)).
  destruct (using_data_config a); [|intros H; injection H as <-; exact He].
  unfold data_loop. intros H.
  eapply address_loop_ok in H; [exact (proj1 (proj2 H))| |exact He].
  intros d c Hd. cbn beta. rewrite dict_get_set_other by discriminate. exact Hd.
Qed.

Lemma node_configs_without_data (a : setup_args) (nodes : dict) :
  using_data_config a = false -> node_configs a = Ok nodes ->
  Forall (entry_with (fun node => dict_get "dataIpConfig" node = None)) nodes.
Proof.
  intros Hu. unfold node_configs. rewrite Hu.
  destruct (management_nodes a) as [_ He]. cbv zeta in He.
  specialize (He "dataIpConfig" ltac:(discriminate)).
  destruct (using_ipmi_config a).
  - unfold ipmi_loop.
    destruct (address_loop "ipmiIpConfig" _ _ _ _ _ _) as [nodes1|e|] eqn:E1;
      try discriminate.
    intros H. injection H as <-.
    eapply address_loop_ok in E1; [exact (proj1 (proj2 E1))| |exact He].
    intros d c Hd. cbn beta. rewrite dict_get_set_other by discriminate. exact Hd.
  - intros H. injection H as <-. exact He.
Qed.

Lemma absent_ipmi_not_used (a : setup_args) :
  is_none (ipmi_gateway a) = true \/ is_none (ipmi_subnet_mask a) = true ->
  using_ipmi_config a = false.
Proof.
  unfold using_ipmi_config. intros [-> | ->]; cbn [negb andb]; [reflexivity|].
  rewrite andb_false_r. reflexivity.
Qed.

Lemma absent_data_not_used (a : setup_args) :
  is_none (data_gateway a) = true \/ is_none (data_subnet_mask a) = true ->
  using_data_config a = false.
Proof.
  unfold using_data_config. intros [-> | ->]; cbn [negb andb]; [reflexivity|].
  rewrite andb_false_r. reflexivity.
Qed.

(** C10: when [ipmi_gateway] or [ipmi_subnet_mask] is [None], whatever
    [node_ipmi_ips] holds is left out: the run is the run of the same
    call without [node_ipmi_ips] (so no error comes from it and its node
    names are not checked), and no node entry of an assembled document
    has an [ipmiIpConfig].  Likewise for [data_gateway],
    [data_subnet_mask], [node_data_ips] and [dataIpConfig]. *)
Theorem C10_addresses_without_gateway_or_mask_are_left_out (a : setup_args) :
  (is_none (ipmi_gateway a) = true \/ is_none (ipmi_subnet_mask a) = true ->
   (forall fuel w,
       run (setup_cluster fuel a) w
       = run (setup_cluster fuel
                (with_ipmi (ipmi_gateway a) (ipmi_subnet_mask a) PNone a)) w)
   /\ (forall ds dn ntp below_5 config,
         bootstrap_config a ds dn ntp below_5 = Ok config ->
         document_lacks "ipmiIpConfig" config))
  /\ (is_none (data_gateway a) = true \/ is_none (data_subnet_mask a) = true ->
      (forall fuel w,
          run (setup_cluster fuel a) w
          = run (setup_cluster fuel
                   (with_data (data_gateway a) (data_subnet_mask a) PNone a)) w)
      /\ (forall ds dn ntp below_5 config,
            bootstrap_config a ds dn ntp below_5 = Ok config ->
            document_lacks "dataIpConfig" config)).
Proof.
  split; intros H; split.
  - intros fuel w.
    destruct a as [cn ae ap mg mm nc ee dsd dnn ntps wfc mv ig im iv ips dg dm dv dips tm].
    cbn in H.
    destruct H as [H|H]; [destruct ig|destruct ig, im]; try discriminate; reflexivity.
  - intros ds dn ntp below_5 config Hc.
    destruct (bootstrap_config_nodes _ _ _ _ _ _ Hc) as [d [nodes [-> [Hd Hn]]]].
    exists d, nodes. split; [reflexivity|]. split; [exact Hd|].
    exact (node_configs_without_ipmi a nodes (absent_ipmi_not_used a H) Hn).
  - intros fuel w.
    destruct a as [cn ae ap mg mm nc ee dsd dnn ntps wfc mv ig im iv ips dg dm dv dips tm].
    cbn in H.
    destruct H as [H|H]; [destruct dg|destruct dg, dm]; try discriminate; reflexivity.
  - intros ds dn ntp below_5 config Hc.
    destruct (bootstrap_config_nodes _ _ _ _ _ _ Hc) as [d [nodes [-> [Hd Hn]]]].
    exists d, nodes. split; [reflexivity|]. split; [exact Hd|].
    exact (node_configs_without_data a nodes (absent_data_not_used a H) Hn).
Qed.

Lemma C10_witness :
  run (setup_cluster 3 dropped_ipmi_args) completing
  = run (setup_cluster 3 (with_ipmi PNone (PStr "255.255.255.0") PNone dropped_ipmi_args))
        completing
  /\ document_lacks "ipmiIpConfig" edge_config_5.
Proof.
  destruct (proj1 (C10_addresses_without_gateway_or_mask_are_left_out dropped_ipmi_args)
              (or_introl eq_refl)) as [H1 H2].
  split.
  - exact (H1 3%nat completing).
  - exact (H2 [] [PStr "8.8.8.8"] [PStr "pool.ntp.org"] false edge_config_5 eq_refl).
Defined.

Example dropped_ipmi_run :
  fst (run (setup_cluster 3 dropped_ipmi_args) completing) = Ok (status_doc "SUCCESS").
Proof. vm_compute. reflexivity. Qed.

(** ** Address resolution *)

Lemma prefix_shorter (s1 s3 : string) :
  forall s2, prefix (s1 ++ s3) s2 = true -> prefix s1 s2 = true.
Proof.
  induction s1 as [|c s1 IH]; intros s2 H; [destruct s2; reflexivity|].
  destruct s2 as [|b s2]; cbn [append prefix] in *; [discriminate|].
  destruct (ascii_dec c b); [apply IH, H|discriminate].
Qed.

Lemma mapped_prefix_found (addr : string) :
  prefix "::ffff:" addr = true -> str_in "::ffff" addr = true.
Proof.
  intros H. apply (prefix_shorter "::ffff" ":") in H.
  unfold str_in. destruct addr as [|b addr]; [discriminate|].
  cbn [index]. rewrite H. reflexivity.
Qed.

(** C6, as stated, fails: with an IPv4-mapped answer the constructor
    marks the node as resolved at once; the IPv4 resolution of lines
    390-396 is not run, and the construction succeeds even where that
    resolution would fail. *)
Lemma C6_counterexample :
  getaddrinfo6 mapped_only "::ffff:10.0.0.11" = Some ("::ffff:10.0.0.11", 0)
  /\ Bootstrap_init mapped_only "::ffff:10.0.0.11" None
     = (Ok {| node_ip := "::ffff:10.0.0.11"; ipv6_addr := ""; ipv6_scope := None |},
        [AF_INET6])
  /\ ~ (In AF_INET (snd (Bootstrap_init mapped_only "::ffff:10.0.0.11" None))
        /\ fst (Bootstrap_init mapped_only "::ffff:10.0.0.11" None)
           = resolve_ipv4 mapped_only "::ffff:10.0.0.11").
Proof.
  split; [reflexivity|]. split; [reflexivity|].
  intros [_ H]. vm_compute in H. discriminate.
Qed.

(** C6, amended: when the IPv6 resolution of the input returns an
    IPv4-mapped address (prefix [::ffff:]), that address is discarded and
    the node counts as resolved without any IPv4 resolution being made:
    the constructor succeeds with the input unchanged as the connection
    address, no brackets and no scope, and an empty [ipv6_addr]. *)
Theorem C6_ipv4_mapped_answer_keeps_the_input
    (sk : sockets) (node : string) (interface : option string)
    (addr : string) (scope : Z) :
  interface_ok sk interface = true ->
  getaddrinfo6 sk node = Some (addr, scope) ->
  prefix "::ffff:" addr = true ->
  Bootstrap_init sk node interface
  = (Ok {| node_ip := node; ipv6_addr := ""; ipv6_scope := None |}, [AF_INET6]).
Proof.
  intros Hi Hg Hp. unfold Bootstrap_init.
  rewrite Hg, (mapped_prefix_found _ Hp).
  destruct interface as [i|]; [|reflexivity].
  cbn [interface_ok] in Hi. destruct (if_nametoindex sk i); [reflexivity|discriminate].
Qed.

Lemma C6_witness :
  Bootstrap_init mapped_only "::ffff:10.0.0.11" None
  = (Ok {| node_ip := "::ffff:10.0.0.11"; ipv6_addr := ""; ipv6_scope := None |},
     [AF_INET6]).
Proof.
  exact (C6_ipv4_mapped_answer_keeps_the_input mapped_only "::ffff:10.0.0.11" None
           "::ffff:10.0.0.11" 0 eq_refl eq_refl eq_refl).
Defined.

(** A scan that meets a name without "lo" adopts that interface's index;
    a scan that meets none leaves the scope as it was. *)
Lemma scan_interfaces_first (skipped rest : list (Z * string)) (index : Z)
    (name : string) (scope : pyval) :
  Forall (fun i => str_in "lo" (snd i) = true) skipped ->
  str_in "lo" name = false ->
  scan_interfaces (skipped ++ (index, name) :: rest) scope = PInt index.
Proof.
  intros Hs Hn. induction Hs as [|[i n] skipped Hi _ IH]; cbn [app scan_interfaces].
  - rewrite Hn. reflexivity.
  - cbn [snd] in Hi. rewrite Hi. exact IH.
Qed.

Lemma scan_interfaces_none (interfaces : list (Z * string)) (scope : pyval) :
  Forall (fun i => str_in "lo" (snd i) = true) interfaces ->
  scan_interfaces interfaces scope = scope.
Proof.
  induction 1 as [|[i n] interfaces Hi _ IH]; cbn [scan_interfaces]; [reflexivity|].
  cbn [snd] in Hi. rewrite Hi. exact IH.
Qed.

(** With scope 0 and no interface argument, the first interface whose
    name has no "lo" gives the scope. *)
Lemma resolve_scope_adopts_first (sk : sockets) (skipped rest : list (Z * string))
    (index : Z) (name : string) :
  if_nameindex sk = (skipped ++ (index, name) :: rest)%list ->
  Forall (fun i => str_in "lo" (snd i) = true) skipped ->
  str_in "lo" name = false ->
  index <> 0 ->
  resolve_scope sk None 0 = Ok (PInt index).
Proof.
  intros Hl Hs Hn Hi. unfold resolve_scope. cbn [str_of_Z py_eq_str].
  change (py_eq_str (PStr (str_of_Z 0)) "0") with true. cbv iota.
  rewrite Hl, (scan_interfaces_first _ _ _ _ _ Hs Hn). cbn [py_eq_int].
  destruct (Z.eqb_spec index 0); [contradiction|reflexivity].
Qed.

(** When no interface qualifies the scope stays the text "0", which is
    not equal to the number 0 of the test of line 378: no exit. *)
Lemma resolve_scope_without_usable (sk : sockets) :
  Forall (fun i => str_in "lo" (snd i) = true) (if_nameindex sk) ->
  resolve_scope sk None 0 = Ok (PStr "0").
Proof.
  intros Hs. unfold resolve_scope.
  change (py_eq_str (PStr (str_of_Z 0)) "0") with true. cbv iota.
  rewrite (scan_interfaces_none _ _ Hs). reflexivity.
Qed.

(** C5, on the code: with a genuine IPv6 address of scope 0, no interface
    argument and no interface other than the loopback, the constructor
    does not fail: the scope is still the text "0", the test
    [self.ipv6_scope == 0] of line 378 compares it with a number and is
    false, and the object is built with the address "[fe80::1%0]".  With
    interfaces lo and eth0 the index of eth0 is adopted. *)
Theorem C5_no_usable_interface_is_not_fatal :
  Bootstrap_init loopback_only "fe80::1" None
  = (Ok {| node_ip := "[fe80::1%0]"; ipv6_addr := "fe80::1";
           ipv6_scope := Some (PStr "0") |}, [AF_INET6])
  /\ Bootstrap_init lo_and_eth0 "fe80::1" None
     = (Ok {| node_ip := "[fe80::1%2]"; ipv6_addr := "fe80::1";
              ipv6_scope := Some (PInt 2) |}, [AF_INET6]).
Proof. split; reflexivity. Qed.

(* ------------------------------------------------------------------ *)
(** * Further properties of the code *)

(** ** Arguments *)

(** X1: whenever one of the checks of lines 447-467 fails ([node_config]
    is not a dictionary, or an optional list argument is neither [None]
    nor a list), the call raises [InvalidParameterException] without any
    network call. *)
Theorem invalid_arguments_are_rejected_offline
    (fuel : nat) (a : setup_args) (w : world) :
  arguments_valid a = false ->
  exists msg,
    run (setup_cluster fuel a) w = (Raise (mkExn InvalidParameterException msg), []).
Proof.
  intros H. unfold run. rewrite setup_cluster_unfold, submit_unfold.
  unfold arguments_valid in H.
  assert (Hnc : is_none (node_config a) || negb (isinstance_dict (node_config a))
                = negb (isinstance_dict (node_config a)))
    by (destruct (node_config a); reflexivity).
  rewrite Hnc.
  destruct (isinstance_dict (node_config a)); cbn [negb andb] in *;
    [|eexists; reflexivity].
  pose proof (list_argument_cases "dns_search_domains" [] (dns_search_domains a)) as H1.
  destruct (list_or_none (dns_search_domains a)); destruct H1 as [x1 ->];
    cbn [negb andb] in *; [|eexists; reflexivity].
  pose proof (list_argument_cases "dns_nameservers" [PStr "8.8.8.8"] (dns_nameservers a))
    as H2.
  destruct (list_or_none (dns_nameservers a)); destruct H2 as [x2 ->];
    cbn [negb andb] in *; [|eexists; reflexivity].
  pose proof (list_argument_cases "ntp_servers" [PStr "pool.ntp.org"] (ntp_servers a))
    as H3.
  destruct (list_or_none (ntp_servers a)); destruct H3 as [x3 ->];
    [discriminate|eexists; reflexivity].
Qed.

Lemma invalid_arguments_witness :
  exists msg,
    run (setup_cluster 11 bad_dns_args) answering_cluster
    = (Raise (mkExn InvalidParameterException msg), []).
Proof.
  exact (invalid_arguments_are_rejected_offline 11 bad_dns_args answering_cluster eq_refl).
Defined.

(** ** The submission loop, refusal by refusal *)

Lemma retries_succ (config tm : pyval) (w : world) (first k : nat) :
  retries config tm w first (S k)
  = EPost "internal" "/cluster/me/bootstrap" config tm (post_reply (net w) first)
      :: ESleep 30 :: retries config tm w (S first) k.
Proof. reflexivity. Qed.

Lemma retries_counts (config tm : pyval) (w : world) :
  forall k first,
    count is_post (retries config tm w first k) = k
    /\ count is_sleep (retries config tm w first k) = k
    /\ count is_get (retries config tm w first k) = 0%nat.
Proof.
  induction k as [|k IH]; intros first; [repeat split|].
  rewrite retries_succ. destruct (IH (S first)) as [Hp [Hs Hg]].
  unfold count in *. cbn [filter is_post is_sleep is_get length].
  rewrite Hp, Hs, Hg. repeat split.
Qed.

Lemma refuses_first_spec (w : world) (k i : nat) :
  refuses_first w k = true -> (i < k)%nat -> refusal (post_reply (net w) i) = true.
Proof.
  unfold refuses_first. rewrite forallb_forall. intros H Hi.
  apply H, in_seq. lia.
Qed.

(** While the answers are refusals and the counter stays below 12, the
    loop goes on: [k] refusals cost [k] turns and leave [k] POSTs, each
    followed by its delay. *)
Lemma post_loop_refusals (config tm : pyval) (w : world) :
  forall (k fuel : nat) (n : Z) (t : trace),
    (forall i, (i < k)%nat ->
               refusal (post_reply (net w) (count is_post t + i)) = true) ->
    n + Z.of_nat k < 12 ->
    post_loop (k + fuel) config tm n w t
    = post_loop fuel config tm (n + Z.of_nat k) w
        (t ++ retries config tm w (count is_post t) k)%list.
Proof.
  induction k as [|k IH]; intros fuel n t Href Hn.
  - cbn [Nat.add retries seq flat_map]. rewrite app_nil_r, Z.add_0_r. reflexivity.
  - cbn [Nat.add]. rewrite post_loop_step. cbv zeta.
    pose proof (Href 0%nat ltac:(lia)) as H0. rewrite Nat.add_0_r in H0.
    destruct (post_reply (net w) (count is_post t)) as [d|e] eqn:Er;
      [discriminate|].
    cbn [refusal] in H0. apply andb_true_iff in H0. destruct H0 as [-> ->].
    destruct (Z.eqb_spec (n + 1) 12) as [E|_]; [lia|].
    rewrite IH.
    + rewrite !count_app, !count_one. cbn [is_post]. rewrite Nat.add_0_r.
      replace (count is_post t + 1)%nat with (S (count is_post t)) by lia.
      rewrite retries_succ, Er, <- !app_assoc. cbn [app].
      replace (n + 1 + Z.of_nat k) with (n + Z.of_nat (S k)) by lia.
      reflexivity.
    + intros i Hi. rewrite !count_app, !count_one. cbn [is_post].
      replace (count is_post t + 1 + 0 + i)%nat with (count is_post t + S i)%nat by lia.
      apply Href. lia.
    + lia.
Qed.

(** A run that has a POST in its trace got to the submission loop. *)
Lemma submission_reached (fuel : nat) (a : setup_args) (w : world) :
  (0 < count is_post (snd (submit fuel a w [])))%nat ->
  exists config ipv4_addr response,
    get_reply (net w) 0 = Reply response
    /\ first_value (items_of (node_config a)) = Ok ipv4_addr
    /\ submit fuel a w []
       = match post_loop fuel config (timeout a) 1 w
                 [EGet Primary "v1" "/cluster/me/version" (timeout a) (Reply response)]
         with
         | (Ok (inl api_request), t2) => (Ok (inl (api_request, ipv4_addr)), t2)
         | (Ok (inr value), t2) => (Ok (inr value), t2)
         | (Raise e, t2) => (Raise e, t2)
         | (OutOfFuel, t2) => (OutOfFuel, t2)
         end.
Proof.
  rewrite submit_unfold. cbv zeta. change (count is_primary_get []) with 0%nat.
  cbn [app].
  destruct (is_none (node_config a) || negb (isinstance_dict (node_config a)));
    [cbn; lia|].
  destruct (list_argument "dns_search_domains" [] (dns_search_domains a))
    as [search_domains|e|]; try (cbn; lia).
  destruct (list_argument "dns_nameservers" [PStr "8.8.8.8"] (dns_nameservers a))
    as [nameservers|e|]; try (cbn; lia).
  destruct (list_argument "ntp_servers" [PStr "pool.ntp.org"] (ntp_servers a))
    as [ntp|e|]; try (cbn; lia).
  destruct (get_reply (net w) 0) as [response|e]; [|cbn; lia].
  destruct (version_below_5 response) as [below_5|e|]; try (cbn; lia).
  destruct (bootstrap_config a search_domains nameservers ntp below_5) as [config|e|];
    try (cbn; lia).
  destruct (first_value (items_of (node_config a))) as [ipv4_addr|e|]; try (cbn; lia).
  intros _. exists config, ipv4_addr, response. repeat split.
Qed.

Lemma run_posts_from_submit (fuel : nat) (a : setup_args) (w : world) :
  count is_post (snd (run (setup_cluster fuel a) w))
  = count is_post (snd (submit fuel a w [])).
Proof.
  unfold run. rewrite setup_cluster_unfold.
  destruct (submit fuel a w []) as [[[[api_request ipv4_addr]|value]|e|] t'];
    try reflexivity.
  destruct (after_submission_trace fuel a w api_request ipv4_addr t')
    as [more [Hmore Hnp]].
  rewrite Hmore, count_app, (count_zero_Forall is_post more Hnp). cbn [snd]. lia.
Qed.

(** X2: when the first [k] submissions (at most ten) are refused and the
    next one is accepted, the submitting part of [setup_cluster] ends with
    that answer and the first node's management address as the fallback,
    after exactly [k + 1] POSTs and [k] delays of 30 seconds. *)
Theorem submission_succeeds_after_refusals
    (fuel : nat) (a : setup_args) (w : world) (k : nat) (d : pyval) :
  refuses_first w k = true ->
  post_reply (net w) k = Reply d ->
  (k <= 10)%nat ->
  (k < fuel)%nat ->
  (0 < count is_post (snd (submit fuel a w [])))%nat ->
  exists ipv4_addr,
    first_value (items_of (node_config a)) = Ok ipv4_addr
    /\ fst (submit fuel a w []) = Ok (inl (d, ipv4_addr))
    /\ count is_post (snd (submit fuel a w [])) = S k
    /\ count is_sleep (snd (submit fuel a w [])) = k.
Proof.
  intros Href Hd Hk Hf Hreach.
  destruct (submission_reached fuel a w Hreach)
    as [config [ipv4_addr [response [Hg [Hip Hsub]]]]].
  exists ipv4_addr. split; [exact Hip|]. rewrite Hsub.
  replace fuel with (k + S (fuel - S k))%nat by lia.
  rewrite post_loop_refusals;
    [|intros i Hi; cbn [count filter is_post length Nat.add];
      exact (refuses_first_spec w k i Href Hi)|lia].
  change (count is_post [EGet Primary "v1" "/cluster/me/version" (timeout a)
                            (Reply response)]) with 0%nat.
  destruct (retries_counts config (timeout a) w k 0) as [Hp [Hs _]].
  rewrite post_loop_step. cbv zeta. rewrite count_app, Hp.
  change (count is_post [EGet Primary "v1" "/cluster/me/version" (timeout a)
                            (Reply response)]) with 0%nat.
  cbn [Nat.add]. rewrite Hd. cbn [fst snd].
  repeat split.
  - rewrite !count_app, Hp, count_one. cbn. lia.
  - rewrite !count_app, Hs, count_one. cbn. lia.
Qed.

Lemma submission_succeeds_witness :
  exists ipv4_addr,
    first_value (items_of (node_config edge_args)) = Ok ipv4_addr
    /\ fst (submit 11 edge_args slow_cluster []) = Ok (inl (accepted_doc, ipv4_addr))
    /\ count is_post (snd (submit 11 edge_args slow_cluster [])) = 4%nat
    /\ count is_sleep (snd (submit 11 edge_args slow_cluster [])) = 3%nat.
Proof.
  apply (submission_succeeds_after_refusals 11 edge_args slow_cluster 3 accepted_doc);
    solve [reflexivity | lia | vm_compute; lia].
Defined.

Lemma run_of_submit_failure (fuel : nat) (a : setup_args) (w : world)
    (e : exn) (t : trace) :
  submit fuel a w [] = (Raise e, t) -> run (setup_cluster fuel a) w = (Raise e, t).
Proof. intros H. unfold run. rewrite setup_cluster_unfold, H. reflexivity. Qed.

(** X3: when the first [k] submissions (at most ten) are refused and the
    next one fails in another way that is not "already bootstrapped", the
    call fails at once, without a further POST or delay and without
    polling: an [APICallException] comes out as [RubrikException] with the
    same text, any other exception as it is. *)
Theorem other_failure_is_not_retried
    (fuel : nat) (a : setup_args) (w : world) (k : nat) (e : exn) :
  refuses_first w k = true ->
  post_reply (net w) k = Fails e ->
  refusal (Fails e) = false ->
  exn_kind_eqb (kind e) APICallException && str_in already_text (text e) = false ->
  (k <= 10)%nat ->
  (k < fuel)%nat ->
  (0 < count is_post (snd (run (setup_cluster fuel a) w)))%nat ->
  fst (run (setup_cluster fuel a) w)
  = Raise (if exn_kind_eqb (kind e) APICallException
           then mkExn RubrikException (text e) else e)
  /\ count is_post (snd (run (setup_cluster fuel a) w)) = S k
  /\ count is_sleep (snd (run (setup_cluster fuel a) w)) = k
  /\ count is_get (snd (run (setup_cluster fuel a) w)) = 1%nat.
Proof.
  intros Href Hd Hnr Hna Hk Hf Hreach. rewrite run_posts_from_submit in Hreach.
  destruct (submission_reached fuel a w Hreach)
    as [config [ipv4_addr [response [Hg [Hip Hsub]]]]].
  revert Hsub. replace fuel with (k + S (fuel - S k))%nat at 2 by lia.
  rewrite post_loop_refusals;
    [|intros i Hi; cbn [count filter is_post length Nat.add];
      exact (refuses_first_spec w k i Href Hi)|lia].
  change (count is_post [EGet Primary "v1" "/cluster/me/version" (timeout a)
                            (Reply response)]) with 0%nat.
  destruct (retries_counts config (timeout a) w k 0) as [Hp [Hs Hgets]].
  rewrite post_loop_step. cbv zeta. rewrite count_app, Hp.
  change (count is_post [EGet Primary "v1" "/cluster/me/version" (timeout a)
                            (Reply response)]) with 0%nat.
  cbn [Nat.add]. rewrite Hd. cbn [refusal] in Hnr.
  destruct (exn_kind_eqb (kind e) APICallException); cbn [andb] in Hnr, Hna.
  - rewrite Hnr, Hna. intros Hsub. rewrite (run_of_submit_failure _ _ _ _ _ Hsub).
    cbn [fst snd]. rewrite !count_app, Hp, Hs, Hgets, !count_one. cbn.
    repeat split; lia.
  - intros Hsub. rewrite (run_of_submit_failure _ _ _ _ _ Hsub).
    cbn [fst snd]. rewrite !count_app, Hp, Hs, Hgets, !count_one. cbn.
    repeat split; lia.
Qed.

Lemma other_failure_witness :
  fst (run (setup_cluster 11 edge_args) failing_cluster)
  = Raise (mkExn RubrikException "Connection timed out")
  /\ count is_post (snd (run (setup_cluster 11 edge_args) failing_cluster)) = 3%nat
  /\ count is_sleep (snd (run (setup_cluster 11 edge_args) failing_cluster)) = 2%nat
  /\ count is_get (snd (run (setup_cluster 11 edge_args) failing_cluster)) = 1%nat.
Proof.
  apply (other_failure_is_not_retried 11 edge_args failing_cluster 2
           (mkExn APICallException "Connection timed out"));
    solve [reflexivity | lia | vm_compute; lia].
Defined.

(** X4: when the first eleven submissions are all refused, the call gives
    up with [APICallException] "Unable to establish a connection to the
    Rubrik cluster." after eleven POSTs and eleven delays of 30 seconds,
    whatever the twelfth answer would be. *)
Theorem eleven_refusals_exhaust_the_loop
    (fuel : nat) (a : setup_args) (w : world) :
  refuses_first w 11 = true ->
  (11 <= fuel)%nat ->
  (0 < count is_post (snd (run (setup_cluster fuel a) w)))%nat ->
  fst (run (setup_cluster fuel a) w) = Raise (mkExn APICallException unable_text)
  /\ count is_post (snd (run (setup_cluster fuel a) w)) = 11%nat
  /\ count is_sleep (snd (run (setup_cluster fuel a) w)) = 11%nat
  /\ count is_get (snd (run (setup_cluster fuel a) w)) = 1%nat.
Proof.
  intros Href Hf Hreach. rewrite run_posts_from_submit in Hreach.
  destruct (submission_reached fuel a w Hreach)
    as [config [ipv4_addr [response [Hg [Hip Hsub]]]]].
  revert Hsub. replace fuel with (10 + S (fuel - 11))%nat at 2 by lia.
  rewrite post_loop_refusals;
    [|intros i Hi; cbn [count filter is_post length Nat.add];
      exact (refuses_first_spec w 11 i Href ltac:(lia))|lia].
  change (count is_post [EGet Primary "v1" "/cluster/me/version" (timeout a)
                            (Reply response)]) with 0%nat.
  destruct (retries_counts config (timeout a) w 10 0) as [Hp [Hs Hgets]].
  rewrite post_loop_step. cbv zeta. rewrite count_app, Hp.
  change (count is_post [EGet Primary "v1" "/cluster/me/version" (timeout a)
                            (Reply response)]) with 0%nat.
  cbn [Nat.add].
  pose proof (refuses_first_spec w 11 10 Href ltac:(lia)) as H10.
  destruct (post_reply (net w) 10) as [d|e]; [discriminate|].
  cbn [refusal] in H10. apply andb_true_iff in H10. destruct H10 as [-> ->].
  change (1 + Z.of_nat 10 + 1 =? 12) with true. cbv iota.
  intros Hsub. rewrite (run_of_submit_failure _ _ _ _ _ Hsub).
  cbn [fst snd]. rewrite !count_app, Hp, Hs, Hgets, !count_one. cbn.
  repeat split; lia.
Qed.

Lemma eleven_refusals_witness :
  fst (run (setup_cluster 11 edge_args) deaf_cluster)
  = Raise (mkExn APICallException unable_text)
  /\ count is_post (snd (run (setup_cluster 11 edge_args) deaf_cluster)) = 11%nat
  /\ count is_sleep (snd (run (setup_cluster 11 edge_args) deaf_cluster)) = 11%nat
  /\ count is_get (snd (run (setup_cluster 11 edge_args) deaf_cluster)) = 1%nat.
Proof.
  apply (eleven_refusals_exhaust_the_loop 11 edge_args deaf_cluster);
    solve [reflexivity | lia | vm_compute; lia].
Defined.

(** ** What every run looks like *)

(** What the submission loop adds: POSTs of the one document and delays,
    a delay for each refused POST and none else, and at most one POST
    that was not refused. *)
Lemma post_loop_shape (config tm : pyval) (w : world) :
  forall (fuel : nat) (n : Z) (t : trace),
  exists new,
    snd (post_loop fuel config tm n w t) = (t ++ new)%list
    /\ Forall (submission_event config tm) new
    /\ (count is_post new <= count refused_post new + 1)%nat
    /\ count is_sleep new = count refused_post new
    /\ count is_get new = 0%nat.
Proof.
  induction fuel as [|fuel IH]; intros n t.
  - exists []. cbn [post_loop]. unfold out_of_fuel. cbn [snd].
    rewrite app_nil_r. repeat split; [all_events | cbn; lia].
  - rewrite post_loop_step. cbv zeta.
    set (r := post_reply (net w) (count is_post t)).
    set (p := EPost "internal" "/cluster/me/bootstrap" config tm r).
    assert (Hp : submission_event config tm p) by (right; exists r; reflexivity).
    assert (Hs : submission_event config tm (ESleep 30)) by (left; reflexivity).
    assert (Hone : forall rest,
               count is_post (p :: rest) = S (count is_post rest)
               /\ count is_sleep (p :: rest) = count is_sleep rest
               /\ count is_get (p :: rest) = count is_get rest
               /\ count refused_post (p :: rest)
                  = ((if refusal r then 1 else 0) + count refused_post rest)%nat).
    { intros rest. unfold count. subst p. cbn [filter is_post is_sleep is_get refused_post].
      destruct (refusal r); repeat split. }
    destruct r as [d|e] eqn:Er.
    + exists [p]. cbn [snd]. destruct (Hone []) as [H1 [H2 [H3 H4]]].
      rewrite H1, H2, H3, H4. cbn.
      repeat split; [all_events | lia].
    + destruct (exn_kind_eqb (kind e) APICallException) eqn:Ek.
      * destruct (str_in refused_text (text e)) eqn:Eref.
        -- assert (Hr : refusal (Fails e) = true) by (cbn; rewrite Ek, Eref; reflexivity).
           destruct (n + 1 =? 12).
           ++ exists [p; ESleep 30]. cbn [snd]. rewrite <- app_assoc.
              destruct (Hone [ESleep 30]) as [H1 [H2 [H3 H4]]].
              rewrite H1, H2, H3, H4, Hr. cbn.
              repeat split; [all_events | lia].
           ++ destruct (IH (n + 1) ((t ++ [p]) ++ [ESleep 30])%list)
                as [new [Hnew [Hall [Hc1 [Hc2 Hc3]]]]].
              exists (p :: ESleep 30 :: new).
              destruct (Hone (ESleep 30 :: new)) as [H1 [H2 [H3 H4]]].
              rewrite H1, H2, H3, H4, Hr.
              change (ESleep 30 :: new) with ([ESleep 30] ++ new)%list.
              rewrite !count_app, !count_one. cbn [is_post is_sleep is_get refused_post].
              split; [rewrite Hnew; repeat rewrite <- app_assoc; reflexivity|].
              split; [repeat (apply Forall_cons; [assumption|]); exact Hall|].
              repeat split; lia.
        -- assert (Hr : refusal (Fails e) = false) by (cbn; rewrite Ek, Eref; reflexivity).
           destruct (Hone []) as [H1 [H2 [H3 H4]]].
           destruct (str_in already_text (text e)); exists [p]; cbn [snd];
             rewrite H1, H2, H3, H4, Hr; cbn; (repeat split; [all_events | lia]).
      * assert (Hr : refusal (Fails e) = false) by (cbn; rewrite Ek; reflexivity).
        destruct (Hone []) as [H1 [H2 [H3 H4]]].
        exists [p]. cbn [snd]. rewrite H1, H2, H3, H4, Hr. cbn.
        repeat split; [all_events | lia].
Qed.

(** The trace of a run: nothing, or the version query, then what the
    submission loop did, then what the polling did. *)
Lemma run_shape (fuel : nat) (a : setup_args) (w : world) :
  exists pre config new more,
    snd (run (setup_cluster fuel a) w) = (pre ++ new ++ more)%list
    /\ (pre = [] \/ pre = [EGet Primary "v1" "/cluster/me/version" (timeout a)
                               (get_reply (net w) 0)])
    /\ Forall (submission_event config (timeout a)) new
    /\ (count is_post new <= count refused_post new + 1)%nat
    /\ count is_sleep new = count refused_post new
    /\ count is_get new = 0%nat
    /\ Forall (fun e => is_post e = false) more
    /\ (py_truthy (wait_for_completion a) = false -> more = []).
Proof.
  assert (Hnil : forall (o : outcome pyval) (pre : trace),
             pre = [] \/ pre = [EGet Primary "v1" "/cluster/me/version" (timeout a)
                                     (get_reply (net w) 0)] ->
             exists pre' config new more,
               snd (o, pre) = (pre' ++ new ++ more)%list
               /\ (pre' = [] \/ pre' = [EGet Primary "v1" "/cluster/me/version" (timeout a)
                                             (get_reply (net w) 0)])
               /\ Forall (submission_event config (timeout a)) new
               /\ (count is_post new <= count refused_post new + 1)%nat
               /\ count is_sleep new = count refused_post new
               /\ count is_get new = 0%nat
               /\ Forall (fun e => is_post e = false) more
               /\ (py_truthy (wait_for_completion a) = false -> more = [])).
  { intros o pre Hpre. exists pre, PNone, [], []. cbn [snd app]. rewrite app_nil_r.
    repeat split; auto; cbn; lia. }
  unfold run. rewrite setup_cluster_unfold, submit_unfold. cbv zeta.
  change (count is_primary_get []) with 0%nat. cbn [app].
  destruct (is_none (node_config a) || negb (isinstance_dict (node_config a)));
    [apply Hnil; auto|].
  destruct (list_argument "dns_search_domains" [] (dns_search_domains a))
    as [search_domains|e|]; try (apply Hnil; auto).
  destruct (list_argument "dns_nameservers" [PStr "8.8.8.8"] (dns_nameservers a))
    as [nameservers|e|]; try (apply Hnil; auto).
  destruct (list_argument "ntp_servers" [PStr "pool.ntp.org"] (ntp_servers a))
    as [ntp|e|]; try (apply Hnil; auto).
  remember (get_reply (net w) 0) as g eqn:Eg.
  destruct g as [response|e]; [|apply Hnil; auto].
  destruct (version_below_5 response) as [below_5|e|]; try (apply Hnil; auto).
  destruct (bootstrap_config a search_domains nameservers ntp below_5) as [config|e|];
    try (apply Hnil; auto).
  destruct (first_value (items_of (node_config a))) as [ipv4_addr|e|];
    try (apply Hnil; auto).
  set (v := EGet Primary "v1" "/cluster/me/version" (timeout a) (Reply response)).
  destruct (post_loop_shape config (timeout a) w fuel 1 [v])
    as [new [Hnew [Hall [Hc1 [Hc2 Hc3]]]]].
  destruct (post_loop fuel config (timeout a) 1 w [v])
    as [[[api_request|value]|e|] t2]; cbn [snd] in Hnew; subst t2.
  2-4: exists [v], config, new, []; cbn [snd]; rewrite app_nil_r;
    repeat split; auto.
  destruct (py_getitem api_request "id") as [request_id|e|].
  2-3: exists [v], config, new, []; cbn [snd]; rewrite app_nil_r;
    repeat split; auto.
  destruct (py_truthy (wait_for_completion a)).
  - destruct (poll_loop_trace request_id ipv4_addr w fuel ([v] ++ new)%list)
      as [more [Hmore Hnp]].
    exists [v], config, new, more. rewrite Hmore, <- app_assoc.
    repeat split; auto. discriminate.
  - exists [v], config, new, []. cbn [snd]. rewrite app_nil_r.
    repeat split; auto.
Qed.

(** X5: all the POSTs of a run go to [/cluster/me/bootstrap] of the
    internal API with the caller's timeout and carry one and the same
    document: a retry resubmits what was refused. *)
Theorem every_submission_carries_the_same_document
    (fuel : nat) (a : setup_args) (w : world) :
  exists config,
    forall e, In e (snd (run (setup_cluster fuel a) w)) -> is_post e = true ->
              exists r, e = EPost "internal" "/cluster/me/bootstrap" config (timeout a) r.
Proof.
  destruct (run_shape fuel a w)
    as [pre [config [new [more [Ht [Hpre [Hall [_ [_ [_ [Hnp _]]]]]]]]]]].
  exists config. intros e Hin Hpost. rewrite Ht, !in_app_iff in Hin.
  destruct Hin as [Hin|[Hin|Hin]].
  - destruct Hpre as [->| ->]; [destruct Hin|].
    destruct Hin as [<-|[]]. discriminate.
  - rewrite Forall_forall in Hall. destruct (Hall e Hin) as [-> | H]; [discriminate|exact H].
  - rewrite Forall_forall in Hnp. rewrite (Hnp e Hin) in Hpost. discriminate.
Qed.

Lemma count_pre_version (p : event -> bool) (a : setup_args) (w : world) (pre : trace) :
  pre = [] \/ pre = [EGet Primary "v1" "/cluster/me/version" (timeout a)
                          (get_reply (net w) 0)] ->
  p (EGet Primary "v1" "/cluster/me/version" (timeout a) (get_reply (net w) 0)) = false ->
  count p pre = 0%nat.
Proof. intros [->| ->] H; [reflexivity|]. rewrite count_one, H. reflexivity. Qed.

(** X6: in every run at most one POST gets an answer other than
    "connection refused": the loop submits again after a refusal only,
    and nothing is submitted once the polling has begun. *)
Theorem only_refusals_are_retried (fuel : nat) (a : setup_args) (w : world) :
  (count is_post (snd (run (setup_cluster fuel a) w))
   <= count refused_post (snd (run (setup_cluster fuel a) w)) + 1)%nat.
Proof.
  destruct (run_shape fuel a w)
    as [pre [config [new [more [Ht [Hpre [Hall [Hc1 [_ [_ [Hnp _]]]]]]]]]]].
  rewrite Ht, !count_app.
  rewrite (count_pre_version is_post a w pre Hpre eq_refl).
  rewrite (count_zero_Forall is_post more Hnp). lia.
Qed.

(** X7: a call that does not wait for completion never polls: its only
    GET, if any, is the version query, and it sleeps once for each refused
    submission and not otherwise. *)
Theorem without_waiting_nothing_is_polled (fuel : nat) (a : setup_args) (w : world) :
  py_truthy (wait_for_completion a) = false ->
  (count is_get (snd (run (setup_cluster fuel a) w)) <= 1)%nat
  /\ count is_fallback_get (snd (run (setup_cluster fuel a) w)) = 0%nat
  /\ count is_sleep (snd (run (setup_cluster fuel a) w))
     = count refused_post (snd (run (setup_cluster fuel a) w)).
Proof.
  intros Hwait.
  destruct (run_shape fuel a w)
    as [pre [config [new [more [Ht [Hpre [Hall [_ [Hc2 [Hc3 [_ Hmore]]]]]]]]]]].
  rewrite (Hmore Hwait), app_nil_r in Ht. rewrite Ht, !count_app.
  rewrite (count_pre_version is_sleep a w pre Hpre eq_refl).
  rewrite (count_pre_version refused_post a w pre Hpre eq_refl).
  rewrite (count_pre_version is_fallback_get a w pre Hpre eq_refl).
  assert (Hf : count is_fallback_get new = 0%nat).
  { apply count_zero_Forall. eapply Forall_impl; [|exact Hall].
    intros e [->|[r ->]]; reflexivity. }
  rewrite Hc3, Hf. repeat split; try lia.
  destruct Hpre as [->| ->]; cbn; lia.
Qed.

Lemma without_waiting_witness :
  (count is_get (snd (run (setup_cluster 11 no_wait_args) slow_cluster)) <= 1)%nat
  /\ count is_fallback_get (snd (run (setup_cluster 11 no_wait_args) slow_cluster)) = 0%nat
  /\ count is_sleep (snd (run (setup_cluster 11 no_wait_args) slow_cluster))
     = count refused_post (snd (run (setup_cluster 11 no_wait_args) slow_cluster)).
Proof.
  exact (without_waiting_nothing_is_polled 11 no_wait_args slow_cluster eq_refl).
Defined.

Example without_waiting_answer :
  fst (run (setup_cluster 11 no_wait_args) slow_cluster) = Ok accepted_doc.
Proof. vm_compute. reflexivity. Qed.

(** ** After the submission *)

(** X8: an accepted submission whose answer is a document without [id]
    makes the call fail with [KeyError], whether or not the caller waits
    for completion: [api_request['id']] is read before
    [wait_for_completion] is looked at.  Nothing is polled. *)
Theorem answer_without_id_is_a_key_error
    (fuel : nat) (a : setup_args) (w : world) (d : dict) :
  post_reply (net w) 0 = Reply (PDict d) ->
  dict_get "id" d = None ->
  (0 < fuel)%nat ->
  (0 < count is_post (snd (run (setup_cluster fuel a) w)))%nat ->
  fst (run (setup_cluster fuel a) w) = Raise (mkExn KeyError "")
  /\ count is_get (snd (run (setup_cluster fuel a) w)) = 1%nat
  /\ count is_sleep (snd (run (setup_cluster fuel a) w)) = 0%nat.
Proof.
  intros Hd Hid Hf Hreach. rewrite run_posts_from_submit in Hreach.
  destruct (submission_reached fuel a w Hreach)
    as [config [ipv4_addr [response [Hg [Hip Hsub]]]]].
  revert Hsub. destruct fuel as [|fuel]; [lia|].
  rewrite post_loop_step. cbv zeta.
  change (count is_post [EGet Primary "v1" "/cluster/me/version" (timeout a)
                            (Reply response)]) with 0%nat.
  rewrite Hd. intros Hsub.
  unfold run. rewrite setup_cluster_unfold, Hsub.
  unfold py_getitem. rewrite Hid. cbn [fst snd].
  repeat split.
Qed.

Lemma answer_without_id_witness :
  fst (run (setup_cluster 11 no_wait_args) anonymous_cluster) = Raise (mkExn KeyError "")
  /\ count is_get (snd (run (setup_cluster 11 no_wait_args) anonymous_cluster)) = 1%nat
  /\ count is_sleep (snd (run (setup_cluster 11 no_wait_args) anonymous_cluster)) = 0%nat.
Proof.
  apply (answer_without_id_is_a_key_error 11 no_wait_args anonymous_cluster
           [("status", PStr "IN_PROGRESS")]);
    solve [reflexivity | lia | vm_compute; lia].
Defined.

(** X9: an exception that [status] raises while the call waits for
    completion (the GET at the resolved address and its retry both failed,
    or the secondary client could not be built) ends the call with that
    exception as it is; the polling is not resumed. *)
Theorem polling_failure_propagates
    (fuel : nat) (a : setup_args) (w : world)
    (api_request ipv4_addr request_id : pyval) (e : exn)
    (t0 t1 t2 : trace) (n : nat) :
  py_truthy (wait_for_completion a) = true ->
  submit fuel a w [] = (Ok (inl (api_request, ipv4_addr)), t0) ->
  py_getitem api_request "id" = Ok request_id ->
  waiting n request_id ipv4_addr w t0 = Some t1 ->
  status request_id (PInt 15) ipv4_addr w t1 = (Raise e, t2) ->
  (n < fuel)%nat ->
  run (setup_cluster fuel a) w = (Raise e, t2)
  /\ count is_sleep t2 = (count is_sleep t0 + n)%nat.
Proof.
  intros Hwait Hsub Hid Hw Hst Hfuel.
  assert (Hrun : run (setup_cluster fuel a) w
                 = poll_loop fuel request_id ipv4_addr w t0).
  { unfold run. rewrite setup_cluster_unfold, Hsub, Hid, Hwait. reflexivity. }
  assert (Hpoll : poll_loop fuel request_id ipv4_addr w t0
                  = poll_loop (S (fuel - S n)) request_id ipv4_addr w t1).
  { rewrite <- (poll_loop_waiting _ _ _ n (S (fuel - S n)) _ _ Hw).
    replace (n + S (fuel - S n))%nat with fuel by lia. reflexivity. }
  rewrite Hrun, Hpoll, poll_loop_step, Hst. split; [reflexivity|].
  rewrite (status_sleeps _ _ _ _ _ _ _ Hst). exact (waiting_sleeps _ _ _ _ _ _ Hw).
Qed.

Lemma polling_failure_witness :
  run (setup_cluster 3 edge_args) vanishing_cluster
  = (Raise (mkExn APICallException "Connection timed out"), vanishing_done)
  /\ count is_sleep vanishing_done = (count is_sleep vanishing_submitted + 1)%nat.
Proof.
  apply (polling_failure_propagates 3 edge_args vanishing_cluster accepted_doc
           (PStr "10.0.0.11") (PInt 1) (mkExn APICallException "Connection timed out")
           vanishing_submitted vanishing_waited vanishing_done 1);
    solve [vm_compute; reflexivity | lia].
Defined.

(** ** [status], whatever the cluster answers *)

(** X10: [status] is a query and nothing else: it adds one or two events
    to the trace, all of them GETs of [/cluster/me/bootstrap?request_id=]
    followed by the request id, on the internal API and with the timeout
    it was given, the first one at the resolved address; it neither
    submits nor sleeps. *)
Theorem status_only_queries
    (request_id tm ipv4_addr : pyval) (w : world) (t : trace) :
  exists first rest,
    snd (status request_id tm ipv4_addr w t) = (t ++ first :: rest)%list
    /\ (exists r, first = EGet Primary "internal"
                            ("/cluster/me/bootstrap?request_id=" ++ py_str request_id)
                            tm r)
    /\ (rest = [] \/
        exists node r,
          rest = [EGet (Fallback node) "internal"
                       ("/cluster/me/bootstrap?request_id=" ++ py_str request_id) tm r]).
Proof.
  rewrite status_cases. cbv zeta. unfold status_endpoint.
  destruct (get_reply (net w) (count is_primary_get t)) as [d|e].
  - eexists. exists []. repeat split; eauto.
  - destruct (exn_kind_eqb (kind e) APICallException).
    + destruct (Connect_init (environ w) ipv4_addr PNone PNone (PStr "abcd") "debug").
      * eexists. eexists. cbn [snd]. rewrite <- app_assoc. cbn [app].
        split; [reflexivity|]. split; [eauto|]. right. eauto.
      * eexists. exists []. repeat split; eauto.
      * eexists. exists []. repeat split; eauto.
    + eexists. exists []. repeat split; eauto.
Qed.

(** ** The [Connect] object *)

(** The constructor as [status] uses it is the full constructor, seen
    through the node and the token. *)
Lemma Connect_init_of_object (env : os_environ) (version : string)
    (node_ip username password api_token : pyval) (logging_level : string) :
  Connect_init env node_ip username password api_token logging_level
  = match Connect.init env version node_ip username password api_token logging_level with
    | Ok self =>
        Ok {| conn_node_ip := Connect.node_ip self;
              conn_api_token := match Connect.api_token self with
                                | Some token => token
                                | None => PNone
                                end |}
    | Raise e => Raise e
    | OutOfFuel => OutOfFuel
    end.
Proof.
  unfold Connect_init, Connect.init.
  destruct (negb (mem logging_level ["debug"; "critical"; "error"; "warning"; "info"]));
    [reflexivity|].
  destruct (is_none (if is_none node_ip then environ_get (rubrik_cdm_node_ip env)
                     else node_ip)); [reflexivity|].
  unfold credential.
  destruct (py_truthy username), (py_truthy password), (py_truthy api_token),
    (rubrik_cdm_username env), (rubrik_cdm_password env), (rubrik_cdm_token env);
    reflexivity.
Qed.

(** X11: a user name without a password, or a password without a user
    name, counting arguments and environment variables alike, makes the
    constructor fail with [InvalidParameterException], also when an API
    token is given. *)
Theorem unpaired_credentials_are_rejected (env : os_environ) (version : string)
    (node_ip username password api_token : pyval) (logging_level : string) :
  provided username (rubrik_cdm_username env)
  <> provided password (rubrik_cdm_password env) ->
  exists msg,
    Connect.init env version node_ip username password api_token logging_level
    = Raise (mkExn InvalidParameterException msg).
Proof.
  unfold provided, Connect.init. intros H.
  destruct (negb (mem logging_level ["debug"; "critical"; "error"; "warning"; "info"]));
    [eexists; reflexivity|].
  destruct (is_none (if is_none node_ip then environ_get (rubrik_cdm_node_ip env)
                     else node_ip)); [eexists; reflexivity|].
  unfold credential.
  destruct (py_truthy username), (py_truthy password), (py_truthy api_token),
    (rubrik_cdm_username env), (rubrik_cdm_password env), (rubrik_cdm_token env);
    cbn in H; try congruence; eexists; reflexivity.
Qed.

Lemma unpaired_credentials_witness :
  exists msg,
    Connect.init unpaired_environ "3.8.0" (PStr "10.0.0.11") PNone PNone (PStr "abcd") "debug"
    = Raise (mkExn InvalidParameterException msg).
Proof.
  apply (unpaired_credentials_are_rejected unpaired_environ "3.8.0" (PStr "10.0.0.11")
           PNone PNone (PStr "abcd") "debug").
  vm_compute. discriminate.
Defined.

(** X12: a user name and a password passed as arguments, with no token
    argument, always make a client that authenticates with them: the
    environment, even one that holds a token, has no say. *)
Theorem explicit_pair_wins_over_environment (env : os_environ) (version : string)
    (node_ip username password api_token : pyval) (logging_level : string) :
  valid_level logging_level = true ->
  is_none (node_of env node_ip) = false ->
  py_truthy username = true ->
  py_truthy password = true ->
  py_truthy api_token = false ->
  exists self,
    Connect.init env version node_ip username password api_token logging_level = Ok self
    /\ Connect.username self = Some username
    /\ Connect.password self = Some password
    /\ Connect.api_token self = Some PNone
    /\ Connect._authorization_header self
       = Some (dict_set "Authorization"
                 (PStr ("Basic " ++ b64encode (utf8 (py_str username ++ ":"
                                                       ++ py_str password))))
                 (Connect._header self)).
Proof.
  unfold valid_level, node_of, Connect.init. intros Hl Hn Hu Hp Ht.
  rewrite Hl. cbn [negb]. cbv zeta. rewrite Hn.
  unfold credential. rewrite Hu, Hp, Ht.
  destruct (rubrik_cdm_token env); eexists; repeat split.
Qed.

Lemma explicit_pair_witness :
  exists self,
    Connect.init full_environ "3.8.0" (PStr "10.0.0.11") (PStr "admin") (PStr "secret")
                 PNone "debug" = Ok self
    /\ Connect.username self = Some (PStr "admin")
    /\ Connect.password self = Some (PStr "secret")
    /\ Connect.api_token self = Some PNone
    /\ Connect._authorization_header self
       = Some (dict_set "Authorization"
                 (PStr ("Basic " ++ b64encode (utf8 ("admin" ++ ":" ++ "secret"))))
                 (Connect._header self)).
Proof.
  exact (explicit_pair_wins_over_environment full_environ "3.8.0" (PStr "10.0.0.11")
           (PStr "admin") (PStr "secret") PNone "debug"
           eq_refl eq_refl eq_refl eq_refl eq_refl).
Defined.

(** X13: when a token is passed as an argument and the constructor
    succeeds, the client authenticates with [Bearer] and that token,
    whatever user name and password the arguments or the environment
    hold. *)
Theorem token_argument_gives_bearer (env : os_environ) (version : string)
    (node_ip username password api_token : pyval) (logging_level : string)
    (self : Connect.t) :
  Connect.init env version node_ip username password api_token logging_level = Ok self ->
  py_truthy api_token = true ->
  Connect._authorization_header self
  = Some (dict_set "Authorization" (PStr ("Bearer " ++ py_str api_token))
            (Connect._header self)).
Proof.
  unfold Connect.init. intros H Ht.
  destruct (negb (mem logging_level ["debug"; "critical"; "error"; "warning"; "info"]));
    [discriminate|].
  destruct (is_none (if is_none node_ip then environ_get (rubrik_cdm_node_ip env)
                     else node_ip)); [discriminate|].
  unfold credential in H. rewrite Ht in H.
  destruct (py_truthy username), (py_truthy password),
    (rubrik_cdm_username env), (rubrik_cdm_password env), (rubrik_cdm_token env);
    cbn in H; try discriminate; injection H as <-;
    destruct api_token; try discriminate; reflexivity.
Qed.

Lemma token_argument_witness :
  Connect._authorization_header
    {| Connect.node_ip := PStr "10.0.0.11"; Connect.logging_level := "debug";
       Connect.username := None; Connect.password := None;
       Connect.api_token := Some (PStr "abcd");
       Connect.sdk_version := "2.0.10"; Connect.python_version := "3.8.0";
       Connect.function_name := ""; Connect.platform := "" |}
  = Some [("Content-Type", PStr "application/json"); ("Accept", PStr "application/json");
          ("User-Agent", PStr "RubrikPythonSDK--2.0.10--3.8.0");
          ("rk-integration", PStr ""); ("Authorization", PStr "Bearer abcd")].
Proof.
  exact (token_argument_gives_bearer full_environ "3.8.0" (PStr "10.0.0.11")
           PNone PNone (PStr "abcd") "debug" _ eq_refl eq_refl).
Defined.

Lemma prefix_app (s x : string) : prefix s (s ++ x) = true.
Proof.
  induction s as [|c s IH]; [destruct x; reflexivity|].
  cbn [append prefix]. destruct (ascii_dec c c); [exact IH|congruence].
Qed.

(** X14: every client the constructor returns can build its
    authorization header: the attributes the header reads have been
    assigned, and the header carries either [Basic] or [Bearer]
    credentials. *)
Theorem constructed_client_has_authorization (env : os_environ) (version : string)
    (node_ip username password api_token : pyval) (logging_level : string)
    (self : Connect.t) :
  Connect.init env version node_ip username password api_token logging_level = Ok self ->
  exists header value,
    Connect._authorization_header self = Some header
    /\ dict_get "Authorization" header = Some (PStr value)
    /\ (prefix "Basic " value = true \/ prefix "Bearer " value = true).
Proof.
  unfold Connect.init. intros H.
  destruct (negb (mem logging_level ["debug"; "critical"; "error"; "warning"; "info"]));
    [discriminate|].
  destruct (is_none (if is_none node_ip then environ_get (rubrik_cdm_node_ip env)
                     else node_ip)); [discriminate|].
  unfold credential in H.
  destruct (py_truthy username), (py_truthy password), (py_truthy api_token) eqn:Et,
    (rubrik_cdm_username env), (rubrik_cdm_password env), (rubrik_cdm_token env);
    cbn in H; try discriminate; injection H as <-;
    try (destruct api_token; try discriminate);
    eexists; eexists; (split; [reflexivity|]); (split; [reflexivity|]);
    solve [left; apply (prefix_app "Basic ") | right; apply (prefix_app "Bearer ")].
Qed.

Lemma constructed_client_witness :
  exists header value,
    Connect._authorization_header
      {| Connect.node_ip := PStr "10.0.0.12"; Connect.logging_level := "debug";
         Connect.username := None; Connect.password := None;
         Connect.api_token := Some (PStr "envtoken");
         Connect.sdk_version := "2.0.10"; Connect.python_version := "3.8.0";
         Connect.function_name := ""; Connect.platform := "" |} = Some header
    /\ dict_get "Authorization" header = Some (PStr value)
    /\ (prefix "Basic " value = true \/ prefix "Bearer " value = true).
Proof.
  exact (constructed_client_has_authorization
           {| rubrik_cdm_node_ip := Some "10.0.0.12"; rubrik_cdm_username := None;
              rubrik_cdm_password := None; rubrik_cdm_token := Some "envtoken" |}
           "3.8.0" PNone PNone PNone PNone "debug" _ eq_refl).
Defined.

(** ** The credentials of the [Basic] header *)

Ltac byte_arith := zify; Z.div_mod_to_equations; lia.

Lemma b64_index_char (n : nat) : (n < 64)%nat -> b64_index (b64_char n) = Some n.
Proof.
  intros H. do 64 (destruct n as [|n]; [reflexivity|]). lia.
Qed.

Lemma b64_char_not_pad (n : nat) : (n < 64)%nat -> Ascii.eqb (b64_char n) "=" = false.
Proof.
  intros H. do 64 (destruct n as [|n]; [reflexivity|]). lia.
Qed.

Lemma byte_bound (a : ascii) : (nat_of_ascii a < 256)%nat.
Proof. apply nat_ascii_bounded. Qed.

Lemma byte_of (a : ascii) (n : nat) : n = nat_of_ascii a -> ascii_of_nat n = a.
Proof. intros ->. apply ascii_nat_embedding. Qed.

Lemma b64_round_trip_upto (n : nat) :
  forall l, (List.length l <= n)%nat -> b64decode (b64encode l) = Some l.
Proof.
  induction n as [|n IH]; intros l Hl.
  - destruct l; [reflexivity|cbn in Hl; lia].
  - destruct l as [|a [|b [|c r]]]; [reflexivity| | |].
    + pose proof (byte_bound a) as Ha.
      cbn [b64encode b64decode].
      rewrite !b64_index_char by byte_arith.
      cbn [Ascii.eqb Bool.eqb andb]. cbv iota.
      f_equal. f_equal. apply byte_of. byte_arith.
    + pose proof (byte_bound a) as Ha. pose proof (byte_bound b) as Hb.
      cbn [b64encode b64decode].
      rewrite !b64_index_char by byte_arith.
      rewrite (b64_char_not_pad (nat_of_ascii b mod 16 * 4)) by byte_arith.
      cbn [Ascii.eqb Bool.eqb andb]. cbv iota.
      f_equal. f_equal; [|f_equal]; apply byte_of; byte_arith.
    + pose proof (byte_bound a) as Ha. pose proof (byte_bound b) as Hb.
      pose proof (byte_bound c) as Hc.
      cbn [b64encode b64decode].
      rewrite !b64_index_char by byte_arith.
      rewrite (b64_char_not_pad (nat_of_ascii c mod 64)) by byte_arith.
      rewrite IH by (cbn [List.length] in Hl; lia).
      f_equal. f_equal; [|f_equal; [|f_equal]]; apply byte_of; byte_arith.
Qed.

Lemma b64_round_trip (l : list ascii) : b64decode (b64encode l) = Some l.
Proof. exact (b64_round_trip_upto (List.length l) l (le_n _)). Qed.

(** X15: the [Basic] value of the authorization header loses nothing of
    the credentials: decoding it from Base64 gives back the UTF-8 bytes of
    [username:password]. *)
Theorem basic_credentials_round_trip (self : Connect.t) (u p : pyval) :
  Connect.api_token self = Some PNone ->
  Connect.username self = Some u ->
  Connect.password self = Some p ->
  exists header credentials,
    Connect._authorization_header self = Some header
    /\ dict_get "Authorization" header = Some (PStr ("Basic " ++ credentials))
    /\ b64decode credentials = Some (utf8 (py_str u ++ ":" ++ py_str p)).
Proof.
  intros Ht Hu Hp.
  unfold Connect._authorization_header. rewrite Ht, Hu, Hp.
  eexists. eexists. split; [reflexivity|]. split; [reflexivity|].
  apply b64_round_trip.
Qed.

Lemma basic_credentials_witness :
  exists header credentials,
    Connect._authorization_header admin_client = Some header
    /\ dict_get "Authorization" header = Some (PStr ("Basic " ++ credentials))
    /\ b64decode credentials = Some (utf8 ("admin" ++ ":" ++ "secret")).
Proof.
  exact (basic_credentials_round_trip admin_client (PStr "admin") (PStr "secret")
           eq_refl eq_refl eq_refl).
Defined.

Example basic_admin_secret :
  b64encode (utf8 "admin:secret") = "YWRtaW46c2VjcmV0".
Proof. reflexivity. Qed.

(** ** The two headers *)

(** X16: the header without authorization never carries credentials, and
    the authorization header is that header with the one entry
    [Authorization] added at the end: the two agree on every other key. *)
Theorem authorization_header_extends_header (self : Connect.t) (header : dict) :
  Connect._authorization_header self = Some header ->
  dict_get "Authorization" (Connect._header self) = None
  /\ map fst header = (map fst (Connect._header self) ++ ["Authorization"])%list
  /\ forall k, k <> "Authorization" ->
               dict_get k header = dict_get k (Connect._header self).
Proof.
  unfold Connect._authorization_header. intros H.
  split; [reflexivity|].
  destruct (Connect.api_token self) as [token|]; [|discriminate].
  assert (Hset : forall v,
             map fst (dict_set "Authorization" v (Connect._header self))
             = (map fst (Connect._header self) ++ ["Authorization"])%list
             /\ forall k, k <> "Authorization" ->
                  dict_get k (dict_set "Authorization" v (Connect._header self))
                  = dict_get k (Connect._header self)).
  { intros v. split; [reflexivity|]. intros k Hk. apply dict_get_set_other. exact Hk. }
  destruct token;
    try (injection H as <-; apply Hset).
  destruct (Connect.username self), (Connect.password self); try discriminate.
  injection H as <-. apply Hset.
Qed.

Lemma authorization_header_witness :
  dict_get "Authorization" (Connect._header admin_client) = None
  /\ map fst (dict_set "Authorization" (PStr "Basic YWRtaW46c2VjcmV0")
                (Connect._header admin_client))
     = (map fst (Connect._header admin_client) ++ ["Authorization"])%list
  /\ forall k, k <> "Authorization" ->
               dict_get k (dict_set "Authorization" (PStr "Basic YWRtaW46c2VjcmV0")
                             (Connect._header admin_client))
               = dict_get k (Connect._header admin_client).
Proof.
  exact (authorization_header_extends_header admin_client _ eq_refl).
Defined.

Lemma str_app_assoc (a b c : string) : (a ++ b) ++ c = a ++ b ++ c.
Proof. induction a as [|x a IH]; cbn [append]; [reflexivity|]. rewrite IH. reflexivity. Qed.

(** X17: [_platform_user_agent] replaces the platform of the client: a
    second call forgets the first.  The user agent of the headers then
    ends with ["--"] and the platform text; with an empty name and a
    version [v] that text itself starts with two dashes, so that four
    dashes stand before [platform_version]; with both empty the user agent
    has no suffix. *)
Theorem platform_user_agent_composes
    (name version name' version' : pyval) (self : Connect.t) :
  Connect._platform_user_agent name' version'
    (Connect._platform_user_agent name version self)
  = Connect._platform_user_agent name' version' self
  /\ Connect.user_agent (Connect._platform_user_agent name version self)
     = "RubrikPythonSDK--" ++ Connect.sdk_version self ++ "--"
         ++ Connect.python_version self
         ++ (if negb (py_eq_str name "") then "--platform_name--" ++ py_str name
             else if negb (py_eq_str version "") then "--" else "")
         ++ (if negb (py_eq_str version "")
             then "--platform_version--" ++ py_str version else "").
Proof.
  split; [reflexivity|].
  unfold Connect.user_agent, Connect._platform_user_agent.
  cbn [Connect.platform Connect.sdk_version Connect.python_version].
  assert (Hend : forall x, x ++ "" = x).
  { induction x as [|c x IH]; cbn [append]; [reflexivity|]. rewrite IH. reflexivity. }
  destruct (negb (py_eq_str name "")), (negb (py_eq_str version ""));
    cbn [append String.eqb Ascii.eqb Bool.eqb andb negb];
    rewrite ?str_app_assoc; cbn [append]; rewrite ?str_app_assoc, ?Hend; cbn [append];
    reflexivity.
Qed.

(** ** [_api_validation] *)

Lemma str_length_app (a b : string) :
  String.length (a ++ b) = (String.length a + String.length b)%nat.
Proof. induction a as [|x a IH]; cbn; [reflexivity|]. rewrite IH. reflexivity. Qed.

Lemma str_get_app_skip (a b : string) (i : nat) :
  String.get (String.length a + i) (a ++ b) = String.get i b.
Proof. induction a as [|x a IH]; cbn; [reflexivity|exact IH]. Qed.

(** A text is empty or ends with a character. *)
Lemma str_snoc_view (s : string) :
  s = "" \/ exists r c, s = r ++ String c "".
Proof.
  induction s as [|x s IH]; [left; reflexivity|right].
  destruct IH as [->|[r [c ->]]].
  - exists "", x. reflexivity.
  - exists (String x r), c. reflexivity.
Qed.

Lemma str_snoc_inj (r r' : string) (c c' : ascii) :
  r ++ String c "" = r' ++ String c' "" -> r = r' /\ c = c'.
Proof.
  revert r'. induction r as [|x r IH]; intros [|x' r'] H; cbn in H.
  - injection H as ->. split; reflexivity.
  - injection H as -> H. destruct r'; discriminate.
  - injection H as -> H. destruct r; discriminate.
  - injection H as -> H. destruct (IH _ H) as [-> ->]. split; reflexivity.
Qed.

Lemma str_at_end_1 (r : string) (c : ascii) :
  str_at_end (r ++ String c "") 1 = Some c.
Proof.
  unfold str_at_end. rewrite str_length_app. cbn [String.length].
  replace (1 <=? String.length r + 1)%nat with true by (symmetry; apply Nat.leb_le; lia).
  replace (String.length r + 1 - 1)%nat with (String.length r + 0)%nat by lia.
  rewrite str_get_app_skip. reflexivity.
Qed.

Lemma str_at_end_2 (r : string) (b c : ascii) :
  str_at_end (r ++ String b (String c "")) 2 = Some b.
Proof.
  unfold str_at_end. rewrite str_length_app. cbn [String.length].
  replace (2 <=? String.length r + 2)%nat with true by (symmetry; apply Nat.leb_le; lia).
  replace (String.length r + 2 - 2)%nat with (String.length r + 0)%nat by lia.
  rewrite str_get_app_skip. reflexivity.
Qed.

Lemma str_at_end_2_short (c : ascii) : str_at_end (String c "") 2 = None.
Proof. reflexivity. Qed.

Lemma str_snoc_snoc (r : string) (b c : ascii) :
  (r ++ String b "") ++ String c "" = r ++ String b (String c "").
Proof. rewrite str_app_assoc. reflexivity. Qed.

(** X18: the validation accepts a call exactly when the version is one
    of the valid versions and the endpoint is a text that begins with [/]
    and does not end with [/], unless it ends with [=/]. *)
Theorem api_validation_accepts
    (valid : list string) (slash_text : string) (api_version api_endpoint : pyval) :
  api_validation valid slash_text api_version api_endpoint = Ok tt
  <-> (exists v, api_version = PStr v /\ In v valid)
      /\ exists s, api_endpoint = PStr s
                   /\ (exists r, s = "/" ++ r)
                   /\ ((forall r, s <> r ++ "/") \/ exists r, s = r ++ "=/").
Proof.
  unfold api_validation.
  assert (Hver : existsb (py_eq_str api_version) valid = true
                 <-> exists v, api_version = PStr v /\ In v valid).
  { rewrite existsb_exists. split.
    - intros [v [Hin Heq]]. destruct api_version; try discriminate.
      cbn in Heq. apply String.eqb_eq in Heq. subst. exists v. split; auto.
    - intros [v [-> Hin]]. exists v. split; [exact Hin|]. cbn. apply String.eqb_refl. }
  destruct (existsb (py_eq_str api_version) valid); cbn [negb].
  2: { split; [discriminate|]. intros [Hv _]. apply Hver in Hv. discriminate. }
  assert (Hv : exists v, api_version = PStr v /\ In v valid) by (apply Hver; reflexivity).
  destruct api_endpoint as [| | |s| |];
    try (split; [discriminate|intros [_ [s' [H _]]]; discriminate]).
  destruct s as [|first s]; cbn [str_at String.get].
  { split; [discriminate|]. intros [_ [s' [H [[r Hr] _]]]]. injection H as <-. discriminate. }
  destruct (Ascii.eqb_spec first "/") as [->|Hfirst]; cbn [negb].
  2: { split; [discriminate|]. intros [_ [s' [H [[r Hr] _]]]]. injection H as <-.
       cbn in Hr. congruence. }
  destruct (str_snoc_view (String "/" s)) as [H|[r [last Hs]]]; [discriminate|].
  rewrite Hs, str_at_end_1.
  destruct (Ascii.eqb_spec last "/") as [->|Hlast].
  - destruct (str_snoc_view r) as [->|[r' [before ->]]].
    + cbn [append]. rewrite str_at_end_2_short.
      split; [discriminate|]. intros [_ [s' [H [_ [Hno|[r Hr]]]]]]; injection H as <-.
      * exfalso. exact (Hno "" eq_refl).
      * exfalso. destruct r as [|x [|y r]]; discriminate.
    + rewrite str_snoc_snoc, str_at_end_2.
      destruct (Ascii.eqb_spec before "=") as [->|Hbefore]; cbn [negb].
      * split; [intros _|reflexivity]. split; [exact Hv|].
        eexists. split; [reflexivity|]. split.
        -- rewrite <- str_snoc_snoc, <- Hs. exists s. reflexivity.
        -- right. exists r'. reflexivity.
      * split; [discriminate|].
        intros [_ [s' [H [_ [Hno|[r Hr]]]]]]; injection H as <-.
        -- exfalso. apply (Hno (r' ++ String before "")). symmetry.
           apply str_snoc_snoc.
        -- exfalso. change "=/" with (String "=" (String "/" "")) in Hr.
           rewrite <- !str_snoc_snoc in Hr.
           apply str_snoc_inj in Hr. destruct Hr as [Hr _].
           apply str_snoc_inj in Hr. destruct Hr as [_ Hr]. congruence.
  - split; [intros _|reflexivity]. split; [exact Hv|].
    eexists. split; [reflexivity|]. split.
    + rewrite <- Hs. exists s. reflexivity.
    + left. intros r0 Hr0. change "/" with (String "/" "") in Hr0.
      apply str_snoc_inj in Hr0. destruct Hr0 as [_ Hr0]. congruence.
Qed.

(** X19: the errors of the validation.  The version is checked first:
    with an invalid version the error is the parameter error, whatever the
    endpoint is.  With a valid version, an endpoint that is not a text is
    an [InvalidTypeException], and the empty text and the text ["/"] are
    not parameter errors but the [IndexError] of [api_endpoint[0]] and of
    [api_endpoint[-2]]. *)
Theorem api_validation_errors
    (valid : list string) (slash_text : string) (api_version api_endpoint : pyval) :
  (existsb (py_eq_str api_version) valid = false ->
   exists msg, api_validation valid slash_text api_version api_endpoint
               = Raise (mkExn InvalidParameterException msg))
  /\ (existsb (py_eq_str api_version) valid = true ->
      (match api_endpoint with PStr _ => False | _ => True end ->
       api_validation valid slash_text api_version api_endpoint
       = Raise (mkExn InvalidTypeException "The API Endpoint must be a string."))
      /\ api_validation valid slash_text api_version (PStr "")
         = Raise (mkExn IndexError "")
      /\ api_validation valid slash_text api_version (PStr "/")
         = Raise (mkExn IndexError "")).
Proof.
  unfold api_validation. split; intros ->; cbn [negb].
  - eexists. reflexivity.
  - split; [|split; reflexivity].
    destruct api_endpoint; intros H; try reflexivity. destruct H.
Qed.

Lemma api_validation_errors_witness :
  Connect_api_validation (PStr "v1") PNone
  = Raise (mkExn InvalidTypeException "The API Endpoint must be a string.")
  /\ Connect_api_validation (PStr "v1") (PStr "") = Raise (mkExn IndexError "")
  /\ Connect_api_validation (PStr "v1") (PStr "/") = Raise (mkExn IndexError "").
Proof.
  destruct (api_validation_errors ["v1"; "v2"; "internal"; "v3"] slash_text_of_Connect
              (PStr "v1") PNone) as [_ H].
  destruct (H eq_refl) as [H1 [H2 H3]].
  split; [exact (H1 I)|]. split; [exact H2|exact H3].
Defined.

(** X20: whatever [Bootstrap._api_validation] accepts,
    [Connect._api_validation] accepts too (the valid versions of the first
    are among those of the second); so an endpoint that passed on the
    [Bootstrap] object passes again on the secondary client of [status]. *)
Theorem bootstrap_validation_implies_connect_validation
    (slash_text : string) (api_version api_endpoint : pyval) :
  Bootstrap_api_validation slash_text api_version api_endpoint = Ok tt ->
  Connect_api_validation api_version api_endpoint = Ok tt.
Proof.
  unfold Bootstrap_api_validation, Connect_api_validation.
  rewrite !api_validation_accepts.
  intros [[v [-> Hin]] Hend]. split; [|exact Hend].
  exists v. split; [reflexivity|].
  destruct Hin as [<-|[<-|[]]]; cbn; auto.
Qed.

Lemma bootstrap_validation_witness :
  Connect_api_validation (PStr "internal") (PStr "/cluster/me/bootstrap") = Ok tt.
Proof.
  exact (bootstrap_validation_implies_connect_validation "" (PStr "internal")
           (PStr "/cluster/me/bootstrap") eq_refl).
Defined.

(** X21: the endpoint [status] builds passes the validation of both
    classes for every request id whose text does not end with [/]. *)
Theorem status_endpoint_is_valid (slash_text : string) (request_id : pyval) :
  (forall r, py_str request_id <> r ++ "/") ->
  Bootstrap_api_validation slash_text (PStr "internal")
    (PStr ("/cluster/me/bootstrap?request_id=" ++ py_str request_id)) = Ok tt
  /\ Connect_api_validation (PStr "internal")
       (PStr ("/cluster/me/bootstrap?request_id=" ++ py_str request_id)) = Ok tt.
Proof.
  intros Hid.
  assert (H : Bootstrap_api_validation slash_text (PStr "internal")
                (PStr ("/cluster/me/bootstrap?request_id=" ++ py_str request_id)) = Ok tt).
  { unfold Bootstrap_api_validation. apply api_validation_accepts. split.
    - exists "internal". split; [reflexivity|]. cbn. auto.
    - eexists. split; [reflexivity|]. split; [eexists; reflexivity|].
      left. intros r Hr.
      destruct (str_snoc_view (py_str request_id)) as [E|[r' [c E]]]; rewrite E in *.
      + change ("/cluster/me/bootstrap?request_id=" ++ "")
          with ("/cluster/me/bootstrap?request_id" ++ String "=" "") in Hr.
        change "/" with (String "/" "") in Hr.
        apply str_snoc_inj in Hr. destruct Hr as [_ Hr]. discriminate.
      + rewrite <- str_app_assoc in Hr. change "/" with (String "/" "") in Hr.
        apply str_snoc_inj in Hr. destruct Hr as [_ ->].
        exact (Hid r' eq_refl). }
  split; [exact H|].
  exact (bootstrap_validation_implies_connect_validation _ _ _ H).
Qed.

Lemma status_endpoint_witness :
  Bootstrap_api_validation "" (PStr "internal")
    (PStr ("/cluster/me/bootstrap?request_id=" ++ "1")) = Ok tt
  /\ Connect_api_validation (PStr "internal")
       (PStr ("/cluster/me/bootstrap?request_id=" ++ "1")) = Ok tt.
Proof.
  apply (status_endpoint_is_valid "" (PStr "1")).
  intros r Hr. destruct r as [|x [|y r]]; discriminate.
Defined.

(** ** [status] without a fallback address *)

Lemma Connect_init_secondary (env : os_environ) (ipv4_addr : pyval) :
  is_none (node_of env ipv4_addr) = false ->
  is_some (rubrik_cdm_username env) = is_some (rubrik_cdm_password env) ->
  Connect_init env ipv4_addr PNone PNone (PStr "abcd") "debug"
  = Ok {| conn_node_ip := node_of env ipv4_addr; conn_api_token := PStr "abcd" |}.
Proof.
  intros Hip Hcred. unfold Connect_init, node_of in *.
  cbn [mem existsb negb String.eqb Ascii.eqb Bool.eqb orb].
  cbv zeta. rewrite Hip.
  destruct (rubrik_cdm_username env), (rubrik_cdm_password env),
    (rubrik_cdm_token env); cbn in Hcred; try discriminate; reflexivity.
Qed.

(** X22: called without a fallback address, [status] retries a failed
    GET at the node that the environment variable [rubrik_cdm_node_ip]
    names: the secondary client is bound to the argument when there is
    one and to that variable otherwise. *)
Theorem status_retries_at_the_node_of_the_environment
    (w : world) (t : trace) (request_id tm ipv4_addr : pyval) (e : exn) :
  is_none (node_of (environ w) ipv4_addr) = false ->
  is_some (rubrik_cdm_username (environ w)) = is_some (rubrik_cdm_password (environ w)) ->
  get_reply (net w) (count is_primary_get t) = Fails e ->
  kind e = APICallException ->
  status request_id tm ipv4_addr w t
  = (answer (fallback_reply (net w) (count is_fallback_get t)),
     (t ++ [EGet Primary "internal" (status_endpoint request_id) tm (Fails e);
            EGet (Fallback (node_of (environ w) ipv4_addr)) "internal"
                 (status_endpoint request_id) tm
                 (fallback_reply (net w) (count is_fallback_get t))])%list).
Proof.
  intros Hip Hcred Hg Hk. rewrite status_cases. cbv zeta.
  rewrite Hg, Hk, (Connect_init_secondary _ _ Hip Hcred). cbn [exn_kind_eqb conn_node_ip].
  rewrite <- app_assoc. reflexivity.
Qed.

Lemma status_retries_witness :
  status (PInt 1) (PInt 15) PNone node_environ_world []
  = (Ok (status_doc "SUCCESS"),
     [EGet Primary "internal" "/cluster/me/bootstrap?request_id=1" (PInt 15) unreachable;
      EGet (Fallback (PStr "10.0.0.12")) "internal" "/cluster/me/bootstrap?request_id=1"
           (PInt 15) (Reply (status_doc "SUCCESS"))]).
Proof.
  exact (status_retries_at_the_node_of_the_environment node_environ_world []
           (PInt 1) (PInt 15) PNone (mkExn APICallException "Connection timed out")
           eq_refl eq_refl eq_refl eq_refl).
Defined.

(** ** The constructor of [Bootstrap] *)

Lemma str_of_Z_nonzero (z : Z) : z <> 0 -> str_of_Z z <> "0".
Proof.
  intros Hz H. unfold str_of_Z in H. destruct z as [|p|p]; [congruence| |].
  - cbn [Z.to_int NilZero.string_of_int] in H.
    apply (f_equal NilZero.uint_of_string) in H.
    rewrite NilZero.usu in H by apply Unsigned.to_uint_nonnil.
    cbn in H. injection H as H. exact (Unsigned.to_uint_nonzero p H).
  - cbn [Z.to_int NilZero.string_of_int] in H. discriminate.
Qed.

(** X23: the two fatal errors of the resolution.  An interface argument
    that names no interface ends the construction with [sys.exit] before
    any name is resolved; otherwise IPv4 is tried exactly when the IPv6
    resolution fails, and the construction fails with [RubrikException]
    exactly when both fail. *)
Theorem resolution_failures (sk : sockets) (node : string) (interface : option string) :
  (interface_ok sk interface = false <->
   Bootstrap_init sk node interface
   = (Raise (mkExn SystemExit "Error: Invalid interface supplied"), []))
  /\ (snd (Bootstrap_init sk node interface) = [AF_INET6; AF_INET] <->
      interface_ok sk interface = true /\ getaddrinfo6 sk node = None)
  /\ (fst (Bootstrap_init sk node interface)
      = Raise (mkExn RubrikException
                 "Error: Could not resolve address for cluster, or invalid IP/address supplied")
      <-> interface_ok sk interface = true /\ getaddrinfo6 sk node = None
          /\ getaddrinfo4 sk node = false).
Proof.
  unfold Bootstrap_init, interface_ok, resolve_ipv4, resolve_scope.
  destruct interface as [i|].
  - destruct (if_nametoindex sk i) as [n|]; cbn [is_some].
    + destruct (getaddrinfo6 sk node) as [[addr scope]|].
      * destruct (str_in "::ffff" addr); cbn [fst snd];
          repeat split; try discriminate;
          try (intros [_ H]; discriminate); try (intros [_ [H _]]; discriminate).
      * destruct (getaddrinfo4 sk node); cbn [fst snd];
          repeat split; try discriminate; try reflexivity;
          try (intros [_ [_ H]]; discriminate).
    + cbn [fst snd]. repeat split; try discriminate; try reflexivity;
        try (intros [H _]; discriminate).
  - destruct (getaddrinfo6 sk node) as [[addr scope]|].
    + destruct (str_in "::ffff" addr); cbn [fst snd].
      * repeat split; try discriminate;
          try (intros [_ H]; discriminate); try (intros [_ [H _]]; discriminate).
      * destruct (py_eq_str (PStr (str_of_Z scope)) "0");
          [destruct (py_eq_int (scan_interfaces (if_nameindex sk)
                                  (PStr (str_of_Z scope))) 0)|];
          cbn [fst snd]; repeat split; try discriminate;
          try (intros [_ H]; discriminate); try (intros [_ [H _]]; discriminate).
    + destruct (getaddrinfo4 sk node); cbn [fst snd];
        repeat split; try discriminate; try reflexivity;
        try (intros [_ [_ H]]; discriminate).
Qed.

(** X24: the zone of a genuine IPv6 address.  With an interface argument
    the index of that interface is the zone, whatever zone the resolution
    returned; without one, a returned zone other than 0 is kept as it is
    and the interfaces of the host are not looked at.  The connection
    address is the bracketed address with [%] and the zone. *)
Theorem zone_of_a_genuine_address
    (sk : sockets) (node addr : string) (scope : Z) (interface : option string) :
  getaddrinfo6 sk node = Some (addr, scope) ->
  str_in "::ffff" addr = false ->
  (forall i n, interface = Some i -> if_nametoindex sk i = Some n ->
     Bootstrap_init sk node interface
     = (Ok {| node_ip := "[" ++ addr ++ "%" ++ str_of_Z n ++ "]";
              ipv6_addr := addr; ipv6_scope := Some (PInt n) |}, [AF_INET6]))
  /\ (interface = None -> scope <> 0 ->
      Bootstrap_init sk node interface
      = (Ok {| node_ip := "[" ++ addr ++ "%" ++ str_of_Z scope ++ "]";
               ipv6_addr := addr; ipv6_scope := Some (PStr (str_of_Z scope)) |},
         [AF_INET6])).
Proof.
  intros Hg Hm. split.
  - intros i n -> Hi. unfold Bootstrap_init, resolve_scope. rewrite Hi, Hg, Hm.
    reflexivity.
  - intros -> Hs. unfold Bootstrap_init, resolve_scope. rewrite Hg, Hm.
    cbn [py_eq_str].
    destruct (String.eqb_spec (str_of_Z scope) "0") as [E|_];
      [destruct (str_of_Z_nonzero scope Hs E)|reflexivity].
Qed.

Lemma zone_witness :
  Bootstrap_init zoned_host "fe80::1" (Some "eth0")
  = (Ok {| node_ip := "[fe80::1%2]"; ipv6_addr := "fe80::1";
           ipv6_scope := Some (PInt 2) |}, [AF_INET6]).
Proof.
  exact (proj1 (zone_of_a_genuine_address zoned_host "fe80::1" "fe80::1" 3 (Some "eth0")
                  eq_refl eq_refl) "eth0" 2 eq_refl eq_refl).
Defined.

Example zone_kept :
  Bootstrap_init zoned_host "fe80::1" None
  = (Ok {| node_ip := "[fe80::1%3]"; ipv6_addr := "fe80::1";
           ipv6_scope := Some (PStr "3") |}, [AF_INET6]).
Proof. reflexivity. Qed.

Lemma scan_interfaces_result (interfaces : list (Z * string)) (scope : string) :
  scan_interfaces interfaces (PStr scope) = PStr scope
  \/ exists index name,
       In (index, name) interfaces
       /\ scan_interfaces interfaces (PStr scope) = PInt index.
Proof.
  induction interfaces as [|[index name] rest IH]; [left; reflexivity|].
  cbn [scan_interfaces]. destruct (negb (str_in "lo" name)).
  - right. exists index, name. split; [left; reflexivity|reflexivity].
  - destruct IH as [H|[i [n [Hin H]]]]; [left; exact H|right].
    exists i, n. split; [right; exact Hin|exact H].
Qed.

(** X25: on a host whose interfaces all have an index other than 0 (as
    every host has), the exit "Unable to find a usable IPv6 link local
    scope" of line 379 is never taken, whatever is resolved and whatever
    the interfaces are called. *)
Theorem usable_scope_exit_is_never_taken
    (sk : sockets) (node : string) (interface : option string) :
  Forall (fun i => fst i <> 0) (if_nameindex sk) ->
  fst (Bootstrap_init sk node interface)
  <> Raise (mkExn SystemExit "Error: Unable to find a usable IPv6 link local scope").
Proof.
  intros Hidx. unfold Bootstrap_init, resolve_ipv4, resolve_scope.
  destruct interface as [i|].
  - destruct (if_nametoindex sk i) as [n|]; [|discriminate].
    destruct (getaddrinfo6 sk node) as [[addr scope]|].
    + destruct (str_in "::ffff" addr); discriminate.
    + destruct (getaddrinfo4 sk node); discriminate.
  - destruct (getaddrinfo6 sk node) as [[addr scope]|].
    + destruct (str_in "::ffff" addr); [discriminate|].
      destruct (py_eq_str (PStr (str_of_Z scope)) "0"); [|discriminate].
      destruct (scan_interfaces_result (if_nameindex sk) (str_of_Z scope))
        as [->|[index [name [Hin ->]]]]; [discriminate|].
      cbn [py_eq_int]. rewrite Forall_forall in Hidx. specialize (Hidx _ Hin).
      cbn [fst] in Hidx. destruct (Z.eqb_spec index 0); [contradiction|discriminate].
    + destruct (getaddrinfo4 sk node); discriminate.
Qed.

Lemma usable_scope_exit_witness :
  fst (Bootstrap_init loopback_only "fe80::1" None)
  <> Raise (mkExn SystemExit "Error: Unable to find a usable IPv6 link local scope").
Proof.
  apply (usable_scope_exit_is_never_taken loopback_only "fe80::1" None).
  repeat constructor. discriminate.
Defined.

(** X26: the header of a constructed [Bootstrap] object never carries
    credentials; it names the host, in brackets, exactly when the
    construction kept a resolved IPv6 address, and then the connection
    address begins with that bracketed address and [%]. *)
Theorem bootstrap_header_of_a_constructed_object
    (sk : sockets) (node : string) (interface : option string)
    (self : bootstrap) (calls : list family) (version platform function_name : string) :
  Bootstrap_init sk node interface = (Ok self, calls) ->
  dict_get "Authorization" (Bootstrap_header self version platform function_name) = None
  /\ (ipv6_addr self = "" ->
      dict_get "Host" (Bootstrap_header self version platform function_name) = None)
  /\ (ipv6_addr self <> "" ->
      dict_get "Host" (Bootstrap_header self version platform function_name)
      = Some (PStr ("[" ++ ipv6_addr self ++ "]"))
      /\ prefix ("[" ++ ipv6_addr self ++ "%") (node_ip self) = true
      /\ ipv6_scope self <> None).
Proof.
  intros H. unfold Bootstrap_header.
  split; [destruct (negb (String.eqb (ipv6_addr self) "")); reflexivity|].
  split.
  - intros ->. reflexivity.
  - intros Hne. destruct (String.eqb_spec (ipv6_addr self) "") as [E|_]; [congruence|].
    cbn [negb]. split; [reflexivity|].
    unfold Bootstrap_init, resolve_ipv4 in H.
    destruct (match interface with
              | Some i => match if_nametoindex sk i with Some _ => false | None => true end
              | None => false
              end); [discriminate|].
    destruct (getaddrinfo6 sk node) as [[addr scope]|].
    + destruct (str_in "::ffff" addr).
      * injection H as <- _. cbn in Hne. congruence.
      * destruct (resolve_scope sk interface scope) as [zone|e|]; try discriminate.
        injection H as <- _. cbn [ipv6_addr node_ip ipv6_scope].
        split; [|discriminate].
        change (prefix (String "[" (addr ++ "%"))
                  (String "[" (addr ++ "%" ++ py_str zone ++ "]")) = true).
        cbn [prefix]. destruct (ascii_dec "[" "["); [|congruence].
        rewrite <- str_app_assoc. apply prefix_app.
    + destruct (getaddrinfo4 sk node); [|discriminate].
      injection H as <- _. cbn in Hne. congruence.
Qed.

Lemma bootstrap_header_witness :
  dict_get "Authorization"
    (Bootstrap_header {| node_ip := "[fe80::1%2]"; ipv6_addr := "fe80::1";
                         ipv6_scope := Some (PInt 2) |} "3.8.0" "" "status") = None
  /\ ("fe80::1" = "" ->
      dict_get "Host"
        (Bootstrap_header {| node_ip := "[fe80::1%2]"; ipv6_addr := "fe80::1";
                             ipv6_scope := Some (PInt 2) |} "3.8.0" "" "status") = None)
  /\ ("fe80::1" <> "" ->
      dict_get "Host"
        (Bootstrap_header {| node_ip := "[fe80::1%2]"; ipv6_addr := "fe80::1";
                             ipv6_scope := Some (PInt 2) |} "3.8.0" "" "status")
      = Some (PStr ("[" ++ "fe80::1" ++ "]"))
      /\ prefix ("[" ++ "fe80::1" ++ "%") "[fe80::1%2]" = true
      /\ Some (PInt 2) <> None).
Proof.
  exact (bootstrap_header_of_a_constructed_object lo_and_eth0 "fe80::1" None
           _ _ "3.8.0" "" "status" eq_refl).
Defined.

(** ** The node entries, node by node *)

Lemma dict_get_absent (k : string) (d : dict) :
  ~ In k (map fst d) -> dict_get k d = None.
Proof.
  induction d as [|[k' v] d IH]; cbn [map fst In dict_get]; [reflexivity|].
  intros H. destruct (String.eqb_spec k' k) as [E|_]; [tauto|]. apply IH. tauto.
Qed.

Lemma dict_get_present (k : string) (d : dict) :
  dict_mem k d = true -> In k (map fst d).
Proof.
  unfold dict_mem. induction d as [|[k' v] d IH]; cbn [map fst In dict_get];
    [discriminate|].
  destruct (String.eqb_spec k' k) as [E|_]; [left; exact E|]. right. apply IH, H.
Qed.

Lemma dict_set_fresh (k : string) (v : pyval) (d : dict) :
  dict_get k d = None -> dict_set k v d = (d ++ [(k, v)])%list.
Proof.
  induction d as [|[k' v'] d IH]; cbn [dict_get dict_set app]; [reflexivity|].
  destruct (String.eqb k' k); [discriminate|]. intros H. rewrite (IH H). reflexivity.
Qed.

Lemma dict_get_app_absent (k : string) (d d' : dict) :
  dict_get k d = None -> dict_get k (d ++ d')%list = dict_get k d'.
Proof.
  induction d as [|[k' v'] d IH]; cbn [dict_get app]; [reflexivity|].
  destruct (String.eqb k' k); [discriminate|exact IH].
Qed.

Lemma dict_set_keys (k : string) (v : pyval) (d : dict) :
  dict_mem k d = true -> map fst (dict_set k v d) = map fst d.
Proof.
  unfold dict_mem. induction d as [|[k' v'] d IH]; cbn [dict_get dict_set map fst];
    [discriminate|].
  destruct (String.eqb k' k); [reflexivity|]. intros H. cbn [map fst].
  rewrite (IH H). reflexivity.
Qed.

(** On fresh, distinct names the first loop appends one record a name,
    in the order of [node_config]. *)
Lemma management_loop_fresh (netmask gateway vlan : pyval) :
  forall items nodes,
    NoDup (map fst items) ->
    (forall k, In k (map fst items) -> dict_get k nodes = None) ->
    management_loop netmask gateway vlan items nodes
    = (nodes ++ map (fun kv => (fst kv,
                                PDict (dict_set "managementIpConfig"
                                         (ip_config netmask gateway (snd kv) vlan) [])))
                  items)%list.
Proof.
  induction items as [|[name ip] items IH]; intros nodes Hnd Hfresh.
  - cbn [management_loop map]. rewrite app_nil_r. reflexivity.
  - cbn [management_loop map fst snd]. cbn [map fst] in Hnd, Hfresh.
    inversion Hnd as [|? ? Hnotin Hnd']; subst.
    rewrite dict_set_fresh by (apply Hfresh; left; reflexivity).
    rewrite IH; [rewrite <- app_assoc; reflexivity|exact Hnd'|].
    intros k Hk. rewrite dict_get_app_absent by (apply Hfresh; right; exact Hk).
    cbn [dict_get]. destruct (String.eqb_spec name k) as [<-|_]; [tauto|reflexivity].
Qed.

Section AddressLoop.

Variables (key error : string) (netmask gateway vlan : pyval).

Lemma address_update_one (name : string) (ip : pyval) (items nodes : dict) (node : dict) :
  dict_get name items = None ->
  NoDup (map fst nodes) ->
  dict_get name nodes = Some (PDict node) ->
  map (address_update key netmask gateway vlan items)
    (dict_set name (PDict (dict_set key (ip_config netmask gateway ip vlan) node)) nodes)
  = map (address_update key netmask gateway vlan ((name, ip) :: items)) nodes.
Proof.
  intros Hrest. induction nodes as [|[k v] nodes IH]; intros Hnd Hget;
    cbn [dict_get] in Hget; [discriminate|].
  cbn [map fst] in Hnd. inversion Hnd as [|? ? Hnotin Hnd']; subst.
  cbn [dict_set]. destruct (String.eqb_spec k name) as [->|Hne].
  - injection Hget as ->. cbn [map]. f_equal.
    + unfold address_update. cbn [fst snd dict_get items_of].
      rewrite Hrest, String.eqb_refl. reflexivity.
    + apply map_ext_in. intros [k' v'] Hin. unfold address_update. cbn [fst snd dict_get].
      destruct (String.eqb_spec name k') as [<-|_]; [|reflexivity].
      exfalso. apply Hnotin. exact (in_map fst _ _ Hin).
  - cbn [map]. f_equal.
    + unfold address_update. cbn [fst snd dict_get].
      destruct (String.eqb_spec name k) as [E|_]; [congruence|reflexivity].
    + apply IH; assumption.
Qed.

(** A loop over an address map with distinct, known node names ends
    normally and updates the entries it names, each in its place. *)
Lemma address_loop_map :
  forall items nodes,
    NoDup (map fst items) ->
    NoDup (map fst nodes) ->
    Forall (entry_with any_record) nodes ->
    Forall (fun kv => dict_mem (fst kv) nodes = true) items ->
    address_loop key error netmask gateway vlan items nodes
    = Ok (map (address_update key netmask gateway vlan items) nodes).
Proof.
  induction items as [|[name ip] items IH]; intros nodes Hni Hnn Hrec Hknown.
  - cbn [address_loop]. f_equal. symmetry.
    transitivity (map (fun kv : string * pyval => kv) nodes); [|apply map_id].
    apply map_ext. intros kv. reflexivity.
  - cbn [map fst] in Hni. inversion Hni as [|? ? Hnotin Hni']; subst.
    inversion Hknown as [|? ? Hname Hknown']; subst. cbn [fst] in Hname.
    cbn [address_loop]. unfold dict_mem in Hname.
    destruct (dict_get name nodes) as [v|] eqn:Eg; [|discriminate].
    destruct (dict_get_entry any_record _ _ _ Hrec Eg) as [node [-> _]].
    rewrite IH.
    + f_equal. apply address_update_one; [apply dict_get_absent, Hnotin|exact Hnn|exact Eg].
    + exact Hni'.
    + rewrite dict_set_keys; [exact Hnn|]. unfold dict_mem. rewrite Eg. reflexivity.
    + apply dict_set_entries; [exact Hrec|]. eexists; split; [reflexivity|exact I].
    + eapply Forall_impl; [|exact Hknown']. intros kv Hkv. rewrite dict_mem_set, Hkv.
      apply orb_true_r.
Qed.

End AddressLoop.

Lemma not_stray_known (ips : pyval) (a : setup_args) (nodes : dict) :
  (forall k, dict_mem k nodes = dict_mem k (items_of (node_config a))) ->
  stray ips a = false ->
  Forall (fun kv => dict_mem (fst kv) nodes = true) (items_of ips).
Proof.
  intros Hk. unfold stray. induction (items_of ips) as [|kv items IH]; cbn [existsb];
    [constructor|].
  intros H. apply orb_false_iff in H. destruct H as [H1 H2].
  constructor; [|exact (IH H2)]. rewrite Hk. apply negb_false_iff, H1.
Qed.

(** X27: the three loops over [node_config], [node_ipmi_ips] and
    [node_data_ips], node by node.  When the address maps in use name
    nodes of [node_config] only, the assembly of [nodeConfigs] ends
    normally with one record for each node of [node_config], in the order
    of [node_config]: the record holds the management settings of the node
    and then, for each address map in use that names the node, the
    settings of that network with the address given for this node, and
    nothing else.  (The keys of a mapping are distinct.) *)
Theorem node_entries_node_by_node (a : setup_args) :
  NoDup (map fst (items_of (node_config a))) ->
  NoDup (map fst (items_of (node_ipmi_ips a))) ->
  NoDup (map fst (items_of (node_data_ips a))) ->
  (using_ipmi_config a = true -> stray (node_ipmi_ips a) a = false) ->
  (using_data_config a = true -> stray (node_data_ips a) a = false) ->
  node_configs a
  = Ok (map (fun kv => (fst kv, PDict (node_record a (fst kv) (snd kv))))
          (items_of (node_config a))).
Proof.
  intros Hn Hi Hd Hsi Hsd.
  destruct (management_nodes a) as [Hk He]. cbv zeta in Hk, He.
  unfold node_configs.
  assert (Hany : Forall (entry_with any_record)
                   (management_loop (management_subnet_mask a) (management_gateway a)
                      (management_vlan a) (items_of (node_config a)) [])).
  { apply (entry_with_weaken (fun d => dict_get "" d = None)); [exact (fun _ _ => I)|].
    apply He. discriminate. }
  rewrite management_loop_fresh in * by (try exact Hn; reflexivity).
  cbn [app] in *.
  set (nodes := map (fun kv : string * pyval =>
                       (fst kv,
                        PDict (dict_set "managementIpConfig"
                                 (ip_config (management_subnet_mask a) (management_gateway a)
                                    (snd kv) (management_vlan a)) [])))
                  (items_of (node_config a))) in *.
  assert (Hkeys : map fst nodes = map fst (items_of (node_config a))).
  { unfold nodes. rewrite map_map. cbn [fst]. reflexivity. }
  assert (Hupd : forall key m g v items,
             Forall (entry_with any_record) (map (address_update key m g v items) nodes)
             /\ map fst (map (address_update key m g v items) nodes) = map fst nodes
             /\ forall k, dict_mem k (map (address_update key m g v items) nodes)
                          = dict_mem k nodes).
  { intros key m g v items. clear - Hany. induction Hany as [|[k x] l [d [Hx _]] _ IH].
    - repeat split. constructor.
    - destruct IH as [IH1 [IH2 IH3]]. cbn [snd] in Hx. subst x.
      assert (Hfst : fst (address_update key m g v items (k, PDict d)) = k)
        by (unfold address_update; cbn [fst]; destruct (dict_get k items); reflexivity).
      repeat split.
      + cbn [map]. constructor; [|exact IH1].
        unfold address_update. cbn [fst snd items_of].
        destruct (dict_get k items); eexists; split; try reflexivity; exact I.
      + cbn [map]. rewrite Hfst, IH2. reflexivity.
      + intros k'. cbn [map]. unfold dict_mem in *.
        destruct (address_update key m g v items (k, PDict d)) as [k1 v1] eqn:E.
        cbn [fst] in Hfst. subst k1. cbn [dict_get].
        destruct (String.eqb k k'); [reflexivity|apply IH3]. }
  assert (Hresult : forall kv,
             In kv (items_of (node_config a)) ->
             address_update "dataIpConfig" (data_subnet_mask a) (data_gateway a) (data_vlan a)
               (if using_data_config a then items_of (node_data_ips a) else [])
               (address_update "ipmiIpConfig" (ipmi_subnet_mask a) (ipmi_gateway a)
                  (ipmi_vlan a)
                  (if using_ipmi_config a then items_of (node_ipmi_ips a) else [])
                  (fst kv, PDict (dict_set "managementIpConfig"
                                    (ip_config (management_subnet_mask a)
                                       (management_gateway a) (snd kv)
                                       (management_vlan a)) [])))
             = (fst kv, PDict (node_record a (fst kv) (snd kv)))).
  { intros [name ip] _. unfold node_record, address_entry. cbn [fst snd].
    unfold address_update at 2. cbn [fst snd].
    destruct (using_ipmi_config a); cbn [dict_get];
      [destruct (dict_get name (items_of (node_ipmi_ips a))); cbn [fst snd items_of]|];
      unfold address_update; cbn [fst snd items_of];
      destruct (using_data_config a); cbn [dict_get];
      try destruct (dict_get name (items_of (node_data_ips a))); reflexivity. }
  assert (Hfinal : Ok (map (address_update "dataIpConfig" (data_subnet_mask a)
                              (data_gateway a) (data_vlan a)
                              (if using_data_config a then items_of (node_data_ips a)
                               else []))
                         (map (address_update "ipmiIpConfig" (ipmi_subnet_mask a)
                                 (ipmi_gateway a) (ipmi_vlan a)
                                 (if using_ipmi_config a then items_of (node_ipmi_ips a)
                                  else [])) nodes))
                   = Ok (map (fun kv => (fst kv, PDict (node_record a (fst kv) (snd kv))))
                           (items_of (node_config a)))).
  { f_equal. unfold nodes. rewrite !map_map. apply map_ext_in. exact Hresult. }
  rewrite <- Hfinal. clear Hfinal Hresult.
  assert (Hid : forall key m g v (l : dict), map (address_update key m g v []) l = l).
  { intros. transitivity (map (fun kv : string * pyval => kv) l); [|apply map_id].
    apply map_ext. intros kv. reflexivity. }
  assert (Hnn : NoDup (map fst nodes)) by (rewrite Hkeys; exact Hn).
  unfold ipmi_loop, data_loop.
  destruct (using_ipmi_config a) eqn:Ui.
  - rewrite address_loop_map;
      [|exact Hi|exact Hnn|exact Hany|apply (not_stray_known _ a); [exact Hk|auto]].
    destruct (Hupd "ipmiIpConfig" (ipmi_subnet_mask a) (ipmi_gateway a) (ipmi_vlan a)
                (items_of (node_ipmi_ips a))) as [H1 [H2 H3]].
    destruct (using_data_config a) eqn:Ud.
    + rewrite address_loop_map; [reflexivity|exact Hd|rewrite H2; exact Hnn|exact H1|].
      apply (not_stray_known _ a); [|auto]. intros k. rewrite H3. apply Hk.
    + rewrite Hid. reflexivity.
  - rewrite Hid. destruct (using_data_config a) eqn:Ud.
    + rewrite address_loop_map;
        [reflexivity|exact Hd|exact Hnn|exact Hany|
         apply (not_stray_known _ a); [exact Hk|auto]].
    + rewrite Hid. reflexivity.
Qed.

Lemma node_entries_witness :
  node_configs two_nodes_args
  = Ok [("RVM157S018901",
         PDict [("managementIpConfig",
                 PDict [("netmask", PStr "255.255.255.0"); ("gateway", PStr "10.0.0.1");
                        ("address", PStr "10.0.0.11")]);
                ("dataIpConfig",
                 PDict [("netmask", PStr "255.255.255.0"); ("gateway", PStr "10.0.2.1");
                        ("address", PStr "10.0.2.11")])]);
        ("RVM157S018902",
         PDict [("managementIpConfig",
                 PDict [("netmask", PStr "255.255.255.0"); ("gateway", PStr "10.0.0.1");
                        ("address", PStr "10.0.0.12")]);
                ("ipmiIpConfig",
                 PDict [("netmask", PStr "255.255.255.0"); ("gateway", PStr "10.0.1.1");
                        ("address", PStr "10.0.1.12")]);
                ("dataIpConfig",
                 PDict [("netmask", PStr "255.255.255.0"); ("gateway", PStr "10.0.2.1");
                        ("address", PStr "10.0.2.12")])])].
Proof.
  assert (Hne : "RVM157S018901" <> "RVM157S018902") by discriminate.
  apply (node_entries_node_by_node two_nodes_args).
  - repeat constructor; cbn; intuition congruence.
  - repeat constructor; cbn; intuition congruence.
  - repeat constructor; cbn; intuition congruence.
  - reflexivity.
  - reflexivity.
Defined.

(** ** The version query *)

(** X28: a failure of the version query ends the call with the exception
    as it is, after that one GET and with nothing submitted: the
    exception of the GET itself (not turned into [RubrikException], as a
    failure of the POST is), the [KeyError] of an answer without
    [version], or whatever reading the version raises. *)
Theorem version_failure_propagates (fuel : nat) (a : setup_args) (w : world) :
  arguments_valid a = true ->
  (forall e, get_reply (net w) 0 = Fails e ->
     run (setup_cluster fuel a) w
     = (Raise e, [EGet Primary "v1" "/cluster/me/version" (timeout a) (Fails e)]))
  /\ (forall response e,
        get_reply (net w) 0 = Reply response ->
        version_below_5 response = Raise e ->
        run (setup_cluster fuel a) w
        = (Raise e, [EGet Primary "v1" "/cluster/me/version" (timeout a) (Reply response)]))
  /\ (forall d,
        get_reply (net w) 0 = Reply (PDict d) ->
        dict_get "version" d = None ->
        fst (run (setup_cluster fuel a) w) = Raise (mkExn KeyError "")).
Proof.
  intros H. unfold run. rewrite setup_cluster_unfold, submit_unfold.
  unfold arguments_valid in H.
  assert (Hnc : is_none (node_config a) || negb (isinstance_dict (node_config a))
                = negb (isinstance_dict (node_config a)))
    by (destruct (node_config a); reflexivity).
  rewrite Hnc.
  destruct (isinstance_dict (node_config a)); cbn [negb andb] in *; [|discriminate].
  pose proof (list_argument_cases "dns_search_domains" [] (dns_search_domains a)) as H1.
  destruct (list_or_none (dns_search_domains a)); destruct H1 as [x1 ->];
    cbn [negb andb] in *; [|discriminate].
  pose proof (list_argument_cases "dns_nameservers" [PStr "8.8.8.8"] (dns_nameservers a))
    as H2.
  destruct (list_or_none (dns_nameservers a)); destruct H2 as [x2 ->];
    cbn [negb andb] in *; [|discriminate].
  pose proof (list_argument_cases "ntp_servers" [PStr "pool.ntp.org"] (ntp_servers a))
    as H3.
  destruct (list_or_none (ntp_servers a)); destruct H3 as [x3 ->]; [|discriminate].
  cbv zeta. change (count is_primary_get []) with 0%nat. cbn [app].
  split; [|split].
  - intros e He. rewrite He. reflexivity.
  - intros response e Hr He. rewrite Hr, He. reflexivity.
  - intros d Hr Hd. rewrite Hr. unfold version_below_5, py_getitem.
    rewrite Hd. reflexivity.
Qed.

Lemma version_failure_witness :
  run (setup_cluster 11 edge_args) versionless_cluster
  = (Raise (mkExn KeyError ""),
     [EGet Primary "v1" "/cluster/me/version" (PInt 30)
        (Reply (PDict [("apiVersion", PStr "1")]))]).
Proof.
  exact (proj1 (proj2 (version_failure_propagates 11 edge_args versionless_cluster eq_refl))
           (PDict [("apiVersion", PStr "1")]) (mkExn KeyError "") eq_refl eq_refl).
Defined.
